(** * The faucet's request-admission pipeline: proof of work, CAPTCHA,
      abuse detection and metrics

    A shallow embedding of the Go packages [pow], [captcha], [abuse] and
    [metrics] of the faucet backend and of the allowlists of package
    [api], the properties their specification states about them, and
    further properties of the code.

    Conventions.
    - A Go [int], [int64] or [time.Duration] is a [Z]; an [int] is
      taken to be 64 bits wide, as on the 64-bit platforms.  The sum of
      the response times wraps around as the int64 addition does; a
      property that another overflow would break states the range of its
      inputs.
    - A Go [string] is a [string] (a sequence of bytes); a
      [map[string]T] is a [gmap string T], and a [map[string]*T] is a
      [gmap string T] whose entries are written back after every update
      through the pointer.
    - A method with a pointer receiver is a computation in the monad [M]
      over the receiver's state and the [World]: the wall clock and the
      two random sources, each of them a stream read one sample per call.
    - The mutexes are not modelled: every method body runs under its lock,
      so the methods are the atomic steps. *)

From Stdlib Require Import ZArith String Ascii List Bool Lia DecimalString.
From Stdlib Require Import Floats.PrimFloat Floats.FloatOps Floats.SpecFloat.
From Stdlib Require Import Numbers.Cyclic.Int63.Uint63.
From stdpp Require Import gmap strings.

Open Scope Z_scope.

(** ** Results of Go calls *)

(** A call either returns or panics with a message. *)
Inductive Outcome (A : Type) : Type :=
| Returns (a : A)
| Panics (msg : string).
Arguments Returns {A} a.
Arguments Panics {A} msg.

(** Go's [error] values are built with [fmt.Errorf]; they are modelled by
    their message, and [None] stands for [nil]. *)
Definition error := option string.

(** ** The world outside the process *)

(** [time.Time], in nanoseconds since the zero value [time.Time{}]. *)
Definition Time := Z.
Definition Duration := Z.

Module time.

Definition Nanosecond : Duration := 1.
Definition Millisecond : Duration := 1000000.
Definition Second : Duration := 1000 * Millisecond.
Definition Minute : Duration := 60 * Second.
Definition Hour : Duration := 60 * Minute.

Definition maxDuration : Duration := 2 ^ 63 - 1.
Definition minDuration : Duration := - 2 ^ 63.

(** The zero [time.Time{}] (January 1, year 1, 00:00 UTC). *)
Definition zero : Time := 0.

(** The Unix epoch, counted from the zero time. *)
Definition unixEpoch : Time := 62135596800 * Second.

Definition After (t u : Time) : bool := u <? t.
Definition Before (t u : Time) : bool := t <? u.
Definition Add (t : Time) (d : Duration) : Time := t + d.

(** [t.Sub(u)] saturates at the largest and smallest [Duration]. *)
Definition Sub (t u : Time) : Duration :=
  if maxDuration <? t - u then maxDuration
  else if t - u <? minDuration then minDuration
  else t - u.

Definition UnixNano (t : Time) : Z := t - unixEpoch.

End time.

(** The clock ([time.Now]), [math/rand] and [crypto/rand] are streams; the
    counters say how many samples have been read.  A sample of
    [crypto/rand] is a number, or the error of a failing read of
    [rand.Reader]. *)
Record World : Type := mkWorld {
  clock : nat -> Time;
  ticks : nat;
  mathrand : nat -> Z;
  mathdrawn : nat;
  cryptorand : nat -> Z + string;
  cryptodrawn : nat
}.

(** ** The monad of methods *)

Definition M (S A : Type) : Type := S -> World -> A * S * World.

Definition ret {S A : Type} (a : A) : M S A := fun s w => (a, s, w).

Definition bind {S A B : Type} (m : M S A) (k : A -> M S B) : M S B :=
  fun s w => match m s w with (a, s', w') => k a s' w' end.

Declare Scope go_scope.
Delimit Scope go_scope with go.
Notation "'do' x <- m ; k" := (bind m (fun x => k))
  (at level 10, x name, m at level 100, k at level 200) : go_scope.
Notation "'exec' m ; k" := (bind m (fun _ => k))
  (at level 10, m at level 100, k at level 200) : go_scope.
Open Scope go_scope.

Definition get {S : Type} : M S S := fun s w => (s, s, w).
Definition put {S : Type} (s : S) : M S unit := fun _ w => (tt, s, w).
Definition modify {S : Type} (f : S -> S) : M S unit := fun s w => (tt, f s, w).

(** The world after one reading of the clock. *)
Definition tick (w : World) : World :=
  mkWorld (clock w) (Datatypes.S (ticks w)) (mathrand w) (mathdrawn w)
          (cryptorand w) (cryptodrawn w).

(** The reading the next [time.Now()] returns. *)
Definition now (w : World) : Time := clock w (ticks w).

(** [time.Now()] *)
Definition Now {S : Type} : M S Time := fun s w => (now w, s, tick w).

(** [math/rand.Intn(n)]: the next sample, brought into [0, n). *)
Definition Intn {S : Type} (n : Z) : M S Z := fun s w =>
  (mathrand w (mathdrawn w) mod n, s,
   mkWorld (clock w) (ticks w) (mathrand w) (Datatypes.S (mathdrawn w))
           (cryptorand w) (cryptodrawn w)).

(** [crypto/rand.Int(rand.Reader, max)]: the next sample, brought into
    [0, max), or the reader's error. *)
Definition cryptoInt {S : Type} (max : Z) : M S (Z + string) := fun s w =>
  (match cryptorand w (cryptodrawn w) with
   | inl z => inl (z mod max)
   | inr err => inr err
   end, s,
   mkWorld (clock w) (ticks w) (mathrand w) (mathdrawn w)
           (cryptorand w) (Datatypes.S (cryptodrawn w))).

(** Running a method: its result, the receiver afterwards, the world
    afterwards. *)
Definition result {S A : Type} (r : A * S * World) : A := fst (fst r).
Definition after {S A : Type} (r : A * S * World) : S := snd (fst r).
Definition world {S A : Type} (r : A * S * World) : World := snd r.

(** ** Strings of the Go standard library *)

Module strings.

(** [strings.Repeat(s, count)]; it panics on a negative count. *)
Fixpoint repeat (s : string) (n : nat) : string :=
  match n with
  | O => EmptyString
  | Datatypes.S n' => s ++ repeat s n'
  end.

Definition Repeat (s : string) (count : Z) : Outcome string :=
  if count <? 0 then Panics "strings: negative Repeat count"
  else Returns (repeat s (Z.to_nat count)).

(** [strings.HasPrefix(s, prefix)] *)
Definition HasPrefix (s prefix : string) : bool := String.prefix prefix s.

End strings.

(** [fmt.Sprintf("%d", n)] *)
Definition itoa (n : Z) : string := NilZero.string_of_int (Z.to_int n).

(** [s[i]] for a constant string [s] and an index in range. *)
Definition byteAt (s : string) (i : Z) : ascii :=
  match String.get (Z.to_nat i) s with
  | Some c => c
  | None => Ascii.zero
  end.

(** ** SHA-256 ([crypto/sha256], FIPS 180-4) and [encoding/hex] *)

Module sha256.

Definition add32 (a b : Z) : Z := (a + b) mod 2 ^ 32.
Definition not32 (a : Z) : Z := Z.lxor a 0xffffffff.
Definition rotr (n x : Z) : Z :=
  Z.lor (Z.shiftr x n) (Z.land (Z.shiftl x (32 - n)) 0xffffffff).

Definition Ch (x y z : Z) : Z := Z.lxor (Z.land x y) (Z.land (not32 x) z).
Definition Maj (x y z : Z) : Z :=
  Z.lxor (Z.lxor (Z.land x y) (Z.land x z)) (Z.land y z).
Definition Sigma0 (x : Z) : Z := Z.lxor (Z.lxor (rotr 2 x) (rotr 13 x)) (rotr 22 x).
Definition Sigma1 (x : Z) : Z := Z.lxor (Z.lxor (rotr 6 x) (rotr 11 x)) (rotr 25 x).
Definition sigma0 (x : Z) : Z := Z.lxor (Z.lxor (rotr 7 x) (rotr 18 x)) (Z.shiftr x 3).
Definition sigma1 (x : Z) : Z := Z.lxor (Z.lxor (rotr 17 x) (rotr 19 x)) (Z.shiftr x 10).

(** The largest [r] below [2 ^ bits] with [r ^ k <= n], bit by bit. *)
Fixpoint root (k : Z) (bits : nat) (n r : Z) : Z :=
match bits with
| O => r
| Datatypes.S b =>
    let r' := r + 2 ^ Z.of_nat b in
    if r' ^ k <=? n then root k b n r' else root k b n r
end.

(** The first 32 bits of the fractional part of the [k]-th root of [p]. *)
Definition fractional (k p : Z) : Z := root k 40 (p * 2 ^ (32 * k)) 0 mod 2 ^ 32.

Definition isPrime (n : Z) : bool :=
forallb (fun d => negb (n mod Z.of_nat d =? 0)) (seq 2 (Z.to_nat n - 2)).

Definition primes : list Z :=
filter isPrime (map Z.of_nat (seq 2 310)).

(** The round constants: the cube roots of the first 64 primes. *)
Definition K : list Z := Eval vm_compute in map (fractional 3) primes.

(** The initial hash value: the square roots of the first 8 primes. *)
Definition init : list Z := Eval vm_compute in map (fractional 2) (firstn 8 primes).

Definition bytes_of_string (s : string) : list Z :=
  map (fun c => Z.of_N (N_of_ascii c)) (list_ascii_of_string s).

(** Big-endian bytes of [x], [n] of them. *)
Fixpoint be_bytes (n : nat) (x : Z) : list Z :=
  match n with
  | O => []
  | Datatypes.S n' => be_bytes n' (Z.shiftr x 8) ++ [Z.land x 0xff]
  end.

(** The message, the byte 0x80, zeros up to 56 modulo 64, and the
    length in bits on eight bytes. *)
Definition pad (msg : list Z) : list Z :=
  let len := Z.of_nat (length msg) in
  let zeros := (55 - len) mod 64 in
  msg ++ [0x80] ++ List.repeat 0 (Z.to_nat zeros) ++ be_bytes 8 (8 * len).

Fixpoint words (fuel : nat) (bs : list Z) : list Z :=
  match fuel, bs with
  | Datatypes.S f, b0 :: b1 :: b2 :: b3 :: rest =>
      (Z.shiftl b0 24 + Z.shiftl b1 16 + Z.shiftl b2 8 + b3) :: words f rest
  | _, _ => []
  end.

(** The message schedule, latest word first: [rev] holds
    W(t-1), W(t-2), ... *)
Fixpoint schedule (n : nat) (rev : list Z) : list Z :=
  match n with
  | O => rev
  | Datatypes.S n' =>
      let w := add32 (add32 (sigma1 (nth 1 rev 0)) (nth 6 rev 0))
                     (add32 (sigma0 (nth 14 rev 0)) (nth 15 rev 0)) in
      schedule n' (w :: rev)
  end.

Definition round (st : list Z) (kw : Z * Z) : list Z :=
  match st with
  | [a; b; c; d; e; f; g; h] =>
      let t1 := add32 (add32 (add32 h (Sigma1 e)) (add32 (Ch e f g) (fst kw))) (snd kw) in
      let t2 := add32 (Sigma0 a) (Maj a b c) in
      [add32 t1 t2; a; b; c; add32 d t1; e; f; g]
  | _ => st
  end.

Definition compress (st : list Z) (block : list Z) : list Z :=
  let w := List.rev (schedule 48 (List.rev block)) in
  let st' := fold_left round (combine K w) st in
  map (fun p => add32 (fst p) (snd p)) (combine st st').

Fixpoint blocks (fuel : nat) (ws : list Z) (st : list Z) : list Z :=
  match fuel with
  | O => st
  | Datatypes.S f =>
      match ws with
      | [] => st
      | _ => blocks f (skipn 16 ws) (compress st (firstn 16 ws))
      end
  end.

(** [sha256.Sum256]: the 32 bytes of the digest. *)
Definition Sum256 (data : string) : list Z :=
  let bs := pad (bytes_of_string data) in
  let ws := words (length bs) bs in
  flat_map (be_bytes 4) (blocks (length ws) ws init).

End sha256.

Module hex.

Definition hextable : string := "0123456789abcdef".

(** [hex.EncodeToString]: two lower-case digits per byte. *)
Fixpoint EncodeToString (src : list Z) : string :=
  match src with
  | [] => EmptyString
  | b :: rest =>
      String (byteAt hextable (Z.shiftr b 4))
        (String (byteAt hextable (Z.land b 0x0f)) (EncodeToString rest))
  end.

End hex.

(** ** Addresses and networks ([net], [net/netip]) *)

Module net.

(** [net.IP]: a slice of 4 or 16 bytes. *)
Definition IP := list Z.

(** [net.IPNet] *)
Record IPNet : Type := mkIPNet { netIP : IP; Mask : list Z }.

(** [netip.Addr] without a zone. *)
Inductive Addr : Type :=
| Addr4 (b : list Z)
| Addr6 (b : list Z).

Definition code (c : ascii) : Z := Z.of_N (N_of_ascii c).

Definition isDigit (c : ascii) : bool := (48 <=? code c) && (code c <=? 57).

Definition hexValue (c : ascii) : option Z :=
  if isDigit c then Some (code c - 48)
  else if (97 <=? code c) && (code c <=? 102) then Some (code c - 97 + 10)
  else if (65 <=? code c) && (code c <=? 70) then Some (code c - 65 + 10)
  else None.

Definition isEmpty (s : string) : bool :=
  match s with EmptyString => true | _ => false end.

(** The loop of [parseIPv4Fields]: [first] holds at index 0, [prev] is
    the previous byte, [fields] the octets closed by a dot so far. *)
Fixpoint ipv4Fields (s : string) (first : bool) (prev : ascii)
                    (val digLen : Z) (fields : list Z) : option (list Z) :=
  match s with
  | EmptyString =>
      if Z.of_nat (length fields) <? 3 then None else Some (fields ++ [val])
  | String c rest =>
      if isDigit c then
        if (digLen =? 1) && (val =? 0) then None
        else
          let val := val * 10 + (code c - 48) in
          if 255 <? val then None
          else ipv4Fields rest false c val (digLen + 1) fields
      else if Ascii.eqb c "." then
        if first || isEmpty rest || Ascii.eqb prev "." then None
        else if Z.of_nat (length fields) =? 3 then None
        else ipv4Fields rest false c 0 0 (fields ++ [val])
      else None
  end.

Definition parseIPv4Fields (s : string) : option (list Z) :=
  ipv4Fields s true Ascii.zero 0 0 [].

(** One group of hexadecimal digits: the number of digits, the value
    and what follows; a fifth digit is an error. *)
Fixpoint hexGroup (s : string) (off : nat) (acc : Z) : option (nat * Z * string) :=
  match s with
  | EmptyString => Some (off, acc, s)
  | String c rest =>
      match hexValue c with
      | Some d =>
          if (3 <? off)%nat then None
          else hexGroup rest (Datatypes.S off) (acc * 16 + d)
      | None => Some (off, acc, s)
      end
  end.

(** The loop of [parseIPv6] over the groups; [ip] holds the bytes
    parsed so far, [ellipsis] the position of the double colon, or -1. *)
Fixpoint ipv6Groups (fuel : nat) (s : string) (ip : list Z) (ellipsis : Z)
  : option (string * list Z * Z) :=
  match fuel with
  | O => Some (s, ip, ellipsis)
  | Datatypes.S fuel' =>
      if (16 <=? length ip)%nat then Some (s, ip, ellipsis)
      else
        match hexGroup s 0 0 with
        | None => None
        | Some (off, acc, rest) =>
            if (off =? 0)%nat then None
            else
              match rest with
              | String "." _ =>
                  if ((ellipsis <? 0) && negb (length ip =? 12)%nat)
                     || (16 <? length ip + 4)%nat
                  then None
                  else
                    match parseIPv4Fields s with
                    | None => None
                    | Some fields => Some (EmptyString, ip ++ fields, ellipsis)
                    end
              | EmptyString =>
                  Some (EmptyString, ip ++ [Z.shiftr acc 8; Z.land acc 0xff], ellipsis)
              | String ":" EmptyString => None
              | String ":" (String ":" rest') =>
                  let ip := ip ++ [Z.shiftr acc 8; Z.land acc 0xff] in
                  if 0 <=? ellipsis then None
                  else if isEmpty rest' then Some (EmptyString, ip, Z.of_nat (length ip))
                  else ipv6Groups fuel' rest' ip (Z.of_nat (length ip))
              | String ":" rest' =>
                  ipv6Groups fuel' rest' (ip ++ [Z.shiftr acc 8; Z.land acc 0xff]) ellipsis
              | String _ _ => None
              end
        end
  end.

Fixpoint contains (c : ascii) (s : string) : bool :=
  match s with
  | EmptyString => false
  | String c' rest => Ascii.eqb c c' || contains c rest
  end.

(** [parseIPv6], for an address without zone: a string with a zone is
    rejected by every caller below. *)
Definition parseIPv6 (s : string) : option (list Z) :=
  if contains "%" s then None
  else
    let start :=
      match s with
      | String ":" (String ":" rest) => (rest, 0, isEmpty rest)
      | _ => (s, -1, false)
      end in
    match start with
    | (_, _, true) => Some (List.repeat 0 16)
    | (s, ellipsis, false) =>
        match ipv6Groups 9 s [] ellipsis with
        | None => None
        | Some (rest, ip, ellipsis) =>
            if negb (isEmpty rest) then None
            else if (length ip <? 16)%nat then
              if ellipsis <? 0 then None
              else
                let e := Z.to_nat ellipsis in
                Some (firstn e ip ++ List.repeat 0 (16 - length ip) ++ skipn e ip)
            else if 0 <=? ellipsis then None
            else Some ip
        end
    end.

(** [netip.ParseAddr], dispatching on the first dot, colon or percent
    sign. *)
Fixpoint dispatch (whole s : string) : option Addr :=
  match s with
  | EmptyString => None
  | String c rest =>
      if Ascii.eqb c "." then option_map Addr4 (parseIPv4Fields whole)
      else if Ascii.eqb c ":" then option_map Addr6 (parseIPv6 whole)
      else if Ascii.eqb c "%" then None
      else dispatch whole rest
  end.

Definition ParseAddr (s : string) : option Addr := dispatch s s.

Definition v4InV6Prefix : list Z := [0; 0; 0; 0; 0; 0; 0; 0; 0; 0; 0xff; 0xff].

Definition As16 (a : Addr) : IP :=
  match a with
  | Addr4 b => v4InV6Prefix ++ b
  | Addr6 b => b
  end.

Definition BitLen (a : Addr) : Z :=
  match a with Addr4 _ => 32 | Addr6 _ => 128 end.

(** [net.ParseIP]: the 16-byte form, [None] for [nil]. *)
Definition ParseIP (s : string) : option IP := option_map As16 (ParseAddr s).

Definition bytesEqual (a b : list Z) : bool := bool_decide (a = b).

(** [ip.To4()], [None] for [nil]. *)
Definition To4 (ip : IP) : option IP :=
  if (length ip =? 4)%nat then Some ip
  else if (length ip =? 16)%nat && bytesEqual (firstn 12 ip) v4InV6Prefix
  then Some (skipn 12 ip)
  else None.

(** [net.CIDRMask(ones, bits)] for [0 <= ones <= bits]. *)
Fixpoint maskBytes (n : nat) (ones : Z) : list Z :=
  match n with
  | O => []
  | Datatypes.S n' =>
      if 8 <=? ones then 0xff :: maskBytes n' (ones - 8)
      else Z.land (Z.shiftl 0xff (8 - ones)) 0xff :: maskBytes n' 0
  end.

Definition CIDRMask (ones bits : Z) : list Z := maskBytes (Z.to_nat (bits / 8)) ones.

Definition allFF (b : list Z) : bool := forallb (fun x => x =? 0xff) b.

(** [ip.Mask(mask)], [None] for [nil]. *)
Definition MaskIP (ip : IP) (mask : list Z) : option IP :=
  let mask :=
    if (length mask =? 16)%nat && (length ip =? 4)%nat && allFF (firstn 12 mask)
    then skipn 12 mask else mask in
  let ip :=
    if (length mask =? 4)%nat && (length ip =? 16)%nat
       && bytesEqual (firstn 12 ip) v4InV6Prefix
    then skipn 12 ip else ip in
  if negb (length ip =? length mask)%nat then None
  else Some (map (fun p => Z.land (fst p) (snd p)) (combine ip mask)).

(** [dtoi]: the leading decimal digits of [s], their number, and
    whether there is one and the value stays small. *)
Fixpoint dtoiFrom (s : string) (n : Z) (i : nat) : Z * nat * bool :=
  match s with
  | String c rest =>
      if isDigit c then
        let n := n * 10 + (code c - 48) in
        if 0xFFFFFF <=? n then (0xFFFFFF, i, false)
        else dtoiFrom rest n (Datatypes.S i)
      else (n, i, negb (i =? 0)%nat)
  | EmptyString => (n, i, negb (i =? 0)%nat)
  end.

Definition dtoi (s : string) : Z * nat * bool := dtoiFrom s 0 O.

(** [strings.Cut(s, "/")] *)
Fixpoint cutSlash (s : string) : option (string * string) :=
  match s with
  | EmptyString => None
  | String c rest =>
      if Ascii.eqb c "/" then Some (EmptyString, rest)
      else option_map (fun p => (String c (fst p), snd p)) (cutSlash rest)
  end.

(** [net.ParseCIDR]: the network of the address, [None] on an error. *)
Definition ParseCIDR (s : string) : option IPNet :=
  match cutSlash s with
  | None => None
  | Some (addr, mask) =>
      match ParseAddr addr with
      | None => None
      | Some ipAddr =>
          match dtoi mask with
          | (n, i, ok) =>
              if negb ok || negb (i =? String.length mask)%nat
                 || (n <? 0) || (BitLen ipAddr <? n)
              then None
              else
                let m := CIDRMask n (BitLen ipAddr) in
                option_map (fun ip => mkIPNet ip m) (MaskIP (As16 ipAddr) m)
          end
      end
  end.

Definition networkNumberAndMask (n : IPNet) : option (IP * list Z) :=
  let ip := match To4 (netIP n) with Some ip4 => Some ip4 | None =>
              if (length (netIP n) =? 16)%nat then Some (netIP n) else None end in
  match ip with
  | None => None
  | Some ip =>
      if (length (Mask n) =? 4)%nat then
        if (length ip =? 4)%nat then Some (ip, Mask n) else None
      else if (length (Mask n) =? 16)%nat then
        if (length ip =? 4)%nat then Some (ip, skipn 12 (Mask n)) else Some (ip, Mask n)
      else None
  end.

(** [n.Contains(ip)] *)
Definition Contains (n : IPNet) (ip : IP) : bool :=
  let ip := match To4 ip with Some x => x | None => ip end in
  match networkNumberAndMask n with
  | None => false
  | Some (nn, m) =>
      if negb (length ip =? length nn)%nat then false
      else
        forallb (fun t => Z.land (fst (fst t)) (snd t) =? Z.land (snd (fst t)) (snd t))
                (combine (combine nn ip) m)
  end.

End net.
(** * Package pow: proof-of-work challenges *)

Module pow.

(** Challenge represents a PoW challenge *)
Record Challenge : Type := mkChallenge {
  ID : string;
  Nonce : string;
  Difficulty : Z;
  CreatedAt : Time;
  ExpiresAt : Time;
  Solution : string
}.

(** ProofOfWork manages proof-of-work challenges *)
Record ProofOfWork : Type := mkProofOfWork {
  challenges : gmap string Challenge;
  difficulty : Z
}.

Definition NewProofOfWork (difficulty : Z) : ProofOfWork :=
  mkProofOfWork ∅ (if difficulty =? 0 then 4 else difficulty).

(** [delete(p.challenges, id)] *)
Definition deleteChallenge (id : string) (p : ProofOfWork) : ProofOfWork :=
  mkProofOfWork (delete id (challenges p)) (difficulty p).

(** [p.challenges[id] = challenge] *)
Definition storeChallenge (id : string) (c : Challenge) (p : ProofOfWork) : ProofOfWork :=
  mkProofOfWork (<[id := c]> (challenges p)) (difficulty p).

(** One round of the cleanup goroutine (every five minutes): the
    expired challenges are removed. *)
Definition cleanup : M ProofOfWork unit :=
  do t <- Now;
  modify (fun p =>
    mkProofOfWork
      (filter (fun kv => time.After t (ExpiresAt (snd kv)) = false) (challenges p))
      (difficulty p)).

Definition charset : string :=
  "abcdefghijklmnopqrstuvwxyzABCDEFGHIJKLMNOPQRSTUVWXYZ0123456789".

(** The loop of generateNonce, over the [n] bytes still to fill. *)
Fixpoint fillNonce {S : Type} (n : nat) : M S string :=
  match n with
  | O => ret EmptyString
  | Datatypes.S n' =>
      do i <- Intn (Z.of_nat (String.length charset));
      do rest <- fillNonce n';
      ret (String (byteAt charset i) rest)
  end.

Definition generateNonce {S : Type} : M S string := fillNonce 32.

Definition generateChallengeID {S : Type} : M S string :=
  do t <- Now;
  do n <- generateNonce;
  ret ("pow_" ++ itoa (time.UnixNano t) ++ "_" ++ substring 0 8 n)%string.

(** GenerateChallenge creates a new PoW challenge *)
Definition GenerateChallenge : M ProofOfWork (Challenge * error) :=
  do nonce <- generateNonce;
  do id <- generateChallengeID;
  do p <- get;
  do created <- Now;
  do t <- Now;
  let challenge :=
    mkChallenge id nonce (difficulty p) created (time.Add t (10 * time.Minute))
                EmptyString in
  exec modify (storeChallenge id challenge);
  ret (challenge, None).

(** computeHash computes SHA-256 hash of nonce + solution *)
Definition computeHash (nonce solution : string) : string :=
  let data := (nonce ++ solution)%string in
  hex.EncodeToString (sha256.Sum256 data).

(** verifyHash checks if hash has required number of leading zeros *)
Definition verifyHash (hash : string) (difficulty : Z) : Outcome bool :=
  match strings.Repeat "0" difficulty with
  | Panics msg => Panics msg
  | Returns prefix => Returns (strings.HasPrefix hash prefix)
  end.

Definition NotFound : string := "challenge not found".
Definition Expired : string := "challenge expired".

(** Verify checks if a solution is valid *)
Definition Verify (challengeID solution : string)
  : M ProofOfWork (Outcome (bool * error)) :=
  do p <- get;
  match challenges p !! challengeID with
  | None => ret (Returns (false, Some NotFound))
  | Some challenge =>
      do t <- Now;
      if time.After t (ExpiresAt challenge) then
        exec modify (deleteChallenge challengeID);
        ret (Returns (false, Some Expired))
      else
        let hash := computeHash (Nonce challenge) solution in
        match verifyHash hash (Difficulty challenge) with
        | Panics msg => ret (Panics msg)
        | Returns valid =>
            if valid then
              exec modify (deleteChallenge challengeID);
              ret (Returns (valid, None))
            else ret (Returns (valid, None))
        end
  end.

(** GetChallenge retrieves challenge info *)
Definition GetChallenge (challengeID : string) : M ProofOfWork (option Challenge * error) :=
  do p <- get;
  match challenges p !! challengeID with
  | None => ret (None, Some NotFound)
  | Some challenge => ret (Some challenge, None)
  end.

(** SetDifficulty updates the difficulty level *)
Definition SetDifficulty (difficulty : Z) : M ProofOfWork unit :=
  modify (fun p => mkProofOfWork (challenges p) difficulty).

Definition maxAttempts : Z := 10000000.

Definition Unsolvable : string :=
  ("failed to solve challenge after " ++ itoa maxAttempts ++ " attempts")%string.

(** The loop of SolveChallenge; [fuel] is the number of attempts left
    below [maxAttempts]. *)
Fixpoint solveFrom (fuel : nat) (nonce prefix : string) (attempts : Z)
  : string * error :=
  match fuel with
  | O => (EmptyString, Some Unsolvable)
  | Datatypes.S fuel' =>
      let solution := itoa attempts in
      let hash := computeHash nonce solution in
      if strings.HasPrefix hash prefix then (solution, None)
      else solveFrom fuel' nonce prefix (attempts + 1)
  end.

(** SolveChallenge solves a PoW challenge (for testing/client library) *)
Definition SolveChallenge (nonce : string) (difficulty : Z) : Outcome (string * error) :=
  match strings.Repeat "0" difficulty with
  | Panics msg => Panics msg
  | Returns prefix => Returns (solveFrom (Z.to_nat maxAttempts) nonce prefix 0)
  end.

(** AdaptiveDifficulty adjusts difficulty based on server load; the
    engine it points to is the second component of the state of its
    methods. *)
Record AdaptiveDifficulty : Type := mkAdaptiveDifficulty {
  baselineLoad : float;
  currentLoad : float;
  baseDifficulty : Z;
  maxDifficulty : Z;
  minDifficulty : Z
}.

Definition NewAdaptiveDifficulty (baseDifficulty : Z) : AdaptiveDifficulty :=
  mkAdaptiveDifficulty 50%float 50%float baseDifficulty
                       (baseDifficulty + 2) (baseDifficulty - 1).

(** A method of the engine, called through [ad.pow]. *)
Definition onEngine {A : Type} (m : M ProofOfWork A)
  : M (AdaptiveDifficulty * ProofOfWork) A :=
  fun s w => match m (snd s) w with (a, p', w') => (a, (fst s, p'), w') end.

Set Warnings "-inexact-float".

(** UpdateLoad updates the current server load *)
Definition UpdateLoad (load : float) : M (AdaptiveDifficulty * ProofOfWork) unit :=
  exec modify (fun s =>
    (mkAdaptiveDifficulty (baselineLoad (fst s)) load (baseDifficulty (fst s))
                          (maxDifficulty (fst s)) (minDifficulty (fst s)), snd s));
  do s <- get;
  let ad := fst s in
  let newDifficulty :=
    if PrimFloat.ltb (baselineLoad ad * 1.5)%float load then baseDifficulty ad + 2
    else if PrimFloat.ltb (baselineLoad ad * 1.2)%float load then baseDifficulty ad + 1
    else if PrimFloat.ltb load (baselineLoad ad * 0.5)%float then baseDifficulty ad - 1
    else baseDifficulty ad in
  let newDifficulty :=
    if maxDifficulty ad <? newDifficulty then maxDifficulty ad else newDifficulty in
  let newDifficulty :=
    if newDifficulty <? minDifficulty ad then minDifficulty ad else newDifficulty in
  onEngine (SetDifficulty newDifficulty).

(** GetCurrentDifficulty returns the current difficulty *)
Definition GetCurrentDifficulty : M (AdaptiveDifficulty * ProofOfWork) Z :=
  do s <- get; ret (difficulty (snd s)).

(** The map GetStats returns, one field per key. *)
Record Stats : Type := mkStats {
  active_challenges : Z;
  stats_difficulty : Z
}.

(** GetStats returns statistics about active challenges *)
Definition GetStats : M ProofOfWork Stats :=
  do p <- get;
  ret (mkStats (Z.of_nat (size (challenges p))) (difficulty p)).

(** EstimateDifficulty estimates appropriate difficulty based on expected
    solve time *)
Definition EstimateDifficulty (targetSeconds : Z) : Z :=
  if targetSeconds <? 1 then 3
  else if targetSeconds <? 5 then 4
  else if targetSeconds <? 10 then 5
  else 6.

End pow.


(** * Package captcha: image challenges *)

Module base64.

Definition encodeURL : string :=
  "ABCDEFGHIJKLMNOPQRSTUVWXYZabcdefghijklmnopqrstuvwxyz0123456789-_".

Definition digit (v shift : Z) : ascii :=
  byteAt encodeURL (Z.land (Z.shiftr v shift) 0x3f).

(** [base64.URLEncoding.EncodeToString], with padding. *)
Fixpoint EncodeToString (src : list Z) : string :=
  match src with
  | a :: b :: c :: rest =>
      let v := Z.lor (Z.lor (Z.shiftl a 16) (Z.shiftl b 8)) c in
      String (digit v 18) (String (digit v 12) (String (digit v 6)
        (String (digit v 0) (EncodeToString rest))))
  | [a; b] =>
      let v := Z.lor (Z.shiftl a 16) (Z.shiftl b 8) in
      String (digit v 18) (String (digit v 12) (String (digit v 6) "="))
  | [a] =>
      let v := Z.shiftl a 16 in
      String (digit v 18) (String (digit v 12) "==")
  | [] => EmptyString
  end.

End base64.

Module captcha.

(** CaptchaOptions configures CAPTCHA generation *)
Record CaptchaOptions : Type := mkCaptchaOptions {
  Length : Z;
  Width : Z;
  Height : Z;
  TTL : Duration;
  Difficulty : string
}.

(** CaptchaData represents a CAPTCHA challenge *)
Record CaptchaData : Type := mkCaptchaData {
  ID : string;
  Solution : string;
  ImageData : list Z;
  CreatedAt : Time;
  ExpiresAt : Time
}.

(** CaptchaStore manages CAPTCHA storage *)
Record CaptchaStore : Type := mkCaptchaStore {
  captchas : gmap string CaptchaData
}.

(** CaptchaService manages CAPTCHA generation and validation *)
Record CaptchaService : Type := mkCaptchaService {
  store : CaptchaStore;
  options : CaptchaOptions
}.

Definition NewCaptchaStore : CaptchaStore := mkCaptchaStore ∅.

(** Set stores a CAPTCHA *)
Definition Set_ (captcha : CaptchaData) (s : CaptchaStore) : CaptchaStore :=
  mkCaptchaStore (<[ID captcha := captcha]> (captchas s)).

(** Get retrieves a CAPTCHA *)
Definition Get (id : string) (s : CaptchaStore) : option CaptchaData :=
  captchas s !! id.

(** Delete removes a CAPTCHA *)
Definition Delete (id : string) (s : CaptchaStore) : CaptchaStore :=
  mkCaptchaStore (delete id (captchas s)).

(** A method of the store, called through [s.store]. *)
Definition onStore (f : CaptchaStore -> CaptchaStore) : M CaptchaService unit :=
  modify (fun s => mkCaptchaService (f (store s)) (options s)).

(** One round of the cleanup goroutine of the store (every five
    minutes). *)
Definition cleanup : M CaptchaStore unit :=
  do t <- Now;
  modify (fun s =>
    mkCaptchaStore
      (filter (fun kv => time.After t (ExpiresAt (snd kv)) = false) (captchas s))).

Definition NewCaptchaService (options : CaptchaOptions) : CaptchaService :=
  let options := mkCaptchaOptions
    (if Length options =? 0 then 6 else Length options)
    (if Width options =? 0 then 200 else Width options)
    (if Height options =? 0 then 80 else Height options)
    (if TTL options =? 0 then 5 * time.Minute else TTL options)
    (if String.eqb (Difficulty options) "" then "medium" else Difficulty options) in
  mkCaptchaService NewCaptchaStore options.

(** [crypto/rand.Read] on a slice of [n] bytes. *)
Fixpoint cryptoRead {S : Type} (n : nat) : M S (list Z + string) :=
  match n with
  | O => ret (inl [])
  | Datatypes.S n' =>
      do b <- cryptoInt 256;
      match b with
      | inr err => ret (inr err)
      | inl x =>
          do rest <- cryptoRead n';
          match rest with
          | inr err => ret (inr err)
          | inl xs => ret (inl (x :: xs))
          end
      end
  end.

(** generateRandomString generates a random string; it is called with
    the length 16 only. *)
Definition generateRandomString {S : Type} (length : Z) : M S (string * error) :=
  do bytes <- cryptoRead (Z.to_nat length);
  match bytes with
  | inr err => ret (EmptyString, Some err)
  | inl bytes =>
      ret (substring 0 (Z.to_nat length) (base64.EncodeToString bytes), None)
  end.

(** The loop of generateSolution over the [n] bytes of [result] still
    to be written; [result] holds the bytes written so far. *)
Fixpoint fillSolution {S : Type} (n : nat) (chars result : string) : M S (string * error) :=
  match n with
  | O => ret (result, None)
  | Datatypes.S n' =>
      do r <- cryptoInt (Z.of_nat (String.length chars));
      match r with
      | inr err => ret (EmptyString, Some err)
      | inl k => fillSolution n' chars (result ++ String (byteAt chars k) EmptyString)
      end
  end.

(** generateSolution creates a random CAPTCHA solution; [make] panics
    on a negative length. *)
Definition generateSolution : M CaptchaService (Outcome (string * error)) :=
  do s <- get;
  let chars :=
    if String.eqb (Difficulty (options s)) "easy"
    then "ABCDEFGHJKLMNPQRSTUVWXYZ23456789"
    else if String.eqb (Difficulty (options s)) "hard"
    then "ABCDEFGHIJKLMNOPQRSTUVWXYZabcdefghijklmnopqrstuvwxyz0123456789"
    else "ABCDEFGHJKLMNPQRSTUVWXYZ23456789" in
  if Length (options s) <? 0 then ret (Panics "makeslice: len out of range")
  else
    do r <- fillSolution (Z.to_nat (Length (options s))) chars EmptyString;
    ret (Returns r).

Section Rendering.

(** generateImage draws the text with the packages [image],
    [image/png] and [x/image/font]; the drawing is a parameter: it
    reads the options and the random source, and gives the bytes of
    the PNG, an error, or a panic. *)
Variable generateImage :
  CaptchaOptions -> string -> World -> Outcome (list Z * error) * World.

(** Generate creates a new CAPTCHA *)
Definition Generate : M CaptchaService (Outcome (option CaptchaData * error)) :=
  do r <- generateRandomString 16;
  match r with
  | (_, Some err) => ret (Returns (None, Some ("failed to generate ID: " ++ err)%string))
  | (id, None) =>
      do r <- generateSolution;
      match r with
      | Panics msg => ret (Panics msg)
      | Returns (_, Some err) =>
          ret (Returns (None, Some ("failed to generate solution: " ++ err)%string))
      | Returns (solution, None) =>
          do s <- get;
          do r <- (fun s w => match generateImage (options s) solution w with
                              | (r, w') => (r, s, w') end);
          match r with
          | Panics msg => ret (Panics msg)
          | Returns (_, Some err) =>
              ret (Returns (None, Some ("failed to generate image: " ++ err)%string))
          | Returns (imageData, None) =>
              do t <- Now;
              let captcha :=
                mkCaptchaData id solution imageData t (time.Add t (TTL (options s))) in
              exec onStore (Set_ captcha);
              ret (Returns (Some captcha, None))
          end
      end
  end.

End Rendering.

(** Validate checks if a CAPTCHA solution is correct *)
Definition Validate (id solution : string) : M CaptchaService bool :=
  do s <- get;
  match Get id (store s) with
  | None => ret false
  | Some captcha =>
      do t <- Now;
      if time.After t (ExpiresAt captcha) then
        exec onStore (Delete id);
        ret false
      else
        let valid := String.eqb (Solution captcha) solution in
        exec onStore (Delete id);
        ret valid
  end.

End captcha.

(** * Package abuse: the abuse detector *)

Module abuse.

(** DetectorConfig configures the abuse detector *)
Record DetectorConfig : Type := mkDetectorConfig {
  MaxAttemptsPerHour : Z;
  MaxAttemptsPerDay : Z;
  BlockDuration : Duration;
  SubnetCheckEnabled : bool;
  VPNDetectionEnabled : bool;
  SuspiciousThreshold : Z
}.

(** AttemptTracker tracks attempts from an IP or address.  A nil
    [Addresses] map is the empty map. *)
Record AttemptTracker : Type := mkAttemptTracker {
  Count : Z;
  FirstAttempt : Time;
  LastAttempt : Time;
  SuccessfulCount : Z;
  FailedCount : Z;
  Addresses : gmap string Z
}.

(** DetectionResult contains detection results *)
Record DetectionResult : Type := mkDetectionResult {
  Allowed : bool;
  Reason : string;
  RiskScore : Z;
  BlockedUntil : option Time;
  RecommendedDelay : Duration
}.

(** AbuseDetector detects and prevents faucet abuse *)
Record AbuseDetector : Type := mkAbuseDetector {
  ipAttempts : gmap string AttemptTracker;
  addressAttempts : gmap string AttemptTracker;
  blockedIPs : gmap string Time;
  blockedAddrs : gmap string Time;
  config : DetectorConfig
}.

Definition NewAbuseDetector (config : DetectorConfig) : AbuseDetector :=
  let config := mkDetectorConfig
    (if MaxAttemptsPerHour config =? 0 then 10 else MaxAttemptsPerHour config)
    (if MaxAttemptsPerDay config =? 0 then 50 else MaxAttemptsPerDay config)
    (if BlockDuration config =? 0 then 24 * time.Hour else BlockDuration config)
    (SubnetCheckEnabled config)
    (VPNDetectionEnabled config)
    (if SuspiciousThreshold config =? 0 then 5 else SuspiciousThreshold config) in
  mkAbuseDetector ∅ ∅ ∅ ∅ config.

(** The two maps of trackers a *AttemptTracker can live in. *)
Inductive Trackers : Type := IPAttempts | AddressAttempts.

Definition trackers (which : Trackers) (ad : AbuseDetector) : gmap string AttemptTracker :=
  match which with
  | IPAttempts => ipAttempts ad
  | AddressAttempts => addressAttempts ad
  end.

(** [trackers[key] = tracker], also the write through the pointer
    [trackers[key]]. *)
Definition setTracker (which : Trackers) (key : string) (tracker : AttemptTracker)
                      (ad : AbuseDetector) : AbuseDetector :=
  match which with
  | IPAttempts =>
      mkAbuseDetector (<[key := tracker]> (ipAttempts ad)) (addressAttempts ad)
                      (blockedIPs ad) (blockedAddrs ad) (config ad)
  | AddressAttempts =>
      mkAbuseDetector (ipAttempts ad) (<[key := tracker]> (addressAttempts ad))
                      (blockedIPs ad) (blockedAddrs ad) (config ad)
  end.

Definition setBlockedIPs (m : gmap string Time) (ad : AbuseDetector) : AbuseDetector :=
  mkAbuseDetector (ipAttempts ad) (addressAttempts ad) m (blockedAddrs ad) (config ad).

Definition setBlockedAddrs (m : gmap string Time) (ad : AbuseDetector) : AbuseDetector :=
  mkAbuseDetector (ipAttempts ad) (addressAttempts ad) (blockedIPs ad) m (config ad).

(** getOrCreateTracker gets or creates an attempt tracker *)
Definition getOrCreateTracker (which : Trackers) (key : string)
  : M AbuseDetector AttemptTracker :=
  do ad <- get;
  match trackers which ad !! key with
  | Some tracker => ret tracker
  | None =>
      do t <- Now;
      let tracker := mkAttemptTracker 0 t time.zero 0 0 ∅ in
      exec modify (setTracker which key tracker);
      ret tracker
  end.

(** blockIP is internal helper to block an IP *)
Definition blockIP (ip : string) : M AbuseDetector unit :=
  do t <- Now;
  modify (fun ad =>
    setBlockedIPs (<[ip := time.Add t (BlockDuration (config ad))]> (blockedIPs ad)) ad).

Definition len (m : gmap string Z) : Z := Z.of_nat (size m).

(** calculateRiskScore calculates a risk score for a request *)
Definition calculateRiskScore (tracker : AttemptTracker) (ip address : string)
  : M AbuseDetector Z :=
  do ad <- get;
  let score := 0 in
  let score :=
    if SuspiciousThreshold (config ad) <? Count tracker then score + 20 else score in
  let score :=
    if SuccessfulCount tracker * 2 <? FailedCount tracker then score + 15 else score in
  let score :=
    if 3 <? len (Addresses tracker)
    then score + 10 * (len (Addresses tracker) - 3) else score in
  do t <- Now;
  let score :=
    if (time.Sub t (LastAttempt tracker) <? 1 * time.Minute) && (3 <? Count tracker)
    then score + 25 else score in
  ret score.

(** Whether the tracked key parses to an address of the network. *)
Definition inSubnet (subnet : net.IPNet) (trackedIP : string) : bool :=
  match net.ParseIP trackedIP with
  | Some parsedTrackedIP => net.Contains subnet parsedTrackedIP
  | None => false
  end.

(** The network checkSubnetAbuse derives for [ip]: /24 for IPv4, /64
    for IPv6; [None] where it returns false before counting. *)
Definition subnetOf (ip : string) : option net.IPNet :=
  match net.ParseIP ip with
  | None => None
  | Some parsedIP =>
      match net.To4 parsedIP with
      | Some _ => net.ParseCIDR (ip ++ "/24")
      | None => net.ParseCIDR (ip ++ "/64")
      end
  end.

(** The loop of checkSubnetAbuse over the keys of [ad.ipAttempts]. *)
Definition subnetCount (subnet : net.IPNet) (tracked : gset string) : Z :=
  Z.of_nat (size (filter (fun trackedIP => inSubnet subnet trackedIP = true) tracked)).

(** checkSubnetAbuse checks if multiple IPs from same subnet are abusing *)
Definition checkSubnetAbuse (ad : AbuseDetector) (ip : string) : bool :=
  match subnetOf ip with
  | None => false
  | Some subnet => 5 <? subnetCount subnet (dom (ipAttempts ad))
  end.

Definition commonVPNRanges : list string :=
  ["10.0.0.0/8"; "172.16.0.0/12"; "192.168.0.0/16"]%string.

(** isLikelyVPN performs basic VPN/proxy detection *)
Definition isLikelyVPN (ip : string) : bool :=
  match net.ParseIP ip with
  | None => false
  | Some parsedIP =>
      existsb (fun cidr =>
                 match net.ParseCIDR cidr with
                 | Some subnet => net.Contains subnet parsedIP
                 | None => false
                 end) commonVPNRanges
  end.

Definition withDenial (reason : string) (until : option Time) (r : DetectionResult)
  : DetectionResult :=
  mkDetectionResult false reason (RiskScore r) until (RecommendedDelay r).

(** The check of one of the two maps of blocks: the expiry of an
    active block, and an expired entry is deleted. *)
Definition activeBlock (blocked : AbuseDetector -> gmap string Time)
                       (setBlocked : gmap string Time -> AbuseDetector -> AbuseDetector)
                       (key : string) : M AbuseDetector (option Time) :=
  do ad <- get;
  match blocked ad !! key with
  | Some blockedUntil =>
      do t <- Now;
      if time.Before t blockedUntil then ret (Some blockedUntil)
      else
        exec modify (fun ad => setBlocked (delete key (blocked ad)) ad);
        ret None
  | None => ret None
  end.

(** CheckRequest checks if a request should be allowed *)
Definition CheckRequest (ip address : string) : M AbuseDetector DetectionResult :=
  let result := mkDetectionResult true EmptyString 0 None 0 in
  do blocked <- activeBlock blockedIPs setBlockedIPs ip;
  match blocked with
  | Some blockedUntil =>
      ret (withDenial "IP address is temporarily blocked" (Some blockedUntil) result)
  | None =>
  do blocked <- activeBlock blockedAddrs setBlockedAddrs address;
  match blocked with
  | Some blockedUntil =>
      ret (withDenial "Address is temporarily blocked" (Some blockedUntil) result)
  | None =>
  do ipTracker <- getOrCreateTracker IPAttempts ip;
  do score <- calculateRiskScore ipTracker ip address;
  let result := mkDetectionResult (Allowed result) (Reason result) score
                                  (BlockedUntil result) (RecommendedDelay result) in
  do t <- Now;
  do ad <- get;
  if (time.Sub t (FirstAttempt ipTracker) <? time.Hour)
     && (MaxAttemptsPerHour (config ad) <=? Count ipTracker)
  then
    exec blockIP ip;
    ret (withDenial "Too many requests from this IP (hourly limit exceeded)" None result)
  else
  do ipTracker <-
    (if time.Sub t (FirstAttempt ipTracker) <? time.Hour then ret ipTracker
     else
       let reset := mkAttemptTracker 0 t (LastAttempt ipTracker)
                      (SuccessfulCount ipTracker) (FailedCount ipTracker)
                      (Addresses ipTracker) in
       exec modify (setTracker IPAttempts ip reset);
       ret reset);
  if MaxAttemptsPerDay (config ad) <=? SuccessfulCount ipTracker + FailedCount ipTracker
  then
    exec blockIP ip;
    ret (withDenial "Daily request limit exceeded" None result)
  else
  do ad <- get;
  if SubnetCheckEnabled (config ad) && checkSubnetAbuse ad ip
  then
    ret (mkDetectionResult false "Multiple requests detected from your subnet"
                           (RiskScore result + 30) (BlockedUntil result)
                           (RecommendedDelay result))
  else
  let result :=
    if VPNDetectionEnabled (config ad) && isLikelyVPN ip
    then mkDetectionResult (Allowed result) (Reason result) (RiskScore result + 20)
                           (BlockedUntil result) (30 * time.Second)
    else result in
  let result :=
    if SuspiciousThreshold (config ad) <? len (Addresses ipTracker)
    then mkDetectionResult (Allowed result)
                           "Suspicious: Multiple addresses requested from same IP"
                           (RiskScore result + 25) (BlockedUntil result)
                           (RecommendedDelay result)
    else result in
  let result :=
    if 50 <? RiskScore result
    then mkDetectionResult (Allowed result) (Reason result) (RiskScore result)
                           (BlockedUntil result) (RiskScore result * time.Second)
    else result in
  ret result
  end
  end.

(** The counters of one recorded attempt. *)
Definition countAttempt (t : Time) (success : bool) (tr : AttemptTracker)
                        (addresses : gmap string Z) : AttemptTracker :=
  mkAttemptTracker (Count tr + 1) (FirstAttempt tr) t
                   (if success then SuccessfulCount tr + 1 else SuccessfulCount tr)
                   (if success then FailedCount tr else FailedCount tr + 1)
                   addresses.

(** RecordAttempt records a faucet request attempt *)
Definition RecordAttempt (ip address : string) (success : bool) : M AbuseDetector unit :=
  do ipTracker <- getOrCreateTracker IPAttempts ip;
  do t <- Now;
  let addresses :=
    <[address := default 0 (Addresses ipTracker !! address) + 1]> (Addresses ipTracker) in
  exec modify (setTracker IPAttempts ip (countAttempt t success ipTracker addresses));
  do addrTracker <- getOrCreateTracker AddressAttempts address;
  do t <- Now;
  modify (setTracker AddressAttempts address
            (countAttempt t success addrTracker (Addresses addrTracker))).

(** BlockIP blocks an IP address *)
Definition BlockIP (ip : string) (duration : Duration) : M AbuseDetector unit :=
  do ad <- get;
  let duration := if duration =? 0 then BlockDuration (config ad) else duration in
  do t <- Now;
  modify (fun ad => setBlockedIPs (<[ip := time.Add t duration]> (blockedIPs ad)) ad).

(** BlockAddress blocks an address *)
Definition BlockAddress (address : string) (duration : Duration) : M AbuseDetector unit :=
  do ad <- get;
  let duration := if duration =? 0 then BlockDuration (config ad) else duration in
  do t <- Now;
  modify (fun ad =>
    setBlockedAddrs (<[address := time.Add t duration]> (blockedAddrs ad)) ad).

(** UnblockIP unblocks an IP address *)
Definition UnblockIP (ip : string) : M AbuseDetector unit :=
  modify (fun ad => setBlockedIPs (delete ip (blockedIPs ad)) ad).

(** UnblockAddress unblocks an address *)
Definition UnblockAddress (address : string) : M AbuseDetector unit :=
  modify (fun ad => setBlockedAddrs (delete address (blockedAddrs ad)) ad).

(** One round of the cleanup goroutine (every hour). *)
Definition cleanup : M AbuseDetector unit :=
  do t <- Now;
  modify (fun ad =>
    mkAbuseDetector
      (filter (fun kv => time.Sub t (LastAttempt (snd kv)) <= 24 * time.Hour) (ipAttempts ad))
      (filter (fun kv => time.Sub t (LastAttempt (snd kv)) <= 24 * time.Hour)
              (addressAttempts ad))
      (filter (fun kv => time.After t (snd kv) = false) (blockedIPs ad))
      (filter (fun kv => time.After t (snd kv) = false) (blockedAddrs ad))
      (config ad)).

(** The map GetStats returns, one field per key. *)
Record Stats : Type := mkStats {
  tracked_ips : Z;
  tracked_addresses : Z;
  blocked_ips : Z;
  blocked_addresses : Z;
  total_attempts : Z;
  successful_attempts : Z;
  failed_attempts : Z;
  stats_config : DetectorConfig
}.

(** The loop of GetStats over [ad.ipAttempts], for one of the counters. *)
Definition total (counter : AttemptTracker -> Z) (m : gmap string AttemptTracker) : Z :=
  map_fold (fun _ tracker acc => acc + counter tracker) 0 m.

(** GetStats returns detector statistics *)
Definition GetStats : M AbuseDetector Stats :=
  do ad <- get;
  let totalAttempts := total Count (ipAttempts ad) in
  let totalSuccess := total SuccessfulCount (ipAttempts ad) in
  let totalFailed := total FailedCount (ipAttempts ad) in
  ret (mkStats (Z.of_nat (size (ipAttempts ad))) (Z.of_nat (size (addressAttempts ad)))
               (Z.of_nat (size (blockedIPs ad))) (Z.of_nat (size (blockedAddrs ad)))
               totalAttempts totalSuccess totalFailed (config ad)).

End abuse.

(** * Package metrics: the metrics tracker *)

Module calendar.

(** The wall clock of a [time.Time], read in UTC. *)
Definition day : Duration := 24 * time.Hour.

(** [t.Hour()] *)
Definition Hour (t : Time) : Z := (t mod day) / time.Hour.

(** Year, month and day of the [n]-th day after January 1, year 1
    (proleptic Gregorian calendar). *)
Definition civil (n : Z) : Z * Z * Z :=
  let z := n + 306 in
  let era := z / 146097 in
  let doe := z - era * 146097 in
  let yoe := (doe - doe / 1460 + doe / 36524 - doe / 146096) / 365 in
  let doy := doe - (365 * yoe + yoe / 4 - yoe / 100) in
  let mp := (5 * doy + 2) / 153 in
  let d := doy - (153 * mp + 2) / 5 + 1 in
  let m := if mp <? 10 then mp + 3 else mp - 9 in
  let y := yoe + era * 400 + (if m <=? 2 then 1 else 0) in
  (y, m, d).

(** A number on at least [width] digits. *)
Definition padded (width : nat) (n : Z) : string :=
  let s := itoa n in
  (strings.repeat "0" (width - String.length s) ++ s)%string.

(** [t.Format("2006-01-02")] *)
Definition FormatDate (t : Time) : string :=
  match civil (t / day) with
  | (y, m, d) => (padded 4 y ++ "-" ++ padded 2 m ++ "-" ++ padded 2 d)%string
  end.

End calendar.

Module metrics.

(** MetricsTracker tracks faucet usage metrics and analytics.  The
    average of tokens per request, a floating-point field no method
    reads, is left out. *)
Record MetricsTracker : Type := mkMetricsTracker {
  totalRequests : Z;
  successfulRequests : Z;
  failedRequests : Z;
  blockedRequests : Z;
  totalTokensDistributed : Z;
  requestsPerHour : gmap Z Z;
  requestsPerDay : gmap string Z;
  uniqueAddresses : gmap string bool;
  topRecipients : gmap string Z;
  uniqueIPs : gmap string bool;
  requestsByCountry : gmap string Z;
  avgResponseTime : Duration;
  responseTimes : list Duration;
  maxResponseTime : Duration;
  errorCounts : gmap string Z;
  startTime : Time
}.

(** RequestMetrics contains metrics for a single request *)
Record RequestMetrics : Type := mkRequestMetrics {
  IP : string;
  Address : string;
  Amount : Z;
  Success : bool;
  ErrorType : string;
  ResponseTime : Duration;
  Timestamp : Time;
  CaptchaSolved : bool;
  POWCompleted : bool
}.

(** Summary contains a summary of all metrics.  The fields computed in
    floating point (SuccessRate, UptimeHours, RequestsPerHour) and
    TopRecipients, whose order among equal counts is the iteration
    order of a Go map, are left out. *)
Record Summary : Type := mkSummary {
  TotalRequests : Z;
  SuccessfulRequests : Z;
  FailedRequests : Z;
  BlockedRequests : Z;
  TotalTokensDistributed : Z;
  UniqueAddresses : Z;
  UniqueIPs : Z;
  AvgResponseTime : Duration;
  MaxResponseTime : Duration;
  ErrorBreakdown : gmap string Z;
  HourlyDistribution : gmap Z Z
}.

(** NewMetricsTracker creates a new metrics tracker *)
Definition NewMetricsTracker {S : Type} : M S MetricsTracker :=
  do t <- Now;
  ret (mkMetricsTracker 0 0 0 0 0 ∅ ∅ ∅ ∅ ∅ ∅ 0 [] 0 ∅ t).

(** [m[k]++] *)
Definition incr `{Countable K} (k : K) (m : gmap K Z) : gmap K Z :=
  <[k := default 0 (m !! k) + 1]> m.

(** The value an int64 computation leaves: [n] wrapped around. *)
Definition wrap (n : Z) : Z := (n + 2 ^ 63) mod 2 ^ 64 - 2 ^ 63.

(** [total += rt] over the response times; the addition of
    [time.Duration], an int64, wraps around. *)
Definition sum (l : list Duration) : Duration :=
  fold_left (fun total rt => wrap (total + rt)) l 0.

(** RecordRequest records a faucet request *)
Definition RecordRequest (metrics : RequestMetrics) : M MetricsTracker unit :=
  modify (fun m =>
    let totalRequests := totalRequests m + 1 in
    let successfulRequests :=
      if Success metrics then successfulRequests m + 1 else successfulRequests m in
    let totalTokensDistributed :=
      if Success metrics then totalTokensDistributed m + Amount metrics
      else totalTokensDistributed m in
    let uniqueAddresses :=
      if Success metrics then <[Address metrics := true]> (uniqueAddresses m)
      else uniqueAddresses m in
    let topRecipients :=
      if Success metrics then incr (Address metrics) (topRecipients m)
      else topRecipients m in
    let failedRequests :=
      if Success metrics then failedRequests m else failedRequests m + 1 in
    let errorCounts :=
      if Success metrics then errorCounts m
      else if String.eqb (ErrorType metrics) "" then errorCounts m
      else incr (ErrorType metrics) (errorCounts m) in
    let uniqueIPs := <[IP metrics := true]> (uniqueIPs m) in
    let hour := calendar.Hour (Timestamp metrics) in
    let requestsPerHour := incr hour (requestsPerHour m) in
    let date := calendar.FormatDate (Timestamp metrics) in
    let requestsPerDay := incr date (requestsPerDay m) in
    let responseTimes := responseTimes m ++ [ResponseTime metrics] in
    let maxResponseTime :=
      if maxResponseTime m <? ResponseTime metrics then ResponseTime metrics
      else maxResponseTime m in
    let avgResponseTime :=
      if 0 <? Z.of_nat (length responseTimes)
      then Z.quot (sum responseTimes) (Z.of_nat (length responseTimes))
      else avgResponseTime m in
    let responseTimes :=
      if 10000 <? Z.of_nat (length responseTimes)
      then skipn (length responseTimes - 1000) responseTimes
      else responseTimes in
    mkMetricsTracker totalRequests successfulRequests failedRequests (blockedRequests m)
      totalTokensDistributed requestsPerHour requestsPerDay uniqueAddresses
      topRecipients uniqueIPs (requestsByCountry m) avgResponseTime responseTimes
      maxResponseTime errorCounts (startTime m)).

(** RecordBlocked records a blocked request *)
Definition RecordBlocked (ip : string) : M MetricsTracker unit :=
  modify (fun m =>
    mkMetricsTracker (totalRequests m) (successfulRequests m) (failedRequests m)
      (blockedRequests m + 1) (totalTokensDistributed m) (requestsPerHour m)
      (requestsPerDay m) (uniqueAddresses m) (topRecipients m)
      (<[ip := true]> (uniqueIPs m)) (requestsByCountry m) (avgResponseTime m)
      (responseTimes m) (maxResponseTime m) (errorCounts m) (startTime m)).

(** The copies are the maps themselves. *)
Definition copyErrorCounts (m : MetricsTracker) : gmap string Z := errorCounts m.
Definition copyHourlyDistribution (m : MetricsTracker) : gmap Z Z := requestsPerHour m.

(** GetSummary returns a summary of all metrics; the clock is read for
    the uptime. *)
Definition GetSummary : M MetricsTracker Summary :=
  do m <- get;
  do t <- Now;
  ret (mkSummary (totalRequests m) (successfulRequests m) (failedRequests m)
                 (blockedRequests m) (totalTokensDistributed m)
                 (Z.of_nat (size (uniqueAddresses m))) (Z.of_nat (size (uniqueIPs m)))
                 (avgResponseTime m) (maxResponseTime m)
                 (copyErrorCounts m) (copyHourlyDistribution m)).

(** GetHourlyStats returns request stats by hour *)
Definition GetHourlyStats : M MetricsTracker (gmap Z Z) :=
  do m <- get; ret (requestsPerHour m).

(** GetDailyStats returns request stats by day *)
Definition GetDailyStats : M MetricsTracker (gmap string Z) :=
  do m <- get; ret (requestsPerDay m).

(** GetErrorStats returns error statistics *)
Definition GetErrorStats : M MetricsTracker (gmap string Z) :=
  do m <- get; ret (copyErrorCounts m).

(** RecipientStat contains statistics for a recipient *)
Record RecipientStat : Type := mkRecipientStat {
  RecipientAddress : string;
  RequestCount : Z;
  TotalAmount : Z
}.

(** The sort the package writes three times:
    [for i := 0; i < len(a); i++ { for j := i + 1; j < len(a); j++ {
       if before(a[j], a[i]) { a[i], a[j] = a[j], a[i] } } }]. *)
Section Sorting.
Context {A : Type} (before : A -> A -> bool).

(** The body of the inner loop. *)
Definition exchange (i j : nat) (a : list A) : list A :=
  match a !! i, a !! j with
  | Some x, Some y => if before y x then <[i := y]> (<[j := x]> a) else a
  | _, _ => a
  end.

(** The inner loop from [j] on, for [n] rounds. *)
Fixpoint inner (n i j : nat) (a : list A) : list A :=
  match n with
  | O => a
  | Datatypes.S n' => inner n' i (Datatypes.S j) (exchange i j a)
  end.

(** The outer loop from [i] on, for [n] rounds. *)
Fixpoint outer (n i : nat) (a : list A) : list A :=
  match n with
  | O => a
  | Datatypes.S n' =>
      outer n' (Datatypes.S i) (inner (length a - Datatypes.S i) i (Datatypes.S i) a)
  end.

Definition sort (a : list A) : list A := outer (length a) 0 a.

End Sorting.

(** [recipients[j].RequestCount > recipients[i].RequestCount] *)
Definition more (y x : RecipientStat) : bool := RequestCount x <? RequestCount y.

Section Ranging.

(** Go leaves open the order in which [range] meets the entries of a
    map: the order is a parameter. *)
Variable range : gmap string Z -> list (string * Z).

(** The loop over [m.topRecipients]. *)
Definition collect (m : MetricsTracker) : list RecipientStat :=
  map (fun kv => mkRecipientStat (fst kv) (snd kv) 0) (range (topRecipients m)).

(** The field TopRecipients of the Summary GetSummary returns. *)
Definition TopRecipients (m : MetricsTracker) : list RecipientStat :=
  let topRecipients := sort more (collect m) in
  if 10 <? Z.of_nat (length topRecipients) then firstn 10 topRecipients
  else topRecipients.

(** GetTopRecipients returns the most active recipients; the slice
    expression panics on a negative limit. *)
Definition GetTopRecipients (limit : Z) : M MetricsTracker (Outcome (list RecipientStat)) :=
  do m <- get;
  let recipients := sort more (collect m) in
  if limit <? Z.of_nat (length recipients) then
    if limit <? 0
    then ret (Panics ("runtime error: slice bounds out of range [:" ++ itoa limit ++ "]"))
    else ret (Returns (firstn (Z.to_nat limit) recipients))
  else ret (Returns recipients).

End Ranging.

(** [float64(n)] for a length [n]. *)
Definition float64 (n : Z) : float := PrimFloat.of_uint63 (Uint63.of_Z n).

(** [int(f)] for a finite [f]: the fraction is dropped.  (For a NaN
    or an infinity Go leaves the result to the platform; none is
    converted here.) *)
Definition int (f : float) : Z :=
  match Prim2SF f with
  | S754_finite s m e =>
      let v := if 0 <=? e then Z.pos m * 2 ^ e else Z.pos m / 2 ^ (- e) in
      if s then - v else v
  | _ => 0
  end.

(** [sorted[idx]]; an index out of range panics. *)
Definition index (sorted : list Duration) (idx : Z) : Outcome Duration :=
  if idx <? 0 then Panics "runtime error: index out of range"
  else
    match sorted !! Z.to_nat idx with
    | Some d => Returns d
    | None => Panics "runtime error: index out of range"
    end.

Set Warnings "-inexact-float".

Definition calculatePercentiles (m : MetricsTracker)
  : Outcome (Duration * Duration * Duration) :=
  if Z.of_nat (length (responseTimes m)) =? 0 then Returns (0, 0, 0)
  else
    let sorted := sort (fun y x => y <? x) (responseTimes m) in
    let n := Z.of_nat (length sorted) in
    let p50Idx := int (float64 n * 0.50)%float in
    let p95Idx := int (float64 n * 0.95)%float in
    let p99Idx := int (float64 n * 0.99)%float in
    let p50Idx := if n <=? p50Idx then n - 1 else p50Idx in
    let p95Idx := if n <=? p95Idx then n - 1 else p95Idx in
    let p99Idx := if n <=? p99Idx then n - 1 else p99Idx in
    match index sorted p50Idx with
    | Panics msg => Panics msg
    | Returns p50 =>
        match index sorted p95Idx with
        | Panics msg => Panics msg
        | Returns p95 =>
            match index sorted p99Idx with
            | Panics msg => Panics msg
            | Returns p99 => Returns (p50, p95, p99)
            end
        end
    end.

(** [d.Milliseconds()] *)
Definition Milliseconds (d : Duration) : Z := Z.quot d 1000000.

(** The map GetPerformanceStats returns, one field per key. *)
Record PerformanceStats : Type := mkPerformanceStats {
  avg_response_time : Z;
  max_response_time : Z;
  p50_response_time : Z;
  p95_response_time : Z;
  p99_response_time : Z;
  total_samples : Z
}.

(** GetPerformanceStats returns performance statistics *)
Definition GetPerformanceStats : M MetricsTracker (Outcome PerformanceStats) :=
  do m <- get;
  match calculatePercentiles m with
  | Panics msg => ret (Panics msg)
  | Returns (p50, p95, p99) =>
      ret (Returns (mkPerformanceStats
                      (Milliseconds (avgResponseTime m)) (Milliseconds (maxResponseTime m))
                      (Milliseconds p50) (Milliseconds p95) (Milliseconds p99)
                      (Z.of_nat (length (responseTimes m)))))
  end.

(** Reset resets all metrics *)
Definition Reset : M MetricsTracker unit :=
  do t <- Now;
  put (mkMetricsTracker 0 0 0 0 0 ∅ ∅ ∅ ∅ ∅ ∅ 0 [] 0 ∅ t).

End metrics.

(** * Package api: the allowlists of the request handler *)

Module api.

(** [strings.Contains(s, "/")] *)
Definition hasSlash (s : string) : bool := net.contains "/" s.

Definition addressAllowed (address : string) (allowlist : list string) : bool :=
  if (length allowlist =? 0)%nat then true
  else existsb (fun allowed => String.eqb address allowed) allowlist.

Definition ipAllowed (ip : string) (allowlist : list string) : bool :=
  if (length allowlist =? 0)%nat then true
  else
    let parsedIP := net.ParseIP ip in
    existsb (fun allowed =>
               if String.eqb allowed ip then true
               else if hasSlash allowed then
                 match net.ParseCIDR allowed, parsedIP with
                 | Some network, Some parsedIP => net.Contains network parsedIP
                 | _, _ => false
                 end
               else false) allowlist.

End api.

(** * Vocabulary of the properties *)

Module vocabulary.

(** The number of leading zero digits of a hash. *)
Fixpoint leadingZeros (hash : string) : nat :=
match hash with
| String "0" rest => Datatypes.S (leadingZeros rest)
| _ => O
end.

(** The tracker records the requests in turn. *)
Fixpoint recordAll (requests : list metrics.RequestMetrics) : M metrics.MetricsTracker unit :=
match requests with
| [] => ret tt
| r :: rest => exec metrics.RecordRequest r; recordAll rest
end.

(** The summary of a new tracker that has recorded the requests. *)
Definition summaryOf (requests : list metrics.RequestMetrics) (w : World) : metrics.Summary :=
match metrics.NewMetricsTracker tt w with
| (m, _, w') => result ((exec recordAll requests; metrics.GetSummary) m w')
end.

(** The four signals of the risk score of a tracker, at the time [t]. *)
Definition highFrequency (cfg : abuse.DetectorConfig) (tr : abuse.AttemptTracker) : Z :=
if abuse.SuspiciousThreshold cfg <? abuse.Count tr then 20 else 0.

Definition highFailureRate (tr : abuse.AttemptTracker) : Z :=
if abuse.SuccessfulCount tr * 2 <? abuse.FailedCount tr then 15 else 0.

Definition manyAddresses (tr : abuse.AttemptTracker) : Z :=
10 * Z.max 0 (abuse.len (abuse.Addresses tr) - 3).

Definition rapidAttempts (t : Time) (tr : abuse.AttemptTracker) : Z :=
if (time.Sub t (abuse.LastAttempt tr) <? time.Minute) && (3 <? abuse.Count tr)
then 25 else 0.

Definition fourSignals (cfg : abuse.DetectorConfig) (t : Time) (tr : abuse.AttemptTracker) : Z :=
highFrequency cfg tr + highFailureRate tr + manyAddresses tr + rapidAttempts t tr.

(** The tracker CheckRequest works on: the one of the IP, or a new one. *)
Definition trackerOf (ad : abuse.AbuseDetector) (ip : string) (w : World)
  : abuse.AttemptTracker :=
default (abuse.mkAttemptTracker 0 (now w) time.zero 0 0 ∅) (abuse.ipAttempts ad !! ip).

(** The reading of the clock calculateRiskScore gets in CheckRequest,
    when no block is looked at: the first one, or the second one after a
    new tracker took the first. *)
Definition scoringTime (ad : abuse.AbuseDetector) (ip : string) (w : World) : Time :=
match abuse.ipAttempts ad !! ip with
| Some _ => now w
| None => now (tick w)
end.

(** What CheckRequest adds to the score of an admitted request. *)
Definition vpnSignal (ad : abuse.AbuseDetector) (ip : string) : Z :=
if abuse.VPNDetectionEnabled (abuse.config ad) && abuse.isLikelyVPN ip then 20 else 0.

Definition fanningSignal (ad : abuse.AbuseDetector) (tr : abuse.AttemptTracker) : Z :=
if abuse.SuspiciousThreshold (abuse.config ad) <? abuse.len (abuse.Addresses tr)
then 25 else 0.

(** The values of a Go [int], [int64] or [time.Duration]. *)
Definition int64 (n : Z) : Prop := - 2 ^ 63 <= n < 2 ^ 63.

(** A byte. *)
Definition octet (n : Z) : Prop := 0 <= n < 256.

(** The networks of the subnet check, in the words of its description.
    An address in the 16-byte form is an IPv4 address when it is
    IPv4-mapped, and its last four bytes are the IPv4 address then.  Two
    addresses are of one network when both are IPv4 addresses with the
    same first 24 bits (one /24), or neither is and their first 64 bits
    are the same (one /64). *)
Definition mapped (address : net.IP) : bool :=
bool_decide (firstn 12 address = [0; 0; 0; 0; 0; 0; 0; 0; 0; 0; 255; 255]).

Definition sameNetwork (a b : net.IP) : bool :=
match mapped a, mapped b with
| true, true => bool_decide (firstn 3 (skipn 12 a) = firstn 3 (skipn 12 b))
| false, false => bool_decide (firstn 8 a = firstn 8 b)
| _, _ => false
end.


(** Whether the tracked key [key] is the text of an address of the
    network of the requester [ip]. *)
Definition neighbour (ip key : string) : bool :=
match net.ParseIP ip, net.ParseIP key with
| Some a, Some b => sameNetwork a b
| _, _ => false
end.

(** The tracked keys other than [ip] that are addresses of the network
    of [ip]; a key is a text, so that an address tracked in two
    spellings counts twice. *)
Definition neighbours (ip : string) (ad : abuse.AbuseDetector) : Z :=
Z.of_nat (size (filter (fun key => neighbour ip key = true)
                       (dom (abuse.ipAttempts ad) ∖ {[ip]}))).

(** The texts of a requester that are a dotted quad, or an IPv6 address
    that is not IPv4-mapped. *)
Definition plain (ip : string) : bool :=
match net.ParseAddr ip with
| Some (net.Addr4 _) => true
| Some (net.Addr6 b) => negb (mapped b)
| None => false
end.

(** Whether the subnet check fires for a request of [ip], once [ip] is
    tracked. *)
Definition crowded (ad : abuse.AbuseDetector) (ip : string) : bool :=
match abuse.subnetOf ip with
| None => false
| Some subnet => 5 <? abuse.subnetCount subnet ({[ip]} ∪ dom (abuse.ipAttempts ad))
end.

(** [n] rounds of CheckRequest then RecordAttempt; the results of the
    checks, first round first. *)
Fixpoint cycles (n : nat) (ip address : string) (success : nat -> bool)
  : M abuse.AbuseDetector (list abuse.DetectionResult) :=
match n with
| O => ret []
| Datatypes.S n' =>
    do r <- abuse.CheckRequest ip address;
    exec abuse.RecordAttempt ip address (success O);
    do rs <- cycles n' ip address (fun k => success (Datatypes.S k));
    ret (r :: rs)
end.

(** A string of decimal digits and dots, and the number of its dots. *)
Fixpoint digitsAndDots (s : string) : bool :=
match s with
| EmptyString => true
| String c rest => (net.isDigit c || Ascii.eqb c ".") && digitsAndDots rest
end.

Fixpoint dots (s : string) : nat :=
match s with
| EmptyString => O
| String c rest => if Ascii.eqb c "." then Datatypes.S (dots rest) else dots rest
end.

(** The detector [ad'] and the world [w'] after [k] recorded attempts of
    [ip] for [address], begun on [ad] in [w] with no block on either and
    no tracker of [ip]. *)
Definition attempted (ad : abuse.AbuseDetector) (w : World) (ip address : string)
                     (k : Z) (ad' : abuse.AbuseDetector) (w' : World) : Prop :=
abuse.blockedIPs ad' !! ip = None
/\ abuse.blockedAddrs ad' !! address = None
/\ abuse.config ad' = abuse.config ad
/\ clock w' = clock w
/\ {[ip]} ∪ dom (abuse.ipAttempts ad') = {[ip]} ∪ dom (abuse.ipAttempts ad)
/\ match abuse.ipAttempts ad' !! ip with
   | None => k = 0
   | Some tr =>
       abuse.Count tr = k
       /\ abuse.SuccessfulCount tr + abuse.FailedCount tr = k
       /\ exists m : nat, abuse.FirstAttempt tr = clock w m
   end.

(** The order a sort with the test [before] brings about: [x] may
    stand before [y]; every position before [i] holds an element that may
    stand before all the later ones; the element at [i] may stand before
    those at the positions after [i] and before [j]. *)
Section Order.
Context {A : Type} (before : A -> A -> bool).

Definition fits (x y : A) : Prop := before y x = false.

Definition settled (i : nat) (a : list A) : Prop :=
forall p q x y, (p < q)%nat -> (p < i)%nat ->
  a !! p = Some x -> a !! q = Some y -> fits x y.

Definition leads (i j : nat) (a : list A) : Prop :=
forall k x y, (i < k)%nat -> (k < j)%nat ->
  a !! i = Some x -> a !! k = Some y -> fits x y.

End Order.

(** What a metrics tracker is told, and a tracker told a list of events
    in turn. *)
Inductive Event : Type :=
| Requested (r : metrics.RequestMetrics)
| Blocked (ip : string).

Definition tell (e : Event) : M metrics.MetricsTracker unit :=
match e with
| Requested r => metrics.RecordRequest r
| Blocked ip => metrics.RecordBlocked ip
end.

Fixpoint replay (events : list Event) : M metrics.MetricsTracker unit :=
match events with
| [] => ret tt
| e :: rest => exec tell e; replay rest
end.

(** The tracker NewMetricsTracker creates in the world [w], after the
    events. *)
Definition told (events : list Event) (w : World) : metrics.MetricsTracker :=
match metrics.NewMetricsTracker tt w with
| (m, _, w') => after (replay events m w')
end.

Definition isRequested (e : Event) : bool :=
match e with Requested _ => true | Blocked _ => false end.

(** Events whose response times are at most 2^49 ns (six and a half
    days), forwards or backwards: the 10001 response times a tracker
    holds at most add up within an int64. *)
Definition moderate (events : list Event) : Prop :=
Forall (fun e => match e with
                 | Requested r => - 2 ^ 49 <= metrics.ResponseTime r <= 2 ^ 49
                 | Blocked _ => True
                 end) events.

(** The sum of the counters of a map. *)
Definition sumOf `{Countable K} (m : gmap K Z) : Z :=
map_fold (fun _ count acc => acc + count) 0 m.

(** The characters of a string. *)
Fixpoint chars (s : string) : list ascii :=
match s with
| EmptyString => []
| String c rest => c :: chars rest
end.

(** The adaptive controller is told the loads in turn. *)
Fixpoint adjust (loads : list float) : M (pow.AdaptiveDifficulty * pow.ProofOfWork) unit :=
match loads with
| [] => ret tt
| load :: rest => exec pow.UpdateLoad load; adjust rest
end.

(** Whether a result of Verify goes with the removal of the challenge. *)
Definition evicts (r : Outcome (bool * error)) : bool :=
match r with
| Returns (true, _) => true
| Returns (false, Some msg) => String.eqb msg pow.Expired
| _ => false
end.

(** Whether every character of [s] is one of [alphabet]. *)
Definition among (alphabet : string) (c : ascii) : bool :=
existsb (Ascii.eqb c) (chars alphabet).

Definition allAmong (alphabet s : string) : bool := forallb (among alphabet) (chars s).

End vocabulary.

(** * Sample runs *)

Module samples.

(** A world whose clock starts on June 15, 2025 and advances by one
    millisecond per reading. *)
Definition w0 : World :=
  mkWorld (fun n => 63885596800000000000 + Z.of_nat n * 1000000) 0
          (fun n => 17 * Z.of_nat n + 5) 0
          (fun n => inl (31 * Z.of_nat n + 7)) 0.

(** The same streams, one hour later. *)
Definition w1 : World :=
  mkWorld (fun n => 63885600400000000000 + Z.of_nat n * 1000000) 0
          (fun n => 17 * Z.of_nat n + 5) 0
          (fun n => inl (31 * Z.of_nat n + 7)) 0.

(** An engine of difficulty 1 issues a challenge. *)
Definition issue1 : pow.Challenge * error * pow.ProofOfWork * World :=
  pow.GenerateChallenge (pow.NewProofOfWork 1) w0.
Definition challenge1 : pow.Challenge := fst (result issue1).

(** The adaptive controller with base difficulty 1 under the load 10,
    and a challenge of its engine. *)
Definition relaxed : pow.AdaptiveDifficulty * pow.ProofOfWork :=
  after (pow.UpdateLoad 10 (pow.NewAdaptiveDifficulty 1, pow.NewProofOfWork 1) w0).
Definition issue0 : pow.Challenge * error * pow.ProofOfWork * World :=
  pow.GenerateChallenge (snd relaxed) w0.
Definition challenge0 : pow.Challenge := fst (result issue0).

(** The adaptive controller with base difficulty 0 under the load 10,
    and a challenge of its engine. *)
Definition negative : pow.AdaptiveDifficulty * pow.ProofOfWork :=
  after (pow.UpdateLoad 10 (pow.NewAdaptiveDifficulty 0, pow.NewProofOfWork 0) w0).
Definition issueNegative : pow.Challenge * error * pow.ProofOfWork * World :=
  pow.GenerateChallenge (snd negative) w0.
Definition challengeNegative : pow.Challenge := fst (result issueNegative).

(** A service for CAPTCHAs of four characters, a drawing that gives the
    signature of a PNG file, and a generated CAPTCHA. *)
Definition service : captcha.CaptchaService :=
captcha.NewCaptchaService (captcha.mkCaptchaOptions 4 0 0 time.Minute "").
Definition drawing (_ : captcha.CaptchaOptions) (_ : string) (w : World)
  : Outcome (list Z * error) * World :=
(Returns ([137; 80; 78; 71; 13; 10; 26; 10], None), w).
Definition generated
  : Outcome (option captcha.CaptchaData * error) * captcha.CaptchaService * World :=
captcha.Generate drawing service w0.
Definition captcha1 : captcha.CaptchaData :=
match result generated with
| Returns (Some c, _) => c
| _ => captcha.mkCaptchaData "" "" [] 0 0
end.

(** A successful and a failed request, of two addresses and two IPs. *)
Definition served : metrics.RequestMetrics :=
metrics.mkRequestMetrics "192.0.2.10" "aura1first" 1000000 true ""
                         (20 * time.Millisecond) (now w0) true true.
Definition refused : metrics.RequestMetrics :=
metrics.mkRequestMetrics "192.0.2.11" "aura1second" 500000 false "captcha_failed"
                         (40 * time.Millisecond) (now w1) false false.

(** A world whose clock advances by one millisecond per reading for a
    second, then stands still. *)
Definition steady : World :=
mkWorld (fun n => 63885596800000000000 + Z.min (Z.of_nat n) 1000 * 1000000) 0
        (fun n => 17 * Z.of_nat n + 5) 0
        (fun n => inl (31 * Z.of_nat n + 7)) 0.

(** The detector of three attempts per hour and blocks of one minute. *)
Definition strict : abuse.AbuseDetector :=
abuse.NewAbuseDetector (abuse.mkDetectorConfig 3 0 time.Minute false false 0).

(** The same detector after three failed attempts of 192.0.2.1. *)
Definition seasoned : abuse.AbuseDetector :=
after (vocabulary.cycles 3 "192.0.2.1" "aura1test" (fun _ => false) strict steady).


(** The network of 192.0.2.1. *)
Definition network : net.IPNet := net.mkIPNet [192; 0; 2; 0] [255; 255; 255; 0].



(** A detector with the subnet check that has recorded one attempt of
    each of four addresses of 2001:db8:0:1::/64 and of one of
    2001:db8:0:2::/64. *)
Definition block : abuse.AbuseDetector :=
after ((exec abuse.RecordAttempt "2001:db8:0:1::11" "aura1a" true;
        exec abuse.RecordAttempt "2001:db8:0:1::12" "aura1b" true;
        exec abuse.RecordAttempt "2001:db8:0:1::13" "aura1c" true;
        exec abuse.RecordAttempt "2001:db8:0:1::14" "aura1d" true;
        abuse.RecordAttempt "2001:db8:0:2::15" "aura1e" true)
         (abuse.NewAbuseDetector (abuse.mkDetectorConfig 0 0 0 true false 0)) steady).

(** A tracker that has recorded four requests, three of them served,
    for two addresses. *)
Definition busy : metrics.MetricsTracker :=
vocabulary.told
  [vocabulary.Requested served; vocabulary.Requested refused;
   vocabulary.Requested
     (metrics.mkRequestMetrics "192.0.2.12" "aura1third" 1000000 true ""
                               (30 * time.Millisecond) (now w1) true true);
   vocabulary.Requested served] w0.

(** The CAPTCHA of a service created with the zero options. *)
Definition captcha6 : captcha.CaptchaData :=
match result (captcha.Generate drawing
                (captcha.NewCaptchaService (captcha.mkCaptchaOptions 0 0 0 0 "")) w0) with
| Returns (Some c, _) => c
| _ => captcha.mkCaptchaData "" "" [] 0 0
end.

End samples.
(** * Properties *)

(** ** Test vectors of SHA-256 *)

Example sha256_abc :
  hex.EncodeToString (sha256.Sum256 "abc")
  = "ba7816bf8f01cfea414140de5dae2223b00361a396177a9cb410ff61f20015ad"%string.
Proof. vm_compute. reflexivity. Qed.

Example sha256_empty :
  hex.EncodeToString (sha256.Sum256 "")
  = "e3b0c44298fc1c149afbf4c8996fb92427ae41e4649b934ca495991b7852b855"%string.
Proof. vm_compute. reflexivity. Qed.

Example sha256_two_blocks :
  hex.EncodeToString
    (sha256.Sum256 "abcdbcdecdefdefgefghfghighijhijkijkljklmklmnlmnomnopnopq")
  = "248d6a61d20638b8e5c026930c3e6039a33ce45964ff2167f6ecedd419db06c1"%string.
Proof. vm_compute. reflexivity. Qed.


(** ** The tests of the repository, run on the model *)

(** TestAdaptiveDifficultyAdjusts: base 3, load 100 then load 10. *)
Example adaptive_difficulty_adjusts :
  result ((exec pow.UpdateLoad 100; pow.GetCurrentDifficulty)
            (pow.NewAdaptiveDifficulty 3, pow.NewProofOfWork 3) samples.w0) = 5
  /\ result ((exec pow.UpdateLoad 100; exec pow.UpdateLoad 10; pow.GetCurrentDifficulty)
               (pow.NewAdaptiveDifficulty 3, pow.NewProofOfWork 3) samples.w0) = 2.
Proof. split; vm_compute; reflexivity. Qed.

(** TestVPNAndSubnetRiskScoring: two recorded attempts of a private
    address for two addresses, then a check. *)
Example vpn_and_subnet_risk_scoring :
  let detector := abuse.NewAbuseDetector (abuse.mkDetectorConfig 0 0 0 true true 1) in
  let r := result ((exec abuse.RecordAttempt "10.0.0.1" "aura1x" true;
                    exec abuse.RecordAttempt "10.0.0.1" "aura1y" true;
                    abuse.CheckRequest "10.0.0.1" "aura1y") detector samples.steady) in
  abuse.Allowed r = true /\ abuse.RiskScore r = 65
  /\ abuse.RecommendedDelay r = 65 * time.Second.
Proof. vm_compute. by repeat split. Qed.

(** TestAddressBlock: a block of the address put in by hand. *)
Example address_block :
  let detector := abuse.NewAbuseDetector (abuse.mkDetectorConfig 0 0 time.Minute false false 0) in
  let blocked :=
    abuse.setBlockedAddrs
      (<["aura1blocked"%string := time.Add (now samples.steady) time.Minute]>
         (abuse.blockedAddrs detector)) detector in
  let r := result (abuse.CheckRequest "203.0.113.5" "aura1blocked" blocked samples.steady) in
  abuse.Allowed r = false /\ abuse.Reason r = "Address is temporarily blocked"%string.
Proof. vm_compute. by split. Qed.

(** Addresses and networks. *)
Example parse_addresses :
  net.ParseIP "192.0.2.1" = Some [0; 0; 0; 0; 0; 0; 0; 0; 0; 0; 255; 255; 192; 0; 2; 1]
  /\ net.ParseIP "2001:db8::1" = Some [32; 1; 13; 184; 0; 0; 0; 0; 0; 0; 0; 0; 0; 0; 0; 1]
  /\ net.ParseIP "192.0.2.01" = None
  /\ net.ParseIP "fe80::1%eth0" = None
  /\ net.ParseCIDR "172.16.0.0/12" = Some (net.mkIPNet [172; 16; 0; 0] [255; 240; 0; 0])
  /\ abuse.isLikelyVPN "172.31.255.1" = true
  /\ abuse.isLikelyVPN "172.32.0.1" = false.
Proof. vm_compute. by repeat split. Qed.

(** The wall clock of a time. *)
Example wall_clock :
  calendar.FormatDate (now samples.w0) = "2025-06-15"%string
  /\ calendar.Hour (now samples.w0) = 15.
Proof. vm_compute. by split. Qed.

Set Warnings "-clear-no-such-hyp".

(** ** Running methods *)

(** Unfolds the monad in the goal. *)
Ltac run := cbv beta zeta delta [bind ret get put modify Now] in *; cbn beta iota zeta in *.

Lemma tick_clock w : clock (tick w) = clock w.
Proof. reflexivity. Qed.

Lemma tick_ticks w : ticks (tick w) = Datatypes.S (ticks w).
Proof. reflexivity. Qed.

(** ** Package pow *)

Module pow_properties.
Import pow.
Import vocabulary.

Lemma HasPrefix_zeros (n : nat) (hash : string) :
  strings.HasPrefix hash (strings.repeat "0" n) = true <-> (n <= leadingZeros hash)%nat.
Proof.
  unfold strings.HasPrefix. revert hash.
  induction n as [|n IH]; intros hash; simpl.
  - destruct hash; split; intros; auto with arith.
  - destruct hash as [|c rest]; simpl.
    + split; [discriminate | lia].
    + destruct c as [[] [] [] [] [] [] [] []]; simpl;
        try (split; [discriminate | lia]).
      rewrite IH. lia.
Qed.

Lemma verifyHash_leadingZeros (hash : string) (d : Z) :
  0 <= d ->
  exists valid, verifyHash hash d = Returns valid
    /\ (valid = true <-> (Z.to_nat d <= leadingZeros hash)%nat).
Proof.
  intros Hd. unfold verifyHash, strings.Repeat.
  destruct (d <? 0) eqn:E; [lia |].
  eexists; split; [reflexivity | apply HasPrefix_zeros].
Qed.

Lemma verifyHash_zero (hash : string) : verifyHash hash 0 = Returns true.
Proof. unfold verifyHash. simpl. unfold strings.HasPrefix. by destruct hash. Qed.

Lemma verifyHash_negative (hash : string) (d : Z) :
  d < 0 -> verifyHash hash d = Panics "strings: negative Repeat count".
Proof.
  intros Hd. unfold verifyHash, strings.Repeat.
  destruct (d <? 0) eqn:E; [reflexivity | lia].
Qed.

(** The solver answers with a candidate only after checking its hash. *)
Lemma solveFrom_sound (fuel : nat) (nonce prefix : string) (attempts : Z) (solution : string) :
  solveFrom fuel nonce prefix attempts = (solution, None) ->
  strings.HasPrefix (computeHash nonce solution) prefix = true.
Proof.
  revert attempts. induction fuel as [|fuel IH]; intros attempts H; simpl in H.
  - discriminate.
  - destruct (strings.HasPrefix (computeHash nonce (itoa attempts)) prefix) eqn:E.
    + by inversion H; subst.
    + eauto.
Qed.

Lemma SolveChallenge_sound (nonce : string) (d : Z) (solution : string) :
  SolveChallenge nonce d = Returns (solution, None) ->
  verifyHash (computeHash nonce solution) d = Returns true.
Proof.
  unfold SolveChallenge, verifyHash.
  generalize (Z.to_nat maxAttempts) as fuel. intros fuel.
  destruct (strings.Repeat "0" d) as [prefix|msg]; [|discriminate].
  intros H.
  assert (H' : solveFrom fuel nonce prefix 0 = (solution, None)) by congruence.
  by rewrite (solveFrom_sound _ _ _ _ _ H').
Qed.

(** The four ways through Verify. *)
Lemma Verify_absent (p : ProofOfWork) (w : World) (id solution : string) :
  challenges p !! id = None ->
  Verify id solution p w = (Returns (false, Some NotFound), p, w).
Proof. intros H. unfold Verify. run. by rewrite H. Qed.

Lemma Verify_expired (p : ProofOfWork) (w : World) (id solution : string) (ch : Challenge) :
  challenges p !! id = Some ch ->
  time.After (now w) (ExpiresAt ch) = true ->
  Verify id solution p w = (Returns (false, Some Expired), deleteChallenge id p, tick w).
Proof. intros H E. unfold Verify. run. by rewrite H, E. Qed.

Lemma Verify_checks (p : ProofOfWork) (w : World) (id solution : string) (ch : Challenge) :
  challenges p !! id = Some ch ->
  time.After (now w) (ExpiresAt ch) = false ->
  Verify id solution p w =
    match verifyHash (computeHash (Nonce ch) solution) (Difficulty ch) with
    | Panics msg => (Panics msg, p, tick w)
    | Returns true => (Returns (true, None), deleteChallenge id p, tick w)
    | Returns false => (Returns (false, None), p, tick w)
    end.
Proof.
  intros H E. unfold Verify. run. rewrite H, E.
  by destruct (verifyHash _ _) as [[]|].
Qed.

Lemma deleteChallenge_absent (p : ProofOfWork) (id : string) :
  challenges (deleteChallenge id p) !! id = None.
Proof. apply lookup_delete_eq. Qed.

(** generateNonce reads the random source only. *)
Lemma fillNonce_frame {S : Type} (n : nat) (s : S) (w : World) :
  exists nonce w',
    fillNonce n s w = (nonce, s, w')
    /\ clock w' = clock w /\ ticks w' = ticks w.
Proof.
  revert w. induction n as [|n IH]; intros w; simpl.
  - by exists EmptyString, w.
  - run. unfold Intn.
    destruct (IH (mkWorld (clock w) (ticks w) (mathrand w) (Datatypes.S (mathdrawn w))
                          (cryptorand w) (cryptodrawn w)))
      as (rest & w' & E & Hc & Ht).
    rewrite E. by eexists _, _.
Qed.

(** What GenerateChallenge stores and returns. *)
Lemma GenerateChallenge_issues (p : ProofOfWork) (w : World) :
  snd (result (GenerateChallenge p w)) = None
  /\ challenges (after (GenerateChallenge p w)) !! ID (fst (result (GenerateChallenge p w)))
     = Some (fst (result (GenerateChallenge p w)))
  /\ difficulty (after (GenerateChallenge p w)) = difficulty p
  /\ Difficulty (fst (result (GenerateChallenge p w))) = difficulty p
  /\ ExpiresAt (fst (result (GenerateChallenge p w)))
     = time.Add (clock w (Datatypes.S (Datatypes.S (ticks w)))) (10 * time.Minute).
Proof.
  unfold GenerateChallenge, generateChallengeID, generateNonce. run.
  destruct (fillNonce_frame 32 p w) as (nonce & w1 & -> & Hc1 & Ht1).
  destruct (fillNonce_frame 32 p (tick w1)) as (n2 & w2 & -> & Hc2 & Ht2).
  cbn in Hc2, Ht2. rewrite Hc1 in Hc2. rewrite Ht1 in Ht2.
  cbn. rewrite lookup_insert_eq. unfold now. cbn. rewrite Hc2, Ht2. auto.
Qed.

Opaque GenerateChallenge.

(** C1.  GenerateChallenge stores the challenge it returns under its
    id.  For a challenge in the store, not yet expired, and a solution the
    reference solver returns for its nonce and difficulty: Verify returns
    true and removes the challenge, and every later Verify on the same id,
    whatever the solution and the time, fails with "challenge not found"
    and changes nothing. *)
Theorem solver_solution_verifies_exactly_once :
  (forall (q : ProofOfWork) (w : World),
     challenges (after (GenerateChallenge q w)) !! ID (fst (result (GenerateChallenge q w)))
     = Some (fst (result (GenerateChallenge q w))))
  /\ forall (p : ProofOfWork) (w : World) (id : string) (ch : Challenge) (solution : string),
       challenges p !! id = Some ch ->
       time.After (now w) (ExpiresAt ch) = false ->
       SolveChallenge (Nonce ch) (Difficulty ch) = Returns (solution, None) ->
       Verify id solution p w = (Returns (true, None), deleteChallenge id p, tick w)
       /\ challenges (deleteChallenge id p) !! id = None
       /\ forall (w' : World) (solution' : string),
            Verify id solution' (deleteChallenge id p) w'
            = (Returns (false, Some NotFound), deleteChallenge id p, w').
Proof.
  split.
  - intros q w. exact (proj1 (proj2 (GenerateChallenge_issues q w))).
  - intros p w id ch solution Hstored Hfresh Hsolved. split; [|split].
    + rewrite (Verify_checks _ _ _ _ _ Hstored Hfresh).
      by rewrite (SolveChallenge_sound _ _ _ Hsolved).
    + apply deleteChallenge_absent.
    + intros w' solution'. apply Verify_absent, deleteChallenge_absent.
Qed.

Lemma solver_solution_verifies_exactly_once_witness :
  challenges (after samples.issue1) !! ID samples.challenge1 = Some samples.challenge1
  /\ time.After (now (world samples.issue1)) (ExpiresAt samples.challenge1) = false
  /\ SolveChallenge (Nonce samples.challenge1) (Difficulty samples.challenge1)
     = Returns ("3"%string, None)
  /\ Verify (ID samples.challenge1) "3" (after samples.issue1) (world samples.issue1)
     = (Returns (true, None),
        deleteChallenge (ID samples.challenge1) (after samples.issue1),
        tick (world samples.issue1)).
Proof.
  assert (H1 : challenges (after samples.issue1) !! ID samples.challenge1
               = Some samples.challenge1) by (vm_compute; reflexivity).
  assert (H2 : time.After (now (world samples.issue1)) (ExpiresAt samples.challenge1)
               = false) by (vm_compute; reflexivity).
  assert (H3 : SolveChallenge (Nonce samples.challenge1) (Difficulty samples.challenge1)
               = Returns ("3"%string, None)) by (vm_compute; reflexivity).
  refine (conj H1 (conj H2 (conj H3 _))).
  exact (proj1 (proj2 solver_solution_verifies_exactly_once _ _ _ _ _ H1 H2 H3)).
Defined.

(** C6.  SetDifficulty leaves the stored challenges as they are and
    sets the difficulty of the challenges issued afterwards, as
    GenerateChallenge gives a challenge the difficulty of the engine at
    that time; and Verify tests a stored challenge against its own
    difficulty [d1], whatever the engine's difficulty has become: before
    expiry it returns true exactly when the hash has at least [d1]
    leading zero digits. *)
Theorem SetDifficulty_spares_issued_challenges
    (p : ProofOfWork) (w1 w2 : World) (d2 : Z)
    (id : string) (ch : Challenge) (solution : string) :
  let d1 := Difficulty ch in
  let p2 := after (SetDifficulty d2 p w1) in
  challenges p !! id = Some ch ->
  0 <= d1 ->
  time.After (now w2) (ExpiresAt ch) = false ->
  challenges p2 = challenges p
  /\ difficulty p2 = d2
  /\ (forall (q : ProofOfWork) (w : World),
        Difficulty (fst (result (GenerateChallenge q w))) = difficulty q
        /\ challenges (after (GenerateChallenge q w))
             !! ID (fst (result (GenerateChallenge q w)))
           = Some (fst (result (GenerateChallenge q w))))
  /\ exists valid : bool,
       result (Verify id solution p2 w2) = Returns (valid, None)
       /\ (valid = true
           <-> (Z.to_nat d1 <= leadingZeros (computeHash (Nonce ch) solution))%nat).
Proof.
  intros d1 p2 Hstored Hd1 Hfresh.
  split; [done|]. split; [done|]. split.
  - intros q w. destruct (GenerateChallenge_issues q w) as (_ & Hq & _ & Hdq & _).
    split; [exact Hdq | exact Hq].
  - assert (Hstored2 : challenges p2 !! id = Some ch) by exact Hstored.
    rewrite (Verify_checks _ _ _ _ _ Hstored2 Hfresh).
    destruct (verifyHash_leadingZeros (computeHash (Nonce ch) solution) d1 Hd1)
      as (valid & Hv & Hvalid).
    fold d1. rewrite Hv. exists valid. by destruct valid.
Qed.

Lemma SetDifficulty_spares_issued_challenges_witness :
  challenges (after samples.issue1) !! ID samples.challenge1 = Some samples.challenge1
  /\ 0 <= Difficulty samples.challenge1
  /\ time.After (now (world samples.issue1)) (ExpiresAt samples.challenge1) = false
  /\ exists valid : bool,
       result (Verify (ID samples.challenge1) "3"
                      (after (SetDifficulty 3 (after samples.issue1) samples.w0))
                      (world samples.issue1))
       = Returns (valid, None)
       /\ (valid = true
           <-> (Z.to_nat (Difficulty samples.challenge1)
                <= leadingZeros (computeHash (Nonce samples.challenge1) "3"))%nat).
Proof.
  assert (H1 : challenges (after samples.issue1) !! ID samples.challenge1
               = Some samples.challenge1) by (vm_compute; reflexivity).
  assert (H2 : 0 <= Difficulty samples.challenge1) by (vm_compute; discriminate).
  assert (H3 : time.After (now (world samples.issue1)) (ExpiresAt samples.challenge1)
               = false) by (vm_compute; reflexivity).
  refine (conj H1 (conj H2 (conj H3 _))).
  exact (proj2 (proj2 (proj2
    (SetDifficulty_spares_issued_challenges _ samples.w0 _ 3 _ _ "3" H1 H2 H3)))).
Defined.

(** C7.  Verify on a stored challenge whose expiry is in the past
    fails with "challenge expired" whatever the solution, and removes
    the challenge; every later Verify on the id fails with "challenge
    not found". *)
Theorem Verify_expired_evicts
    (p : ProofOfWork) (w : World) (id : string) (ch : Challenge) (solution : string) :
  challenges p !! id = Some ch ->
  time.After (now w) (ExpiresAt ch) = true ->
  Verify id solution p w = (Returns (false, Some Expired), deleteChallenge id p, tick w)
  /\ challenges (deleteChallenge id p) !! id = None
  /\ forall (w' : World) (solution' : string),
       Verify id solution' (deleteChallenge id p) w'
       = (Returns (false, Some NotFound), deleteChallenge id p, w').
Proof.
  intros Hstored Hexpired. split; [|split].
  - exact (Verify_expired _ _ _ _ _ Hstored Hexpired).
  - apply deleteChallenge_absent.
  - intros w' solution'. apply Verify_absent, deleteChallenge_absent.
Qed.

Lemma Verify_expired_evicts_witness :
  challenges (after samples.issue1) !! ID samples.challenge1 = Some samples.challenge1
  /\ time.After (now samples.w1) (ExpiresAt samples.challenge1) = true
  /\ Verify (ID samples.challenge1) "3" (after samples.issue1) samples.w1
     = (Returns (false, Some Expired),
        deleteChallenge (ID samples.challenge1) (after samples.issue1),
        tick samples.w1).
Proof.
  assert (H1 : challenges (after samples.issue1) !! ID samples.challenge1
               = Some samples.challenge1) by (vm_compute; reflexivity).
  assert (H2 : time.After (now samples.w1) (ExpiresAt samples.challenge1) = true)
    by (vm_compute; reflexivity).
  refine (conj H1 (conj H2 _)).
  exact (proj1 (Verify_expired_evicts _ _ _ _ "3" H1 H2)).
Defined.

(** C8.  Verify with a candidate whose hash lacks the required zeros
    returns false and no error and leaves the engine as it was; a later
    Verify before expiry with a candidate that hashes well succeeds. *)
Theorem Verify_mismatch_keeps_challenge
    (p : ProofOfWork) (w : World) (id : string) (ch : Challenge) (solution : string) :
  challenges p !! id = Some ch ->
  time.After (now w) (ExpiresAt ch) = false ->
  verifyHash (computeHash (Nonce ch) solution) (Difficulty ch) = Returns false ->
  Verify id solution p w = (Returns (false, None), p, tick w)
  /\ forall (w' : World) (solution' : string),
       time.After (now w') (ExpiresAt ch) = false ->
       verifyHash (computeHash (Nonce ch) solution') (Difficulty ch) = Returns true ->
       Verify id solution' p w' = (Returns (true, None), deleteChallenge id p, tick w').
Proof.
  intros Hstored Hfresh Hbad. split.
  - by rewrite (Verify_checks _ _ _ _ _ Hstored Hfresh), Hbad.
  - intros w' solution' Hfresh' Hgood.
    by rewrite (Verify_checks _ _ _ _ _ Hstored Hfresh'), Hgood.
Qed.

Lemma Verify_mismatch_keeps_challenge_witness :
  challenges (after samples.issue1) !! ID samples.challenge1 = Some samples.challenge1
  /\ time.After (now (world samples.issue1)) (ExpiresAt samples.challenge1) = false
  /\ verifyHash (computeHash (Nonce samples.challenge1) "0")
                (Difficulty samples.challenge1) = Returns false
  /\ Verify (ID samples.challenge1) "0" (after samples.issue1) (world samples.issue1)
     = (Returns (false, None), after samples.issue1, tick (world samples.issue1)).
Proof.
  assert (H1 : challenges (after samples.issue1) !! ID samples.challenge1
               = Some samples.challenge1) by (vm_compute; reflexivity).
  assert (H2 : time.After (now (world samples.issue1)) (ExpiresAt samples.challenge1)
               = false) by (vm_compute; reflexivity).
  assert (H3 : verifyHash (computeHash (Nonce samples.challenge1) "0")
                          (Difficulty samples.challenge1) = Returns false)
    by (vm_compute; reflexivity).
  refine (conj H1 (conj H2 (conj H3 _))).
  exact (proj1 (Verify_mismatch_keeps_challenge _ _ _ _ _ H1 H2 H3)).
Defined.

(** C9, amended.  The adaptive controller with base difficulty 1
    pushes the difficulty 0 into the engine under a low load (10, against
    the baseline 50); a challenge issued by an engine of difficulty 0
    has difficulty 0; and on a stored challenge of difficulty 0, Verify
    returns true for every candidate before expiry. *)
Theorem zero_difficulty_accepts_every_candidate :
  (forall (p : ProofOfWork) (w : World),
     difficulty (snd (after (UpdateLoad 10 (NewAdaptiveDifficulty 1, p) w))) = 0)
  /\ (forall (p : ProofOfWork) (w : World),
        difficulty p = 0 ->
        Difficulty (fst (result (GenerateChallenge p w))) = 0
        /\ challenges (after (GenerateChallenge p w))
             !! ID (fst (result (GenerateChallenge p w)))
           = Some (fst (result (GenerateChallenge p w))))
  /\ forall (p : ProofOfWork) (w : World) (id : string) (ch : Challenge) (solution : string),
       challenges p !! id = Some ch ->
       Difficulty ch = 0 ->
       time.After (now w) (ExpiresAt ch) = false ->
       Verify id solution p w = (Returns (true, None), deleteChallenge id p, tick w).
Proof.
  split; [reflexivity|]. split.
  - intros p w Hzero.
    destruct (GenerateChallenge_issues p w) as (_ & Hp & _ & Hdp & _).
    split; [by rewrite Hdp | exact Hp].
  - intros p w id ch solution Hstored Hzero Hfresh.
    rewrite (Verify_checks _ _ _ _ _ Hstored Hfresh), Hzero.
    by rewrite verifyHash_zero.
Qed.

Lemma zero_difficulty_accepts_every_candidate_witness :
  difficulty (snd samples.relaxed) = 0
  /\ challenges (after samples.issue0) !! ID samples.challenge0 = Some samples.challenge0
  /\ Difficulty samples.challenge0 = 0
  /\ time.After (now (world samples.issue0)) (ExpiresAt samples.challenge0) = false
  /\ Verify (ID samples.challenge0) "wrong" (after samples.issue0) (world samples.issue0)
     = (Returns (true, None),
        deleteChallenge (ID samples.challenge0) (after samples.issue0),
        tick (world samples.issue0)).
Proof.
  assert (H0 : difficulty (snd samples.relaxed) = 0) by (vm_compute; reflexivity).
  assert (H1 : challenges (after samples.issue0) !! ID samples.challenge0
               = Some samples.challenge0) by (vm_compute; reflexivity).
  assert (H2 : Difficulty samples.challenge0 = 0) by (vm_compute; reflexivity).
  assert (H3 : time.After (now (world samples.issue0)) (ExpiresAt samples.challenge0)
               = false) by (vm_compute; reflexivity).
  refine (conj H0 (conj H1 (conj H2 (conj H3 _)))).
  exact (proj2 (proj2 zero_difficulty_accepts_every_candidate) _ _ _ _ "wrong" H1 H2 H3).
Defined.

(** C9 as stated fails on a negative difficulty: the controller with
    base difficulty 0 pushes -1 under the load 10, and Verify on a
    challenge issued then panics in strings.Repeat instead of returning
    true. *)
Lemma negative_difficulty_Verify_panics :
  difficulty (snd samples.negative) = -1
  /\ challenges (after samples.issueNegative) !! ID samples.challengeNegative
     = Some samples.challengeNegative
  /\ Difficulty samples.challengeNegative = -1
  /\ time.After (now (world samples.issueNegative)) (ExpiresAt samples.challengeNegative)
     = false
  /\ result (Verify (ID samples.challengeNegative) "0" (after samples.issueNegative)
                    (world samples.issueNegative))
     = Panics "strings: negative Repeat count"
  /\ result (Verify (ID samples.challengeNegative) "0" (after samples.issueNegative)
                    (world samples.issueNegative))
     <> Returns (true, None).
Proof.
  assert (H : result (Verify (ID samples.challengeNegative) "0"
                             (after samples.issueNegative) (world samples.issueNegative))
              = Panics "strings: negative Repeat count") by (vm_compute; reflexivity).
  split; [vm_compute; reflexivity|]. split; [vm_compute; reflexivity|].
  split; [vm_compute; reflexivity|]. split; [vm_compute; reflexivity|].
  split; [exact H|]. rewrite H. discriminate.
Qed.

End pow_properties.

(** ** Package captcha *)

Module captcha_properties.
Import captcha.

(** The random sources are read, the service is left as it is. *)
Lemma cryptoRead_frame {S : Type} (n : nat) (s : S) (w : World) :
  after (cryptoRead n s w) = s.
Proof.
  revert w. induction n as [|n IH]; intros w; simpl; [done|].
  run. unfold cryptoInt.
  destruct (cryptorand w (cryptodrawn w)) as [z|err]; [|done].
  specialize (IH (mkWorld (clock w) (ticks w) (mathrand w) (mathdrawn w) (cryptorand w)
                          (Datatypes.S (cryptodrawn w)))).
  destruct (cryptoRead n s _) as [[[xs|err] s'] w']; exact IH.
Qed.

Lemma generateRandomString_frame {S : Type} (length : Z) (s : S) (w : World) :
  after (generateRandomString length s w) = s.
Proof.
  unfold generateRandomString. run.
  pose proof (cryptoRead_frame (Z.to_nat length) s w) as H.
  by destruct (cryptoRead (Z.to_nat length) s w) as [[[xs|err] s'] w'].
Qed.

Lemma length_append (s1 s2 : string) :
  String.length (s1 ++ s2) = (String.length s1 + String.length s2)%nat.
Proof. induction s1 as [|c s1 IH]; simpl; [done | by rewrite IH]. Qed.

(** The loop writes one byte per round. *)
Lemma fillSolution_length {S : Type} (n : nat) (chars written : string) (s : S) (w : World)
    (solution : string) :
  result (fillSolution n chars written s w) = (solution, None) ->
  String.length solution = (String.length written + n)%nat
  /\ after (fillSolution n chars written s w) = s.
Proof.
  revert written w. induction n as [|n IH]; intros written w; simpl.
  - intros H. inversion H; subst. split; [lia | done].
  - run. unfold cryptoInt.
    destruct (cryptorand w (cryptodrawn w)) as [z|err]; [|discriminate].
    intros H. apply IH in H as [H1 H2]. split; [|exact H2].
    rewrite H1, length_append. simpl. lia.
Qed.

Lemma generateSolution_length (s : CaptchaService) (w : World) (solution : string) :
  result (generateSolution s w) = Returns (solution, None) ->
  Z.of_nat (String.length solution) = Length (options s)
  /\ after (generateSolution s w) = s.
Proof.
  unfold generateSolution. run.
  destruct (Length (options s) <? 0) eqn:E; [discriminate|].
  set (chars := if String.eqb (Difficulty (options s)) "easy" then _ else _).
  pose proof (fillSolution_length (Z.to_nat (Length (options s))) chars EmptyString s w)
    as H.
  destruct (fillSolution _ chars EmptyString s w) as [[[sol err] s'] w'].
  intros H'. assert (sol = solution /\ err = None) as [-> ->].
  { unfold result in H'. simpl in H'. by inversion H'. }
  destruct (H solution eq_refl) as [H1 H2]. split; [|exact H2].
  rewrite H1. simpl. lia.
Qed.

(** What Generate stores and returns. *)
Lemma Generate_stores
    (generateImage : CaptchaOptions -> string -> World -> Outcome (list Z * error) * World)
    (s : CaptchaService) (w : World) (c : CaptchaData) :
  result (Generate generateImage s w) = Returns (Some c, None) ->
  Z.of_nat (String.length (Solution c)) = Length (options s)
  /\ Get (ID c) (store (after (Generate generateImage s w))) = Some c
  /\ options (after (Generate generateImage s w)) = options s.
Proof.
  unfold Generate. run.
  pose proof (generateRandomString_frame 16 s w) as Hid.
  destruct (generateRandomString 16 s w) as [[[id [err|]] s1] w1]; [discriminate|].
  unfold after in Hid; simpl in Hid; subst s1.
  pose proof (generateSolution_length s w1) as Hsol.
  destruct (generateSolution s w1) as [[[[solution [err|]]|msg] s2] w2]; try discriminate.
  destruct (Hsol solution eq_refl) as [Hlen Hs2].
  unfold after in Hs2; simpl in Hs2; subst s2.
  destruct (generateImage (options s) solution w2) as [[[imageData [err|]]|msg] w3];
    try discriminate.
  unfold onStore, result, after. simpl. intros H. inversion H; subst c. simpl.
  split; [exact Hlen|]. split; [|done].
  unfold Get, Set_. simpl. apply lookup_insert_eq.
Qed.

Opaque Generate.

(** The three ways through Validate. *)
Lemma Validate_absent (s : CaptchaService) (w : World) (id solution : string) :
  Get id (store s) = None -> Validate id solution s w = (false, s, w).
Proof. intros H. unfold Validate. run. by rewrite H. Qed.

Lemma Validate_expired (s : CaptchaService) (w : World) (id solution : string)
    (c : CaptchaData) :
  Get id (store s) = Some c ->
  time.After (now w) (ExpiresAt c) = true ->
  Validate id solution s w
  = (false, mkCaptchaService (Delete id (store s)) (options s), tick w).
Proof. intros H E. unfold Validate. run. by rewrite H, E. Qed.

Lemma Validate_compares (s : CaptchaService) (w : World) (id solution : string)
    (c : CaptchaData) :
  Get id (store s) = Some c ->
  time.After (now w) (ExpiresAt c) = false ->
  Validate id solution s w
  = (String.eqb (Solution c) solution,
     mkCaptchaService (Delete id (store s)) (options s), tick w).
Proof. intros H E. unfold Validate. run. by rewrite H, E. Qed.

Lemma Delete_absent (id : string) (st : CaptchaStore) : Get id (Delete id st) = None.
Proof. apply lookup_delete_eq. Qed.

(** C3.  A CAPTCHA that Generate returns has a solution of the
    configured length and is in the store.  Validate on a stored CAPTCHA
    before expiry returns the comparison of the candidate with the
    solution, true exactly when they are equal, and deletes the entry
    whatever the comparison says; every later Validate on the id returns
    false. *)
Theorem generated_captcha_validates_at_most_once
    (generateImage : CaptchaOptions -> string -> World -> Outcome (list Z * error) * World)
    (s : CaptchaService) (w : World) (c : CaptchaData) :
  result (Generate generateImage s w) = Returns (Some c, None) ->
  Z.of_nat (String.length (Solution c)) = Length (options s)
  /\ Get (ID c) (store (after (Generate generateImage s w))) = Some c
  /\ forall (s1 : CaptchaService) (w1 : World) (candidate : string),
       Get (ID c) (store s1) = Some c ->
       time.After (now w1) (ExpiresAt c) = false ->
       let s2 := mkCaptchaService (Delete (ID c) (store s1)) (options s1) in
       Validate (ID c) candidate s1 w1 = (String.eqb (Solution c) candidate, s2, tick w1)
       /\ (String.eqb (Solution c) candidate = true <-> candidate = Solution c)
       /\ Get (ID c) (store s2) = None
       /\ forall (w2 : World) (candidate2 : string),
            Validate (ID c) candidate2 s2 w2 = (false, s2, w2).
Proof.
  intros Hgen. destruct (Generate_stores _ _ _ _ Hgen) as (Hlen & Hstored & _).
  split; [exact Hlen|]. split; [exact Hstored|].
  intros s1 w1 candidate Hs1 Hfresh s2.
  split; [exact (Validate_compares _ _ _ _ _ Hs1 Hfresh)|].
  split; [rewrite String.eqb_eq; split; congruence|].
  split; [apply Delete_absent|].
  intros w2 candidate2. apply Validate_absent, Delete_absent.
Qed.

Lemma generated_captcha_validates_at_most_once_witness :
  result (Generate samples.drawing samples.service samples.w0)
  = Returns (Some samples.captcha1, None)
  /\ time.After (now (world (Generate samples.drawing samples.service samples.w0)))
                (ExpiresAt samples.captcha1) = false
  /\ Z.of_nat (String.length (Solution samples.captcha1)) = Length (options samples.service)
  /\ Validate (ID samples.captcha1) "ZYXW"
              (after (Generate samples.drawing samples.service samples.w0))
              (world (Generate samples.drawing samples.service samples.w0))
     = (String.eqb (Solution samples.captcha1) "ZYXW",
        mkCaptchaService
          (Delete (ID samples.captcha1)
                  (store (after (Generate samples.drawing samples.service samples.w0))))
          (options (after (Generate samples.drawing samples.service samples.w0))),
        tick (world (Generate samples.drawing samples.service samples.w0))).
Proof.
  assert (H : result (Generate samples.drawing samples.service samples.w0)
              = Returns (Some samples.captcha1, None)) by (vm_compute; reflexivity).
  assert (Hfresh : time.After
                     (now (world (Generate samples.drawing samples.service samples.w0)))
                     (ExpiresAt samples.captcha1) = false) by (vm_compute; reflexivity).
  refine (conj H (conj Hfresh _)).
  pose proof (generated_captcha_validates_at_most_once _ _ _ _ H) as (H1 & H2 & H3).
  refine (conj H1 _).
  exact (proj1 (H3 _ _ "ZYXW"%string H2 Hfresh)).
Defined.

End captcha_properties.
(** ** Addresses: what the parsers give, and the networks *)

Module net_properties.
Import net.
Import vocabulary.

Lemma digit_is_plain (c : ascii) :
  isDigit c = true ->
  Ascii.eqb c "." = false /\ Ascii.eqb c ":" = false
  /\ Ascii.eqb c "%" = false /\ Ascii.eqb c "/" = false.
Proof.
  destruct c as [[] [] [] [] [] [] [] []]; vm_compute; intros H;
    try discriminate H; by repeat split.
Qed.

Lemma digit_value (c : ascii) : isDigit c = true -> 0 <= code c - 48 <= 9.
Proof.
  unfold isDigit. intros H. apply andb_true_iff in H as [H1 H2].
  apply Z.leb_le in H1, H2. lia.
Qed.


(** What parseIPv4Fields accepts: digits and dots, three dots, four
    fields. *)
Lemma ipv4Fields_accepts (s : string) :
  forall (first : bool) (prev : ascii) (val digLen : Z) (fields r : list Z),
    ipv4Fields s first prev val digLen fields = Some r ->
    (length fields <= 3)%nat ->
    digitsAndDots s = true
    /\ (length fields + dots s = 3)%nat
    /\ length r = 4%nat.
Proof.
  induction s as [|c rest IH]; intros first prev val digLen fields r H Hlen; simpl in H.
  - destruct (Z.of_nat (length fields) <? 3) eqn:E; [discriminate|].
    apply Z.ltb_ge in E. inversion H; subst. rewrite length_app. simpl.
    repeat split; lia.
  - simpl. destruct (isDigit c) eqn:Ed.
    + destruct (digit_is_plain c Ed) as (-> & _).
      destruct ((digLen =? 1) && (val =? 0)); [discriminate|].
      destruct (255 <? val * 10 + (code c - 48)); [discriminate|].
      apply IH in H; [|done]. by destruct H as (-> & ? & ?).
    + destruct (Ascii.eqb c ".") eqn:Edot; [|discriminate].
      destruct (first || isEmpty rest || Ascii.eqb prev "."); [discriminate|].
      destruct (Z.of_nat (length fields) =? 3) eqn:E3; [discriminate|].
      apply Z.eqb_neq in E3.
      apply IH in H; [|rewrite length_app; simpl; lia].
      rewrite length_app in H. simpl in H. destruct H as (-> & ? & ?).
      repeat split; [lia | done].
Qed.

Lemma dispatch_digitsAndDots (whole s : string) :
  digitsAndDots s = true ->
  (0 < dots s)%nat ->
  dispatch whole s = option_map Addr4 (parseIPv4Fields whole).
Proof.
  induction s as [|c rest IH]; simpl; [lia|].
  intros H Hdots. apply andb_true_iff in H as [Hc Hrest].
  destruct (Ascii.eqb c ".") eqn:Edot; [done|].
  rewrite orb_false_r in Hc.
  destruct (digit_is_plain c Hc) as (_ & -> & -> & _). by apply IH.
Qed.

(** The bytes parseIPv4Fields gives. *)
Lemma ipv4Fields_octets (s : string) :
  forall (first : bool) (prev : ascii) (val digLen : Z) (fields r : list Z),
    ipv4Fields s first prev val digLen fields = Some r ->
    0 <= val <= 255 ->
    Forall octet fields ->
    Forall octet r.
Proof.
  induction s as [|c rest IH]; intros first prev val digLen fields r H Hval Hfields;
    simpl in H.
  - destruct (Z.of_nat (length fields) <? 3); [discriminate|].
    inversion H; subst. apply Forall_app. split; [done|].
    apply Forall_singleton. unfold octet. lia.
  - destruct (isDigit c) eqn:Ed.
    + pose proof (digit_value c Ed) as Hc.
      destruct ((digLen =? 1) && (val =? 0)); [discriminate|].
      destruct (Z.ltb_spec 255 (val * 10 + (code c - 48))); [discriminate|].
      apply IH in H; [done | lia | done].
    + destruct (Ascii.eqb c "."); [|discriminate].
      destruct (first || isEmpty rest || Ascii.eqb prev "."); [discriminate|].
      destruct (Z.of_nat (length fields) =? 3); [discriminate|].
      apply IH in H; [done | lia |].
      apply Forall_app. split; [done|]. apply Forall_singleton. unfold octet. lia.
Qed.



Lemma digitsAndDots_no_slash (s : string) :
  digitsAndDots s = true -> contains "/" s = false.
Proof.
  induction s as [|c rest IH]; cbn [digitsAndDots contains]; [done|].
  intros H. apply andb_true_iff in H as [Hc Hrest]. rewrite (IH Hrest), orb_false_r.
  apply orb_true_iff in Hc as [Hd | Hdot].
  - destruct (digit_is_plain c Hd) as (_ & _ & _ & H). by rewrite Ascii.eqb_sym.
  - apply Ascii.eqb_eq in Hdot. by subst c.
Qed.


(** What parseIPv4Fields gives. *)
Lemma parseIPv4Fields_gives (s : string) (fields : list Z) :
  parseIPv4Fields s = Some fields ->
  length fields = 4%nat /\ Forall octet fields /\ contains "/" s = false
  /\ digitsAndDots s = true /\ dots s = 3%nat.
Proof.
  intros H.
  destruct (ipv4Fields_accepts s true Ascii.zero 0 0 [] fields H) as (Hc & Hd & Hl);
    [simpl; lia|].
  split; [done|]. split; [|split; [by apply digitsAndDots_no_slash | done]].
  apply (ipv4Fields_octets s true Ascii.zero 0 0 [] fields H); [lia | constructor].
Qed.


















(** A dotted quad is a plain text of a requester. *)
Lemma dotted_quad_is_plain (ip : string) (fields : list Z) :
  parseIPv4Fields ip = Some fields -> plain ip = true.
Proof.
  intros Hparse. destruct (parseIPv4Fields_gives ip fields Hparse) as (_ & _ & _ & Hc & Hd).
  unfold plain, ParseAddr. rewrite dispatch_digitsAndDots by (done || lia).
  by rewrite Hparse.
Qed.


End net_properties.

(** ** Package metrics *)

Module metrics_properties.
Import metrics.
Import vocabulary.

(** What RecordRequest does to the two sets. *)
Lemma RecordRequest_sets (r : RequestMetrics) (m : MetricsTracker) (w : World) :
  uniqueIPs (after (RecordRequest r m w)) = <[IP r := true]> (uniqueIPs m)
  /\ uniqueAddresses (after (RecordRequest r m w))
     = if Success r then <[Address r := true]> (uniqueAddresses m) else uniqueAddresses m.
Proof. unfold RecordRequest. run. by destruct (Success r). Qed.

Lemma size_two (a b : string) :
  a <> b -> size (<[a := true]> (<[b := true]> (∅ : gmap string bool))) = 2%nat.
Proof.
  intros Hne. rewrite map_size_insert_None.
  - by rewrite map_size_insert_None, map_size_empty.
  - by rewrite lookup_insert_ne.
Qed.

Lemma size_one (a : string) : size (<[a := true]> (∅ : gmap string bool)) = 1%nat.
Proof. by rewrite map_size_insert_None, map_size_empty. Qed.

(** C5, amended.  RecordRequest adds the IP of every request to the
    set of IPs, and the address of a successful request only to the set of
    addresses; so after a successful and a failed request from two IPs, in
    either order, the failed one with an error type, the summary counts 2
    requests, 1 success, 1 failure, 1 address, 2 IPs, and the error type
    once. *)
Theorem summary_counts_addresses_of_successes
    (ok bad : RequestMetrics) (w : World) :
  Success ok = true ->
  Success bad = false ->
  IP ok <> IP bad ->
  ErrorType bad <> EmptyString ->
  (forall (r : RequestMetrics) (m : MetricsTracker) (w' : World),
     uniqueIPs (after (RecordRequest r m w')) = <[IP r := true]> (uniqueIPs m)
     /\ uniqueAddresses (after (RecordRequest r m w'))
        = if Success r then <[Address r := true]> (uniqueAddresses m)
          else uniqueAddresses m)
  /\ forall requests : list RequestMetrics,
       requests = [ok; bad] \/ requests = [bad; ok] ->
       TotalRequests (summaryOf requests w) = 2
       /\ SuccessfulRequests (summaryOf requests w) = 1
       /\ FailedRequests (summaryOf requests w) = 1
       /\ UniqueAddresses (summaryOf requests w) = 1
       /\ UniqueIPs (summaryOf requests w) = 2
       /\ ErrorBreakdown (summaryOf requests w) !! ErrorType bad = Some 1.
Proof.
  intros Hok Hbad Hips Herr. split; [apply RecordRequest_sets|].
  assert (Hnonempty : String.eqb (ErrorType bad) "" = false)
    by by apply String.eqb_neq.
  intros requests [-> | ->];
    unfold summaryOf, recordAll, NewMetricsTracker, GetSummary, RecordRequest, result,
      copyErrorCounts, incr;
    run; cbn; rewrite Hok, Hbad, Hnonempty; cbn;
    rewrite size_one, lookup_insert_eq, lookup_empty;
    repeat (split; [reflexivity|]).
  - by rewrite size_two.
  - by rewrite size_two.
Qed.

Lemma summary_counts_addresses_of_successes_witness :
  Success samples.served = true
  /\ Success samples.refused = false
  /\ IP samples.served <> IP samples.refused
  /\ ErrorType samples.refused <> EmptyString
  /\ UniqueAddresses (summaryOf [samples.served; samples.refused] samples.w0) = 1
  /\ UniqueIPs (summaryOf [samples.served; samples.refused] samples.w0) = 2.
Proof.
  assert (H1 : Success samples.served = true) by reflexivity.
  assert (H2 : Success samples.refused = false) by reflexivity.
  assert (H3 : IP samples.served <> IP samples.refused) by (vm_compute; discriminate).
  assert (H4 : ErrorType samples.refused <> EmptyString) by (vm_compute; discriminate).
  refine (conj H1 (conj H2 (conj H3 (conj H4 _)))).
  pose proof (proj2 (summary_counts_addresses_of_successes _ _ samples.w0 H1 H2 H3 H4)
                    _ (or_introl eq_refl)) as (_ & _ & _ & Ha & Hi & _).
  exact (conj Ha Hi).
Defined.

(** C5 as stated fails: the address of the failed request is not
    counted, though the two requests have two addresses and two IPs. *)
Lemma failed_request_address_not_counted :
  Success samples.served = true
  /\ Success samples.refused = false
  /\ Address samples.served <> Address samples.refused
  /\ IP samples.served <> IP samples.refused
  /\ TotalRequests (summaryOf [samples.served; samples.refused] samples.w0) = 2
  /\ UniqueIPs (summaryOf [samples.served; samples.refused] samples.w0) = 2
  /\ UniqueAddresses (summaryOf [samples.served; samples.refused] samples.w0) = 1
  /\ UniqueAddresses (summaryOf [samples.served; samples.refused] samples.w0) <> 2.
Proof.
  split; [reflexivity|]. split; [reflexivity|].
  split; [vm_compute; discriminate|]. split; [vm_compute; discriminate|].
  split; [vm_compute; reflexivity|]. split; [vm_compute; reflexivity|].
  split; [vm_compute; reflexivity|]. vm_compute. discriminate.
Qed.

End metrics_properties.

(** ** Package abuse *)

Module abuse_properties.
Import abuse.
Import vocabulary.

(** Unfolds the helpers of CheckRequest. *)
Ltac step :=
  cbv beta delta [activeBlock getOrCreateTracker blockIP withDenial trackers] in *;
  run.

Lemma calculateRiskScore_signals (tracker : AttemptTracker) (ip address : string)
    (ad : AbuseDetector) (w : World) :
  calculateRiskScore tracker ip address ad w
  = (fourSignals (config ad) (now w) tracker, ad, tick w).
Proof.
  unfold calculateRiskScore, fourSignals, highFrequency, highFailureRate, manyAddresses,
    rapidAttempts. run.
  change (1 * time.Minute) with time.Minute.
  do 2 f_equal.
  destruct (SuspiciousThreshold (config ad) <? Count tracker);
    destruct (SuccessfulCount tracker * 2 <? FailedCount tracker);
    destruct ((time.Sub (now w) (LastAttempt tracker) <? time.Minute) && (3 <? Count tracker));
    destruct (3 <? len (Addresses tracker)) eqn:E; lia.
Qed.

(** C4.  calculateRiskScore is the sum of the four signals: 20 for a
    count above the suspicious threshold, 15 for failures above twice the
    successes, 10 for each address beyond the third, 25 for a last attempt
    less than a minute ago with a count above three.  CheckRequest, when
    neither the IP nor the address has an entry among the blocks, computes
    it for the tracker of the IP and puts it in the result: alone when it
    denies for the hourly or daily limit, with 30 more when it denies for
    the subnet, and with the VPN and address-fanning additions when it
    admits. *)
Theorem risk_score_sums_four_signals :
  (forall (tracker : AttemptTracker) (ip address : string) (ad : AbuseDetector) (w : World),
     result (calculateRiskScore tracker ip address ad w)
     = (if SuspiciousThreshold (config ad) <? Count tracker then 20 else 0)
       + (if SuccessfulCount tracker * 2 <? FailedCount tracker then 15 else 0)
       + 10 * Z.max 0 (len (Addresses tracker) - 3)
       + (if (time.Sub (now w) (LastAttempt tracker) <? time.Minute)
             && (3 <? Count tracker) then 25 else 0))
  /\ forall (ip address : string) (ad : AbuseDetector) (w : World),
       blockedIPs ad !! ip = None ->
       blockedAddrs ad !! address = None ->
       let res := result (CheckRequest ip address ad w) in
       let tracker := trackerOf ad ip w in
       RiskScore res
       = fourSignals (config ad) (scoringTime ad ip w) tracker
         + (if Allowed res then vpnSignal ad ip + fanningSignal ad tracker
            else if String.eqb (Reason res) "Multiple requests detected from your subnet"
                 then 30 else 0).
Proof.
  split.
  - intros. by rewrite calculateRiskScore_signals.
  - intros ip address ad w Hip Haddr res tracker. subst res tracker.
    unfold CheckRequest, trackerOf, scoringTime, vpnSignal, fanningSignal. step.
    rewrite Hip, Haddr.
    destruct (ipAttempts ad !! ip) as [tr|] eqn:Htr; step.
    + rewrite calculateRiskScore_signals. cbn.
      repeat (match goal with
              | |- context [if ?b then _ else _] => destruct b eqn:?
              end; step; cbn; try lia).
    + rewrite calculateRiskScore_signals. cbn.
      repeat (match goal with
              | |- context [if ?b then _ else _] => destruct b eqn:?
              end; step; cbn; try lia).
Qed.

Lemma risk_score_sums_four_signals_witness :
  blockedIPs samples.seasoned !! "192.0.2.1"%string = None
  /\ blockedAddrs samples.seasoned !! "aura1test"%string = None
  /\ fourSignals (config samples.seasoned)
                 (scoringTime samples.seasoned "192.0.2.1" samples.steady)
                 (trackerOf samples.seasoned "192.0.2.1" samples.steady) = 15
  /\ RiskScore (result (CheckRequest "192.0.2.1" "aura1test" samples.seasoned samples.steady))
     = fourSignals (config samples.seasoned)
                   (scoringTime samples.seasoned "192.0.2.1" samples.steady)
                   (trackerOf samples.seasoned "192.0.2.1" samples.steady)
       + (if Allowed (result (CheckRequest "192.0.2.1" "aura1test"
                                           samples.seasoned samples.steady))
          then vpnSignal samples.seasoned "192.0.2.1"
               + fanningSignal samples.seasoned
                   (trackerOf samples.seasoned "192.0.2.1" samples.steady)
          else if String.eqb
                    (Reason (result (CheckRequest "192.0.2.1" "aura1test"
                                                  samples.seasoned samples.steady)))
                    "Multiple requests detected from your subnet"
               then 30 else 0).
Proof.
  assert (H1 : blockedIPs samples.seasoned !! "192.0.2.1"%string = None)
    by (vm_compute; reflexivity).
  assert (H2 : blockedAddrs samples.seasoned !! "aura1test"%string = None)
    by (vm_compute; reflexivity).
  refine (conj H1 (conj H2 (conj _ _))); [vm_compute; reflexivity|].
  exact (proj2 risk_score_sums_four_signals "192.0.2.1"%string "aura1test"%string
               samples.seasoned samples.steady H1 H2).
Defined.

(** The subnet check reads the keys of the trackers only. *)
Lemma checkSubnetAbuse_crowded (ad ad' : AbuseDetector) (ip : string) :
  is_Some (ipAttempts ad' !! ip) ->
  {[ip]} ∪ dom (ipAttempts ad') = {[ip]} ∪ dom (ipAttempts ad) ->
  checkSubnetAbuse ad' ip = crowded ad ip.
Proof.
  intros Hin Hdom. unfold checkSubnetAbuse, crowded.
  destruct (subnetOf ip) as [subnet|]; [|done].
  rewrite <- Hdom. do 3 f_equal.
  apply elem_of_dom in Hin. set_solver.
Qed.

(** CheckRequest admits a request of an IP below the limits. *)
Lemma CheckRequest_admits (ad : AbuseDetector) (w : World) (ip address : string) (k : Z)
    (ad' : AbuseDetector) (w' : World) :
  attempted ad w ip address k ad' w' ->
  k < MaxAttemptsPerHour (config ad) ->
  k < MaxAttemptsPerDay (config ad) ->
  SubnetCheckEnabled (config ad) && crowded ad ip = false ->
  (forall n m : nat, time.Sub (clock w n) (clock w m) < time.Hour) ->
  exists res ad'' w'',
    CheckRequest ip address ad' w' = (res, ad'', w'')
    /\ Allowed res = true
    /\ attempted ad w ip address k ad'' w''
    /\ is_Some (ipAttempts ad'' !! ip).
Proof.
  intros (Hip & Haddr & Hcfg & Hclock & Hdom & Htr) Hhour Hday Hsubnet Hwithin.
  unfold CheckRequest. step. rewrite Hip, Haddr.
  destruct (ipAttempts ad' !! ip) as [tr|] eqn:Etr; step.
  - destruct Htr as (Hcount & Htotal & m & Hfirst).
    rewrite calculateRiskScore_signals. cbn.
    rewrite Hcfg, Hfirst. unfold now. cbn. rewrite Hclock.
    assert (Hw : (time.Sub (clock w (Datatypes.S (ticks w'))) (clock w m) <? time.Hour) = true)
      by (apply Z.ltb_lt, Hwithin).
    rewrite Hw. cbn.
    assert (Hh : (MaxAttemptsPerHour (config ad) <=? Count tr) = false)
      by (apply Z.leb_gt; lia).
    rewrite Hh. cbn.
    assert (Hd : (MaxAttemptsPerDay (config ad) <=? SuccessfulCount tr + FailedCount tr) = false)
      by (apply Z.leb_gt; lia).
    rewrite Hd. cbn. rewrite ?Hcfg.
    rewrite (checkSubnetAbuse_crowded ad ad' ip) by (by rewrite ?Etr).
    rewrite Hsubnet. cbn.
    eexists _, _, _. split; [reflexivity|].
    split.
    { repeat (match goal with
              | |- context [if ?b then _ else _] => destruct b
              end; cbn); reflexivity. }
    split; [|by rewrite Etr].
    unfold attempted. rewrite Etr. cbn. eauto 10.
  - cbn in Htr. subst k.
    rewrite calculateRiskScore_signals. cbn.
    rewrite Hcfg. unfold now. cbn. rewrite Hclock.
    assert (Hw : (time.Sub (clock w (Datatypes.S (Datatypes.S (ticks w'))))
                           (clock w (ticks w')) <? time.Hour) = true)
      by (apply Z.ltb_lt, Hwithin).
    rewrite Hw. cbn.
    assert (Hh : (MaxAttemptsPerHour (config ad) <=? 0) = false) by (apply Z.leb_gt; lia).
    rewrite Hh. cbn.
    assert (Hd : (MaxAttemptsPerDay (config ad) <=? 0 + 0) = false) by (apply Z.leb_gt; lia).
    rewrite Hd. cbn. rewrite ?Hcfg.
    match goal with
    | |- context [checkSubnetAbuse ?a ip] =>
        rewrite (checkSubnetAbuse_crowded ad a ip)
    end.
    2:{ cbn. rewrite lookup_insert_eq. eauto. }
    2:{ cbn. rewrite dom_insert_L. set_solver. }
    rewrite Hsubnet. cbn.
    eexists _, _, _. split; [reflexivity|].
    split.
    { repeat (match goal with
              | |- context [if ?b then _ else _] => destruct b
              end; cbn); reflexivity. }
    split; [|cbn; rewrite lookup_insert_eq; eauto].
    unfold attempted. cbn. rewrite lookup_insert_eq.
    split; [done|]. split; [done|]. split; [done|]. split; [done|].
    split; [rewrite dom_insert_L; set_solver|].
    cbn. split; [lia|]. split; [lia|]. exists (ticks w'). unfold now. by rewrite ?Hclock.
Qed.

(** RecordAttempt counts one more attempt of a tracked IP. *)
Lemma RecordAttempt_counts (ad : AbuseDetector) (w : World) (ip address : string) (k : Z)
    (success : bool) (ad' : AbuseDetector) (w' : World) :
  attempted ad w ip address k ad' w' ->
  is_Some (ipAttempts ad' !! ip) ->
  exists ad'' w'',
    RecordAttempt ip address success ad' w' = (tt, ad'', w'')
    /\ attempted ad w ip address (k + 1) ad'' w''
    /\ is_Some (ipAttempts ad'' !! ip).
Proof.
  intros (Hip & Haddr & Hcfg & Hclock & Hdom & Htr) [tr Etr].
  rewrite Etr in Htr. destruct Htr as (Hcount & Htotal & m & Hfirst).
  unfold RecordAttempt. step. rewrite Etr. cbn.
  destruct (addressAttempts ad' !! address) as [atr|] eqn:Eatr; rewrite ?Eatr; step;
    (eexists _, _; split; [reflexivity|]; split; [|cbn; rewrite lookup_insert_eq; eauto];
     unfold attempted; cbn; rewrite lookup_insert_eq;
     split; [done|]; split; [done|]; split; [done|]; split; [done|];
     split; [rewrite dom_insert_L; set_solver|];
     cbn; split; [lia|]; split; [destruct success; lia|]; eauto).
Qed.

(** The rounds below the limits are all admitted. *)
Lemma cycles_admitted (ad : AbuseDetector) (w : World) (ip address : string) (n : nat) :
  forall (k : Z) (success : nat -> bool) (ad' : AbuseDetector) (w' : World),
    attempted ad w ip address k ad' w' ->
    k + Z.of_nat n <= MaxAttemptsPerHour (config ad) ->
    k + Z.of_nat n <= MaxAttemptsPerDay (config ad) ->
    SubnetCheckEnabled (config ad) && crowded ad ip = false ->
    (forall n m : nat, time.Sub (clock w n) (clock w m) < time.Hour) ->
    exists rs ad'' w'',
      cycles n ip address success ad' w' = (rs, ad'', w'')
      /\ length rs = n
      /\ Forall (fun r => Allowed r = true) rs
      /\ attempted ad w ip address (k + Z.of_nat n) ad'' w''
      /\ (is_Some (ipAttempts ad' !! ip) \/ n <> O -> is_Some (ipAttempts ad'' !! ip)).
Proof.
  induction n as [|n IH]; intros k success ad' w' Hinv Hhour Hday Hsubnet Hwithin.
  - exists [], ad', w'. replace (k + Z.of_nat 0) with k by lia.
    split; [reflexivity|]. split; [reflexivity|]. split; [constructor|].
    split; [exact Hinv|]. by intros [H|H].
  - cbn [cycles]. run.
    destruct (CheckRequest_admits ad w ip address k ad' w' Hinv)
      as (r & ad1 & w1 & -> & Hr & Hinv1 & Htracked); [lia | lia | done | done |].
    destruct (RecordAttempt_counts ad w ip address k (success O) ad1 w1 Hinv1 Htracked)
      as (ad2 & w2 & -> & Hinv2 & Htracked2).
    destruct (IH (k + 1) (fun j => success (Datatypes.S j)) ad2 w2 Hinv2)
      as (rs & ad3 & w3 & -> & Hlen & Hall & Hinv3 & Htracked3); [lia | lia | done | done |].
    exists (r :: rs), ad3, w3. split; [reflexivity|].
    split; [by rewrite <- Hlen|]. split; [by constructor|].
    split; [by replace (k + Z.of_nat (Datatypes.S n)) with (k + 1 + Z.of_nat n) by lia|].
    intros _. apply Htracked3. by left.
Qed.

(** CheckRequest denies a request of an IP at the hourly limit, and
    blocks the IP. *)
Lemma CheckRequest_hourly_limit (ad : AbuseDetector) (w : World) (ip address : string) (k : Z)
    (ad' : AbuseDetector) (w' : World) :
  attempted ad w ip address k ad' w' ->
  is_Some (ipAttempts ad' !! ip) ->
  MaxAttemptsPerHour (config ad) <= k ->
  (forall n m : nat, time.Sub (clock w n) (clock w m) < time.Hour) ->
  exists res ad'' w'',
    CheckRequest ip address ad' w' = (res, ad'', w'')
    /\ Allowed res = false
    /\ Reason res = "Too many requests from this IP (hourly limit exceeded)"%string
    /\ blockedIPs ad'' !! ip
       = Some (time.Add (clock w (Nat.pred (ticks w''))) (BlockDuration (config ad))).
Proof.
  intros (Hip & Haddr & Hcfg & Hclock & Hdom & Htr) [tr Etr] Hlimit Hwithin.
  rewrite Etr in Htr. destruct Htr as (Hcount & Htotal & m & Hfirst).
  unfold CheckRequest. step. rewrite Hip, Haddr, Etr. step.
  rewrite calculateRiskScore_signals. cbn.
  rewrite Hcfg, Hfirst. unfold now. cbn. rewrite Hclock.
  assert (Hw : (time.Sub (clock w (Datatypes.S (ticks w'))) (clock w m) <? time.Hour) = true)
    by (apply Z.ltb_lt, Hwithin).
  rewrite Hw. cbn.
  assert (Hh : (MaxAttemptsPerHour (config ad) <=? Count tr) = true)
    by (apply Z.leb_le; lia).
  rewrite Hh. cbn.
  eexists _, _, _. split; [reflexivity|]. split; [done|]. split; [done|].
  cbn. rewrite lookup_insert_eq. unfold now. cbn. by rewrite Hcfg, Hclock.
Qed.

(** C2.  With three attempts allowed per hour, a daily limit above two,
    no block on the IP or the address, no tracker of the IP yet, a subnet
    check that does not fire, and all readings of the clock within an hour
    of one another: three rounds of CheckRequest and RecordAttempt are all
    admitted, whatever the recorded outcomes; the fourth CheckRequest is
    denied with the reason of the hourly limit, and the IP is blocked until
    the last reading of the clock plus the configured block duration. *)
Theorem fourth_request_hits_hourly_limit
    (ad : AbuseDetector) (w : World) (ip address : string) (success : nat -> bool) :
  MaxAttemptsPerHour (config ad) = 3 ->
  2 < MaxAttemptsPerDay (config ad) ->
  blockedIPs ad !! ip = None ->
  blockedAddrs ad !! address = None ->
  ipAttempts ad !! ip = None ->
  SubnetCheckEnabled (config ad) && crowded ad ip = false ->
  (forall n m : nat, time.Sub (clock w n) (clock w m) < time.Hour) ->
  exists (r1 r2 r3 r4 : DetectionResult) (ad' : AbuseDetector) (w' : World),
    (do rs <- cycles 3 ip address success;
     do r <- CheckRequest ip address;
     ret (rs, r)) ad w
    = ([r1; r2; r3], r4, ad', w')
    /\ Allowed r1 = true /\ Allowed r2 = true /\ Allowed r3 = true
    /\ Allowed r4 = false
    /\ Reason r4 = "Too many requests from this IP (hourly limit exceeded)"%string
    /\ blockedIPs ad' !! ip
       = Some (time.Add (clock w (Nat.pred (ticks w'))) (BlockDuration (config ad))).
Proof.
  intros Hmax Hday Hip Haddr Htr Hsubnet Hwithin.
  assert (Hinv : attempted ad w ip address 0 ad w).
  { unfold attempted. rewrite Htr. by repeat split. }
  destruct (cycles_admitted ad w ip address 3 0 success ad w Hinv)
    as (rs & ad3 & w3 & Hrun & Hlen & Hall & Hinv3 & Htracked); [lia | lia | done | done |].
  destruct (CheckRequest_hourly_limit ad w ip address (0 + Z.of_nat 3) ad3 w3 Hinv3)
    as (r4 & ad4 & w4 & Hcheck & Hdenied & Hreason & Hblock);
    [apply Htracked; by right | lia | done |].
  destruct rs as [|r1 [|r2 [|r3 [|]]]]; try discriminate Hlen.
  exists r1, r2, r3, r4, ad4, w4.
  inversion Hall as [|? ? H1 Hall1]; subst.
  inversion Hall1 as [|? ? H2 Hall2]; subst.
  inversion Hall2 as [|? ? H3 _]; subst.
  split; [|done]. run. by rewrite Hrun, Hcheck.
Qed.

Lemma steady_within_an_hour (n m : nat) :
  time.Sub (clock samples.steady n) (clock samples.steady m) < time.Hour.
Proof.
  unfold time.Sub, time.maxDuration, time.minDuration, time.Hour, time.Minute, time.Second,
    time.Millisecond. cbn [clock samples.steady].
  change (2 ^ 63) with 9223372036854775808.
  repeat match goal with |- context [?x <? ?y] => destruct (Z.ltb_spec x y) end; lia.
Qed.

Lemma fourth_request_hits_hourly_limit_witness :
  MaxAttemptsPerHour (config samples.strict) = 3
  /\ 2 < MaxAttemptsPerDay (config samples.strict)
  /\ exists (r1 r2 r3 r4 : DetectionResult) (ad' : AbuseDetector) (w' : World),
       (do rs <- cycles 3 "192.0.2.1" "aura1test" (fun _ => false);
        do r <- CheckRequest "192.0.2.1" "aura1test";
        ret (rs, r)) samples.strict samples.steady
       = ([r1; r2; r3], r4, ad', w')
       /\ Allowed r1 = true /\ Allowed r2 = true /\ Allowed r3 = true
       /\ Allowed r4 = false
       /\ Reason r4 = "Too many requests from this IP (hourly limit exceeded)"%string
       /\ blockedIPs ad' !! "192.0.2.1"%string
          = Some (time.Add (clock samples.steady (Nat.pred (ticks w')))
                           (BlockDuration (config samples.strict))).
Proof.
  assert (H1 : MaxAttemptsPerHour (config samples.strict) = 3) by reflexivity.
  assert (H2 : 2 < MaxAttemptsPerDay (config samples.strict)) by (vm_compute; reflexivity).
  refine (conj H1 (conj H2 _)).
  apply (fourth_request_hits_hourly_limit samples.strict samples.steady
           "192.0.2.1" "aura1test" (fun _ => false) H1 H2).
  - vm_compute. reflexivity.
  - vm_compute. reflexivity.
  - vm_compute. reflexivity.
  - vm_compute. reflexivity.
  - exact steady_within_an_hour.
Defined.







(** A requester of 2001:db8:0:1::/64 with four tracked addresses of its
    /64 and one of the next /64: four neighbours, and the request is
    admitted. *)
Example ipv6_requester_among_its_block :
  plain "2001:db8:0:1::1" = true
  /\ neighbours "2001:db8:0:1::1" samples.block = 4
  /\ neighbour "2001:db8:0:1::1" "2001:db8:0:2::15" = false
  /\ Allowed (result (CheckRequest "2001:db8:0:1::1" "aura1test"
                                   samples.block samples.steady)) = true.
Proof. repeat split; vm_compute; reflexivity. Qed.

End abuse_properties.
(** ** The sort of package metrics *)

Module sorting_properties.
Import metrics.
Import vocabulary.

Section Exchange.
Context {A : Type} (before : A -> A -> bool).

Hypothesis asymmetric : forall x y, before y x = true -> before x y = false.
Hypothesis transitive :
  forall x y z, fits before x y -> fits before y z -> fits before x z.

Lemma exchange_length (i j : nat) (a : list A) :
  length (exchange before i j a) = length a.
Proof.
  unfold exchange. destruct (a !! i), (a !! j); try done.
  destruct (before _ _); [|done]. by rewrite !length_insert.
Qed.

Lemma exchange_Permutation (i j : nat) (a : list A) : exchange before i j a ≡ₚ a.
Proof.
  unfold exchange. destruct (a !! i) as [x|] eqn:Hi, (a !! j) as [y|] eqn:Hj; try done.
  destruct (before _ _); [|done]. by apply Permutation_insert_swap.
Qed.

(** Where the exchange leaves the elements. *)
Lemma exchange_lookup (i j k : nat) (a : list A) (x y : A) :
  i <> j -> a !! i = Some x -> a !! j = Some y ->
  exchange before i j a !! k
  = if before y x
    then (if decide (k = i) then Some y else if decide (k = j) then Some x else a !! k)
    else a !! k.
Proof.
  intros Hij Hi Hj. unfold exchange. rewrite Hi, Hj.
  destruct (before y x); [|done].
  apply lookup_lt_Some in Hi as Hli. apply lookup_lt_Some in Hj as Hlj.
  destruct (decide (k = i)) as [->|Hki].
  - rewrite list_lookup_insert_eq; [done | by rewrite length_insert].
  - rewrite list_lookup_insert_ne by done.
    destruct (decide (k = j)) as [->|Hkj].
    + by rewrite list_lookup_insert_eq.
    + by rewrite list_lookup_insert_ne.
Qed.

Lemma exchange_settled (i j : nat) (a : list A) :
  (i < j)%nat -> (j < length a)%nat ->
  settled before i a -> settled before i (exchange before i j a).
Proof.
  intros Hij Hj Hs p q x y Hpq Hp.
  destruct (lookup_lt_is_Some_2 a i) as [xi Hxi]; [lia|].
  destruct (lookup_lt_is_Some_2 a j) as [xj Hxj]; [lia|].
  rewrite !(exchange_lookup i j _ a xi xj) by (done || lia).
  destruct (before xj xi); [|by apply Hs].
  rewrite (decide_False (P := p = i)) by lia.
  rewrite (decide_False (P := p = j)) by lia.
  intros Hx. destruct (decide (q = i)) as [->|?].
  { intros [= <-]. apply (Hs p j); [lia | done | done | done]. }
  destruct (decide (q = j)) as [->|?].
  - intros [= <-]. apply (Hs p i); [done | done | done | done].
  - intros Hy. apply (Hs p q); [done | done | done | done].
Qed.

Lemma exchange_leads (i j : nat) (a : list A) :
  (i < j)%nat -> (j < length a)%nat ->
  leads before i j a -> leads before i (Datatypes.S j) (exchange before i j a).
Proof.
  intros Hij Hj Hl k x y Hik Hkj.
  destruct (lookup_lt_is_Some_2 a i) as [xi Hxi]; [lia|].
  destruct (lookup_lt_is_Some_2 a j) as [xj Hxj]; [lia|].
  rewrite !(exchange_lookup i j _ a xi xj) by (done || lia).
  destruct (before xj xi) eqn:E.
  - rewrite (decide_True (P := i = i)) by done.
    rewrite (decide_False (P := k = i)) by lia.
    intros [= <-]. destruct (decide (k = j)) as [->|?].
    + intros [= <-]. by apply asymmetric.
    + intros Hy. apply (transitive xj xi y); [by apply asymmetric|].
      apply (Hl k); [done | lia | done | done].
  - intros Hx Hy. destruct (decide (k = j)) as [->|?].
    + by simplify_eq.
    + apply (Hl k); [done | lia | done | done].
Qed.

(** The inner loop. *)
Lemma inner_spec (n i j : nat) (a : list A) :
  (i < j)%nat -> (j + n = length a)%nat ->
  settled before i a -> leads before i j a ->
  length (inner before n i j a) = length a
  /\ inner before n i j a ≡ₚ a
  /\ settled before (Datatypes.S i) (inner before n i j a).
Proof.
  revert j a. induction n as [|n IH]; intros j a Hij Hn Hs Hl; simpl.
  - split; [done|]. split; [done|].
    intros p q x y Hpq Hp Hx Hy.
    destruct (decide (p = i)) as [->|?].
    + apply (Hl q); [done | | done | done].
      apply lookup_lt_Some in Hy. lia.
    + apply (Hs p q); [done | lia | done | done].
  - destruct (IH (Datatypes.S j) (exchange before i j a)) as (H1 & H2 & H3).
    + lia.
    + rewrite exchange_length. lia.
    + apply exchange_settled; [done | lia | done].
    + apply exchange_leads; [done | lia | done].
    + split; [by rewrite H1, exchange_length|]. split; [|done].
      etrans; [exact H2 | apply exchange_Permutation].
Qed.

(** The outer loop. *)
Lemma outer_spec (n i : nat) (a : list A) :
  (i + n = length a)%nat -> settled before i a ->
  length (outer before n i a) = length a
  /\ outer before n i a ≡ₚ a
  /\ settled before (length a) (outer before n i a).
Proof.
  revert i a. induction n as [|n IH]; intros i a Hn Hs; simpl.
  - split; [done|]. split; [done|]. by replace (length a) with i by lia.
  - destruct (inner_spec (length a - Datatypes.S i) i (Datatypes.S i) a)
      as (H1 & H2 & H3); [lia | lia | done | |].
    { intros k x y Hik Hki. lia. }
    destruct (IH (Datatypes.S i) (inner before (length a - Datatypes.S i) i (Datatypes.S i) a))
      as (H4 & H5 & H6); [lia | done |].
    split; [by rewrite H4|]. split; [by etrans|]. by rewrite H1 in H6.
Qed.

(** The sort rearranges the slice so that no element is before an
    earlier one. *)
Lemma sort_spec (a : list A) :
  length (sort before a) = length a
  /\ sort before a ≡ₚ a
  /\ forall p q x y, (p < q)%nat ->
       sort before a !! p = Some x -> sort before a !! q = Some y -> before y x = false.
Proof.
  destruct (outer_spec (length a) 0 a) as (H1 & H2 & H3); [done | |].
  { intros p q x y _ Hp. lia. }
  split; [done|]. split; [done|].
  intros p q x y Hpq Hx Hy. apply (H3 p q); [done | | done | done].
  apply lookup_lt_Some in Hy. unfold sort in Hy. rewrite H1 in Hy. lia.
Qed.

End Exchange.

End sorting_properties.
(** ** Package metrics: what the tracker keeps *)

Module tracker_properties.
Import metrics.
Import vocabulary.

(** [m[k]++] adds one to the sum of the counters. *)
Lemma sumOf_insert `{Countable K} (k : K) (v : Z) (m : gmap K Z) :
  m !! k = None -> sumOf (<[k := v]> m) = sumOf m + v.
Proof.
  intros Hk. unfold sumOf. rewrite map_fold_insert_L; [done | | done].
  intros. lia.
Qed.

Lemma sumOf_incr `{Countable K} (k : K) (m : gmap K Z) :
  sumOf (incr k m) = sumOf m + 1.
Proof.
  unfold incr. destruct (m !! k) as [v|] eqn:Hk; simpl.
  - rewrite <- (insert_delete_id m k v Hk) at 2.
    rewrite <- insert_delete_eq.
    rewrite !sumOf_insert by apply lookup_delete_eq. lia.
  - by rewrite sumOf_insert.
Qed.

Lemma sumOf_empty `{Countable K} : sumOf (∅ : gmap K Z) = 0.
Proof. unfold sumOf. by rewrite map_fold_empty. Qed.

Lemma dom_incr `{Countable K} (k : K) (m : gmap K Z) : dom (incr k m) = {[k]} ∪ dom m.
Proof. unfold incr. by rewrite dom_insert_L. Qed.

(** The methods that record do not read the world. *)
Lemma tell_world (e : Event) (m : MetricsTracker) (w : World) : world (tell e m w) = w.
Proof. by destruct e. Qed.

Lemma replay_cons (e : Event) (events : list Event) (m : MetricsTracker) (w : World) :
  after (replay (e :: events) m w) = after (replay events (after (tell e m w)) w).
Proof.
  simpl. run. pose proof (tell_world e m w) as Hw.
  destruct (tell e m w) as [[[] m'] w']. unfold world in Hw. simpl in Hw. by subst w'.
Qed.

(** A property of the tracker that every recording keeps holds after
    any events. *)
Lemma replay_keeps (P : MetricsTracker -> Prop) :
  (forall e m w, P m -> P (after (tell e m w))) ->
  forall events m w, P m -> P (after (replay events m w)).
Proof.
  intros Hstep events. induction events as [|e events IH]; intros m w Hm; [done|].
  rewrite replay_cons. by apply IH, Hstep.
Qed.

Lemma told_keeps (P : MetricsTracker -> Prop) :
  (forall t, P (mkMetricsTracker 0 0 0 0 0 ∅ ∅ ∅ ∅ ∅ ∅ 0 [] 0 ∅ t)) ->
  (forall e m w, P m -> P (after (tell e m w))) ->
  forall events w, P (told events w).
Proof. intros Hnew Hstep events w. unfold told. simpl. by apply replay_keeps. Qed.

(** The counters after the events. *)
Lemma replay_counts (events : list Event) (m : MetricsTracker) (w : World) :
  totalRequests (after (replay events m w))
  = totalRequests m + Z.of_nat (length (List.filter isRequested events))
  /\ blockedRequests (after (replay events m w))
     = blockedRequests m
       + Z.of_nat (length (List.filter (fun e => negb (isRequested e)) events)).
Proof.
  revert m. induction events as [|e events IH]; intros m.
  - unfold after. simpl. split; lia.
  - rewrite replay_cons. destruct (IH (after (tell e m w))) as [-> ->].
    destruct e as [r | ip]; unfold after; simpl; split; lia.
Qed.

Lemma length_filter_split {A : Type} (f : A -> bool) (l : list A) :
  (length (List.filter f l) + length (List.filter (fun a => negb (f a)) l))%nat = length l.
Proof. induction l as [|a l IH]; simpl; [done|]. destruct (f a); simpl; lia. Qed.

(** X1.  After any recordings on a new tracker, the summary's total
    is the number of RecordRequest calls and splits into the successful
    and the failed requests; the blocked requests are the RecordBlocked
    calls, and are not part of the total. *)
Theorem summary_total_splits (events : list Event) (w w' : World) :
  let s := result (GetSummary (told events w) w') in
  TotalRequests s = SuccessfulRequests s + FailedRequests s
  /\ TotalRequests s = Z.of_nat (length (List.filter isRequested events))
  /\ TotalRequests s + BlockedRequests s = Z.of_nat (length events).
Proof.
  cbn. split; [|split].
  - apply (told_keeps (fun m => totalRequests m = successfulRequests m + failedRequests m)).
    + done.
    + intros [r | ip] m w0 Hm; simpl; [|done]. destruct (Success r); lia.
  - unfold told. simpl. by destruct (replay_counts events
      (mkMetricsTracker 0 0 0 0 0 ∅ ∅ ∅ ∅ ∅ ∅ 0 [] 0 ∅ (now w)) (tick w)) as [-> _].
  - unfold told. simpl. destruct (replay_counts events
      (mkMetricsTracker 0 0 0 0 0 ∅ ∅ ∅ ∅ ∅ ∅ 0 [] 0 ∅ (now w)) (tick w)) as [-> ->].
    simpl. rewrite <- (length_filter_split isRequested events). lia.
Qed.

(** X2.  The hourly and the daily distribution of a tracker each add
    up to the total of requests, and the hours are those of a day. *)
Theorem distributions_add_up (events : list Event) (w w' : World) :
  let m := told events w in
  sumOf (result (GetHourlyStats m w')) = TotalRequests (result (GetSummary m w'))
  /\ sumOf (result (GetDailyStats m w')) = TotalRequests (result (GetSummary m w'))
  /\ HourlyDistribution (result (GetSummary m w')) = result (GetHourlyStats m w')
  /\ forall hour count : Z,
       result (GetHourlyStats m w') !! hour = Some count -> 0 <= hour <= 23 /\ 0 < count.
Proof.
  cbn.
  apply (told_keeps (fun m =>
    sumOf (requestsPerHour m) = totalRequests m
    /\ sumOf (requestsPerDay m) = totalRequests m
    /\ copyHourlyDistribution m = requestsPerHour m
    /\ forall hour count : Z,
         requestsPerHour m !! hour = Some count -> 0 <= hour <= 23 /\ 0 < count)).
  - intros t. simpl. rewrite !sumOf_empty. repeat split; try done.
    all: by rewrite lookup_empty in H.
  - intros [r | ip] m w0 (Hh & Hd & _ & Hk); simpl; [|done].
    rewrite !sumOf_incr, Hh, Hd. split; [done|]. split; [done|]. split; [done|].
    intros hour count. unfold incr.
    destruct (decide (hour = calendar.Hour (Timestamp r))) as [->|Hne].
    + rewrite lookup_insert_eq. intros [= <-]. split.
      * unfold calendar.Hour, calendar.day.
        pose proof (Z.mod_pos_bound (Timestamp r) (24 * time.Hour)) as Hb.
        assert (Hhour : time.Hour = 3600000000000) by reflexivity.
        rewrite Hhour in *. split.
        -- apply Z.div_pos; lia.
        -- apply Z.lt_succ_r. apply Z.div_lt_upper_bound; lia.
      * destruct (requestsPerHour m !! calendar.Hour (Timestamp r)) as [c|] eqn:E;
          simpl; [|lia]. apply Hk in E. lia.
    + rewrite lookup_insert_ne by done. apply Hk.
Qed.


(** X3.  The addresses counted as unique are the recipients: the two
    maps have the same keys, the recipients' counters add up to the
    successful requests, and the error counters to no more than the failed
    ones. *)
Theorem unique_addresses_are_recipients (events : list Event) (w w' : World) :
  let m := told events w in
  let s := result (GetSummary m w') in
  dom (uniqueAddresses m) = dom (topRecipients m)
  /\ UniqueAddresses s = Z.of_nat (size (topRecipients m))
  /\ sumOf (topRecipients m) = SuccessfulRequests s
  /\ sumOf (ErrorBreakdown s) <= FailedRequests s.
Proof.
  cbn.
  apply (told_keeps (fun m =>
    dom (uniqueAddresses m) = dom (topRecipients m)
    /\ Z.of_nat (size (uniqueAddresses m)) = Z.of_nat (size (topRecipients m))
    /\ sumOf (topRecipients m) = successfulRequests m
    /\ sumOf (copyErrorCounts m) <= failedRequests m)).
  - intros t. simpl. unfold copyErrorCounts. simpl. unfold sumOf. rewrite !map_fold_empty, !dom_empty_L.
    by rewrite !map_size_empty.
  - intros [r | ip] m w0 (Hdom & Hsize & Hsum & Herr); unfold copyErrorCounts in *;
      simpl; [|done].
    assert (Hsizes : forall (a b : gmap string bool) (c : gmap string Z),
              dom a = dom c -> Z.of_nat (size a) = Z.of_nat (size c)).
    { intros a b c Heq. by rewrite <- !size_dom, Heq. }
    destruct (Success r); simpl.
    + rewrite sumOf_incr, Hsum, dom_incr, dom_insert_L, Hdom.
      split; [done|]. split; [|split; [done | lia]].
      apply Hsizes; [exact ∅|]. by rewrite dom_incr, dom_insert_L, Hdom.
    + split; [done|]. split; [done|]. split; [done|].
      destruct (String.eqb (ErrorType r) ""); [lia|]. rewrite sumOf_incr. lia.
Qed.

(** An int64 is what wrapping leaves of it. *)
Lemma wrap_int64 (n : Z) : int64 n -> wrap n = n.
Proof. unfold int64, wrap. intros Hn. rewrite Z.mod_small; lia. Qed.

(** The sum of at most 10001 moderate response times does not wrap. *)
Lemma sum_exact (l : list Duration) :
  forall (total k : Z),
    Forall (fun d => - 2 ^ 49 <= d <= 2 ^ 49) l ->
    0 <= k ->
    k + Z.of_nat (length l) <= 10001 ->
    - (k * 2 ^ 49) <= total <= k * 2 ^ 49 ->
    fold_left (fun total rt => wrap (total + rt)) l total = fold_left Z.add l total.
Proof.
  change (2 ^ 49) with 562949953421312.
  induction l as [|d l IH]; intros total k Hall Hk Hlen Htotal; [done|].
  apply Forall_cons in Hall as [Hd Hall]. simpl in Hlen. simpl.
  rewrite wrap_int64 by (unfold int64; change (2 ^ 63) with 9223372036854775808; lia).
  apply (IH (total + d) (k + 1)); [done | lia | lia | lia].
Qed.

Lemma plain_sum_from (l : list Z) (a : Z) :
  fold_left Z.add l a = a + fold_left Z.add l 0.
Proof.
  revert a. induction l as [|d l IH]; intros a; simpl; [lia|].
  rewrite (IH (a + d)), (IH (0 + d)). lia.
Qed.

Lemma plain_sum_bound (l : list Z) (top : Z) :
  Forall (fun d => d <= top) l -> fold_left Z.add l 0 <= Z.of_nat (length l) * top.
Proof.
  induction 1 as [|d l Hd _ IH]; [done|].
  simpl. rewrite plain_sum_from. lia.
Qed.

(** A property of the tracker that the recording of every event of a
    kind keeps holds after any events of the kind. *)
Lemma replay_keeps_for (Q : Event -> Prop) (P : MetricsTracker -> Prop) :
  (forall e m w, Q e -> P m -> P (after (tell e m w))) ->
  forall events m w, Forall Q events -> P m -> P (after (replay events m w)).
Proof.
  intros Hstep events. induction events as [|e events IH]; intros m w Hall Hm; [done|].
  apply Forall_cons in Hall as [He Hall].
  rewrite replay_cons. by apply IH, Hstep.
Qed.

(** The window of response times. *)
Lemma told_window (events : list Event) (w : World) :
  Z.of_nat (length (responseTimes (told events w))) <= 10000
  /\ Forall (fun d => d <= maxResponseTime (told events w)) (responseTimes (told events w))
  /\ 0 <= maxResponseTime (told events w).
Proof.
  apply (told_keeps (fun m =>
    Z.of_nat (length (responseTimes m)) <= 10000
    /\ Forall (fun d => d <= maxResponseTime m) (responseTimes m)
    /\ 0 <= maxResponseTime m)).
  - intros t. simpl. repeat split; (lia || done).
  - intros [r | ip] m w0 (Hlen & Hall & Hmax); simpl; [|done].
    set (top := if maxResponseTime m <? ResponseTime r then ResponseTime r
                else maxResponseTime m).
    assert (Htop : maxResponseTime m <= top /\ ResponseTime r <= top).
    { unfold top. destruct (Z.ltb_spec (maxResponseTime m) (ResponseTime r)); lia. }
    assert (Hnew : Forall (fun d => d <= top) (responseTimes m ++ [ResponseTime r])).
    { apply Forall_app. split.
      - eapply Forall_impl; [exact Hall|]. intros d Hd. simpl in Hd. lia.
      - apply Forall_singleton. lia. }
    rewrite length_app. simpl.
    split; [|split; [|lia]].
    + destruct (10000 <? Z.of_nat (length (responseTimes m) + 1)) eqn:E.
      * rewrite length_skipn, length_app. simpl. lia.
      * apply Z.ltb_ge in E. rewrite length_app. simpl. lia.
    + destruct (10000 <? Z.of_nat (length (responseTimes m) + 1)); [|done].
      by apply Forall_drop.
Qed.

(** The average on record, when the response times are moderate. *)
Lemma told_average (events : list Event) (w : World) :
  moderate events ->
  avgResponseTime (told events w) <= maxResponseTime (told events w).
Proof.
  intros Hevents.
  enough (H : Z.of_nat (length (responseTimes (told events w))) <= 10000
              /\ Forall (fun d => d <= maxResponseTime (told events w))
                        (responseTimes (told events w))
              /\ 0 <= maxResponseTime (told events w)
              /\ Forall (fun d => - 2 ^ 49 <= d <= 2 ^ 49) (responseTimes (told events w))
              /\ avgResponseTime (told events w) <= maxResponseTime (told events w))
    by apply H.
  unfold told. simpl.
  apply (replay_keeps_for
           (fun e => match e with
                     | Requested r => - 2 ^ 49 <= ResponseTime r <= 2 ^ 49
                     | Blocked _ => True
                     end)
           (fun m =>
              Z.of_nat (length (responseTimes m)) <= 10000
              /\ Forall (fun d => d <= maxResponseTime m) (responseTimes m)
              /\ 0 <= maxResponseTime m
              /\ Forall (fun d => - 2 ^ 49 <= d <= 2 ^ 49) (responseTimes m)
              /\ avgResponseTime m <= maxResponseTime m)); [|exact Hevents|].
  - intros [r | ip] m w0 Hr (Hlen & Hall & Hmax & Hmod & Havg); simpl; [|done].
    set (top := if maxResponseTime m <? ResponseTime r then ResponseTime r
                else maxResponseTime m).
    assert (Htop : maxResponseTime m <= top /\ ResponseTime r <= top).
    { unfold top. destruct (Z.ltb_spec (maxResponseTime m) (ResponseTime r)); lia. }
    assert (Hnew : Forall (fun d => d <= top) (responseTimes m ++ [ResponseTime r])).
    { apply Forall_app. split.
      - eapply Forall_impl; [exact Hall|]. intros d Hd. simpl in Hd. lia.
      - apply Forall_singleton. lia. }
    assert (Hnew' : Forall (fun d => - 2 ^ 49 <= d <= 2 ^ 49)
                           (responseTimes m ++ [ResponseTime r])).
    { apply Forall_app. split; [done|]. by apply Forall_singleton. }
    rewrite length_app. simpl.
    split; [|split; [|split; [lia|split]]].
    + destruct (10000 <? Z.of_nat (length (responseTimes m) + 1)) eqn:E.
      * rewrite length_skipn, length_app. simpl. lia.
      * apply Z.ltb_ge in E. rewrite length_app. simpl. lia.
    + destruct (10000 <? Z.of_nat (length (responseTimes m) + 1)); [|done].
      by apply Forall_drop.
    + destruct (10000 <? Z.of_nat (length (responseTimes m) + 1)); [|done].
      by apply Forall_drop.
    + destruct (0 <? Z.of_nat (length (responseTimes m) + 1)) eqn:E; [|lia].
      apply Z.ltb_lt in E. unfold sum.
      rewrite (sum_exact _ 0 0 Hnew') by (rewrite ?length_app; simpl; lia).
      pose proof (plain_sum_bound _ _ Hnew) as Hs.
      rewrite length_app in Hs. simpl in Hs.
      set (n := Z.of_nat (length (responseTimes m) + 1)) in *.
      transitivity (Z.quot (n * top) n).
      * apply Z.quot_le_mono; lia.
      * rewrite Z.mul_comm, Z.quot_mul; lia.
  - simpl. repeat split; (lia || done).
Qed.

(** X4.  The tracker holds at most 10000 response times; the largest
    response time on record is not negative and not below any of those it
    holds.  When every recorded response time is at most 2^49 ns (six and
    a half days) forwards or backwards, so that the int64 sum of the
    response times held does not wrap around, the largest one is not
    below the average on record either. *)
Theorem response_times_stay_bounded (events : list Event) (w w' : World) :
  let m := told events w in
  let s := result (GetSummary m w') in
  Z.of_nat (length (responseTimes m)) <= 10000
  /\ Forall (fun d => d <= MaxResponseTime s) (responseTimes m)
  /\ 0 <= MaxResponseTime s
  /\ (moderate events -> AvgResponseTime s <= MaxResponseTime s).
Proof.
  cbn. destruct (told_window events w) as (Hlen & Hall & Hmax).
  split; [done|]. split; [done|]. split; [done|]. apply told_average.
Qed.

Lemma response_times_stay_bounded_witness :
  moderate [Requested samples.served; Requested samples.refused]
  /\ let m := told [Requested samples.served; Requested samples.refused] samples.w0 in
     let s := result (GetSummary m samples.w1) in
     AvgResponseTime s <= MaxResponseTime s.
Proof.
  assert (H : moderate [Requested samples.served; Requested samples.refused]).
  { repeat constructor; vm_compute; discriminate. }
  exact (conj H (proj2 (proj2 (proj2 (response_times_stay_bounded
                                        [Requested samples.served; Requested samples.refused]
                                        samples.w0 samples.w1))) H)).
Defined.

(** Without the bound the sum wraps around: after the response times
    -2^63 ns and -1 ns the average on record is 2^62 - 1 ns, above the
    largest response time on record, 0. *)
Example average_above_the_largest :
  let m := told [Requested (mkRequestMetrics "192.0.2.10" "aura1first" 1000000 true ""
                                             (- 2 ^ 63) (now samples.w0) true true);
                 Requested (mkRequestMetrics "192.0.2.10" "aura1first" 1000000 true ""
                                             (- 1) (now samples.w0) true true)]
                samples.w0 in
  avgResponseTime m = 2 ^ 62 - 1 /\ maxResponseTime m = 0.
Proof. split; vm_compute; reflexivity. Qed.

(** X5.  Reset puts the tracker back to the state of a new one: after
    Reset, any recordings leave it as they leave a tracker created at the
    moment of the Reset, whatever it held before. *)
Theorem Reset_restarts (m : MetricsTracker) (events : list Event) (w : World) :
  after ((exec Reset; replay events) m w) = told events w.
Proof. unfold told, Reset, NewMetricsTracker. run. by destruct (replay events _ _) as [[[] ?] ?]. Qed.

End tracker_properties.
(** ** Package metrics: rankings and percentiles *)

Module ranking_properties.
Import metrics.
Set Warnings "-inexact-float".
Import vocabulary.

(** The sort by request count, most active first. *)
Lemma sort_more (a : list RecipientStat) :
  length (sort more a) = length a
  /\ sort more a ≡ₚ a
  /\ forall (p q : nat) (x y : RecipientStat), (p < q)%nat ->
       sort more a !! p = Some x -> sort more a !! q = Some y ->
       RequestCount y <= RequestCount x.
Proof.
  destruct (sorting_properties.sort_spec more) with (a := a) as (H1 & H2 & H3).
  - unfold more. intros x y H. apply Z.ltb_lt in H. apply Z.ltb_ge. lia.
  - unfold fits, more. intros x y z H1 H2.
    apply Z.ltb_ge in H1, H2. apply Z.ltb_ge. lia.
  - split; [done|]. split; [done|]. intros p q x y Hpq Hx Hy.
    specialize (H3 p q x y Hpq Hx Hy). unfold more in H3. by apply Z.ltb_ge in H3.
Qed.

(** The sort of the response times, shortest first. *)
Lemma sort_durations (a : list Duration) :
  length (sort (fun y x => y <? x) a) = length a
  /\ sort (fun y x => y <? x) a ≡ₚ a
  /\ forall (p q : nat) (x y : Duration), (p <= q)%nat ->
       sort (fun y x => y <? x) a !! p = Some x ->
       sort (fun y x => y <? x) a !! q = Some y -> x <= y.
Proof.
  destruct (sorting_properties.sort_spec (fun y x : Z => y <? x)) with (a := a)
    as (H1 & H2 & H3).
  - intros x y H. apply Z.ltb_lt in H. apply Z.ltb_ge. lia.
  - unfold fits. intros x y z H1 H2.
    apply Z.ltb_ge in H1, H2. apply Z.ltb_ge. lia.
  - split; [done|]. split; [done|]. intros p q x y Hpq Hx Hy.
    destruct (decide (p = q)) as [->|Hne].
    + rewrite Hx in Hy. injection Hy as ->. lia.
    + assert (Hlt : (p < q)%nat) by lia.
      specialize (H3 p q x y Hlt Hx Hy). simpl in H3. by apply Z.ltb_ge in H3.
Qed.

(** The first [k] of the sorted recipients, for an iteration that
    meets every entry of the map once. *)
Lemma top_of_sorted (range : gmap string Z -> list (string * Z)) (m : MetricsTracker)
    (k : nat) :
  range (topRecipients m) ≡ₚ map_to_list (topRecipients m) ->
  let rs := firstn k (sort more (collect range m)) in
  length rs = Nat.min k (size (topRecipients m))
  /\ (forall (p q : nat) (x y : RecipientStat), (p < q)%nat ->
        rs !! p = Some x -> rs !! q = Some y -> RequestCount y <= RequestCount x)
  /\ (forall r, r ∈ rs ->
        topRecipients m !! RecipientAddress r = Some (RequestCount r) /\ TotalAmount r = 0)
  /\ NoDup (map RecipientAddress rs)
  /\ (forall address count, topRecipients m !! address = Some count ->
        mkRecipientStat address count 0 ∈ rs
        \/ forall r, r ∈ rs -> count <= RequestCount r).
Proof.
  intros Hrange rs.
  destruct (sort_more (collect range m)) as (Hlen & Hperm & Hsorted).
  assert (Hcollect : collect range m
                     ≡ₚ map (fun kv => mkRecipientStat (fst kv) (snd kv) 0)
                            (map_to_list (topRecipients m))).
  { unfold collect. by rewrite Hrange. }
  assert (Hin : forall r, r ∈ sort more (collect range m) <->
                  topRecipients m !! RecipientAddress r = Some (RequestCount r)
                  /\ TotalAmount r = 0).
  { intros r. rewrite Hperm, Hcollect. rewrite list_elem_of_fmap. split.
    - intros ([address count] & -> & Hkv). simpl.
      by apply elem_of_map_to_list in Hkv.
    - intros [Hr Ht]. exists (RecipientAddress r, RequestCount r). split.
      + destruct r; simpl in *. by subst.
      + by apply elem_of_map_to_list. }
  split; [|split; [|split; [|split]]].
  - unfold rs. rewrite length_take, Hlen. unfold collect.
    by rewrite length_map, Hrange, length_map_to_list.
  - intros p q x y Hpq Hx Hy. unfold rs in Hx, Hy.
    apply lookup_take_Some in Hx as [Hx _]. apply lookup_take_Some in Hy as [Hy _].
    by apply (Hsorted p q).
  - intros r Hr. apply Hin. unfold rs in Hr.
    apply elem_of_take in Hr as (i & Hi & _). by eapply list_elem_of_lookup_2.
  - assert (Hnd : NoDup (map RecipientAddress (sort more (collect range m)))).
    { rewrite Hperm, Hcollect. rewrite map_map. simpl.
      apply (NoDup_fst_map_to_list (topRecipients m)). }
    unfold rs. rewrite <- (take_drop k (sort more (collect range m))) in Hnd.
    rewrite map_app in Hnd. by apply NoDup_app in Hnd as [Hnd _].
  - intros address count Hentry.
    assert (Hmem : mkRecipientStat address count 0 ∈ sort more (collect range m))
      by by apply Hin.
    apply list_elem_of_lookup in Hmem as [q Hq].
    destruct (decide (q < k)%nat) as [Hlt | Hge].
    + left. unfold rs. apply list_elem_of_lookup. exists q.
      by apply lookup_take_Some.
    + right. intros r Hr. unfold rs in Hr.
      apply list_elem_of_lookup in Hr as [p Hp].
      apply lookup_take_Some in Hp as [Hp Hpk].
      apply (Hsorted p q r _) in Hq; [done | lia | done].
Qed.


(** X6.  For an iteration that meets every recipient once and a limit
    that is not negative, GetTopRecipients returns the [limit] most active
    recipients, or all of them if there are fewer: no address twice, the
    request counts in descending order, each entry with the count of the
    tracker and the amount 0, and no recipient left out with a larger count
    than one returned.  The tracker is left as it is. *)
Theorem GetTopRecipients_ranks (range : gmap string Z -> list (string * Z))
    (m : MetricsTracker) (w : World) (limit : Z) :
  range (topRecipients m) ≡ₚ map_to_list (topRecipients m) ->
  0 <= limit ->
  exists rs : list RecipientStat,
    GetTopRecipients range limit m w = (Returns rs, m, w)
    /\ Z.of_nat (length rs) = Z.min limit (Z.of_nat (size (topRecipients m)))
    /\ (forall (p q : nat) (x y : RecipientStat), (p < q)%nat ->
          rs !! p = Some x -> rs !! q = Some y -> RequestCount y <= RequestCount x)
    /\ (forall r, r ∈ rs ->
          topRecipients m !! RecipientAddress r = Some (RequestCount r)
          /\ TotalAmount r = 0)
    /\ NoDup (map RecipientAddress rs)
    /\ (forall address count, topRecipients m !! address = Some count ->
          mkRecipientStat address count 0 ∈ rs
          \/ forall r, r ∈ rs -> count <= RequestCount r).
Proof.
  intros Hrange Hlimit.
  destruct (top_of_sorted range m (Z.to_nat limit) Hrange) as (H1 & H2 & H3 & H4 & H5).
  exists (firstn (Z.to_nat limit) (sort more (collect range m))).
  split; [|split; [|done]].
  - unfold GetTopRecipients. run.
    destruct (limit <? Z.of_nat (length (sort more (collect range m)))) eqn:E.
    + destruct (limit <? 0) eqn:E0; [lia | done].
    + apply Z.ltb_ge in E. by rewrite take_ge by lia.
  - rewrite H1. lia.
Qed.

Lemma GetTopRecipients_ranks_witness :
  0 <= 1
  /\ exists rs : list RecipientStat,
       GetTopRecipients map_to_list 1 samples.busy samples.w1
       = (Returns rs, samples.busy, samples.w1)
       /\ Z.of_nat (length rs) = Z.min 1 (Z.of_nat (size (topRecipients samples.busy)))
       /\ (forall (p q : nat) (x y : RecipientStat), (p < q)%nat ->
             rs !! p = Some x -> rs !! q = Some y -> RequestCount y <= RequestCount x)
       /\ (forall r, r ∈ rs ->
             topRecipients samples.busy !! RecipientAddress r = Some (RequestCount r)
             /\ TotalAmount r = 0)
       /\ NoDup (map RecipientAddress rs)
       /\ (forall address count, topRecipients samples.busy !! address = Some count ->
             mkRecipientStat address count 0 ∈ rs
             \/ forall r, r ∈ rs -> count <= RequestCount r).
Proof.
  assert (H : 0 <= 1) by lia.
  exact (conj H (GetTopRecipients_ranks map_to_list samples.busy samples.w1 1
                   (Permutation_refl _) H)).
Defined.

(** X7.  A negative limit makes GetTopRecipients panic on every
    tracker, an empty one too: the slice expression [recipients[:limit]]
    is reached because no length is below a negative limit. *)
Theorem GetTopRecipients_negative_limit_panics
    (range : gmap string Z -> list (string * Z))
    (m : MetricsTracker) (w : World) (limit : Z) :
  limit < 0 ->
  exists msg : string, GetTopRecipients range limit m w = (Panics msg, m, w).
Proof.
  intros Hlimit. unfold GetTopRecipients. run.
  destruct (limit <? Z.of_nat (length (sort more (collect range m)))) eqn:E;
    [|apply Z.ltb_ge in E; lia].
  destruct (limit <? 0) eqn:E0; [|lia]. by eexists.
Qed.

Lemma GetTopRecipients_negative_limit_panics_witness :
  -1 < 0
  /\ exists msg : string,
       GetTopRecipients map_to_list (-1) samples.busy samples.w1
       = (Panics msg, samples.busy, samples.w1).
Proof.
  assert (H : -1 < 0) by lia.
  exact (conj H (GetTopRecipients_negative_limit_panics map_to_list samples.busy
                   samples.w1 (-1) H)).
Defined.

(** X8.  The recipients of a summary are what GetTopRecipients returns
    for the limit 10: at most ten, the most active first. *)
Theorem summary_recipients_are_top_ten (range : gmap string Z -> list (string * Z))
    (m : MetricsTracker) (w : World) :
  range (topRecipients m) ≡ₚ map_to_list (topRecipients m) ->
  GetTopRecipients range 10 m w = (Returns (TopRecipients range m), m, w)
  /\ Z.of_nat (length (TopRecipients range m))
     = Z.min 10 (Z.of_nat (size (topRecipients m)))
  /\ forall (p q : nat) (x y : RecipientStat), (p < q)%nat ->
       TopRecipients range m !! p = Some x -> TopRecipients range m !! q = Some y ->
       RequestCount y <= RequestCount x.
Proof.
  intros Hrange.
  destruct (top_of_sorted range m 10 Hrange) as (H1 & H2 & _).
  assert (Heq : TopRecipients range m = firstn 10 (sort more (collect range m))).
  { unfold TopRecipients.
    destruct (10 <? Z.of_nat (length (sort more (collect range m)))) eqn:E; [done|].
    apply Z.ltb_ge in E. by rewrite take_ge by lia. }
  split; [|split].
  - unfold GetTopRecipients. run. rewrite Heq.
    destruct (10 <? Z.of_nat (length (sort more (collect range m)))) eqn:E; [done|].
    apply Z.ltb_ge in E. by rewrite take_ge by lia.
  - rewrite Heq, H1. lia.
  - by rewrite Heq.
Qed.

Lemma summary_recipients_are_top_ten_witness :
  GetTopRecipients map_to_list 10 samples.busy samples.w1
  = (Returns (TopRecipients map_to_list samples.busy), samples.busy, samples.w1)
  /\ Z.of_nat (length (TopRecipients map_to_list samples.busy))
     = Z.min 10 (Z.of_nat (size (topRecipients samples.busy)))
  /\ forall (p q : nat) (x y : RecipientStat), (p < q)%nat ->
       TopRecipients map_to_list samples.busy !! p = Some x ->
       TopRecipients map_to_list samples.busy !! q = Some y ->
       RequestCount y <= RequestCount x.
Proof.
  exact (summary_recipients_are_top_ten map_to_list samples.busy samples.w1
           (Permutation_refl _)).
Defined.

(** The indices of the percentiles, for the lengths the tracker keeps:
    the products in floating point give the integer parts of n/2, 95n/100
    and 99n/100. *)
Lemma percentile_indices (n : Z) :
  0 < n <= 10000 ->
  int (float64 n * 0.50) = n / 2
  /\ int (float64 n * 0.95) = 95 * n / 100
  /\ int (float64 n * 0.99) = 99 * n / 100.
Proof.
  intros Hn.
  assert (H : forallb (fun k => let n := Z.of_nat k in
                         (int (float64 n * 0.50) =? n / 2)
                         && (int (float64 n * 0.95) =? 95 * n / 100)
                         && (int (float64 n * 0.99) =? 99 * n / 100))
                      (seq 1 (Z.to_nat 10000)) = true)
    by (vm_compute; reflexivity).
  rewrite List.forallb_forall in H. specialize (H (Z.to_nat n)).
  rewrite Z2Nat.id in H by lia.
  assert (Hin : List.In (Z.to_nat n) (seq 1 (Z.to_nat 10000))) by (apply in_seq; lia).
  apply H in Hin. cbv zeta in Hin.
  apply andb_true_iff in Hin as [Hin H99]. apply andb_true_iff in Hin as [H50 H95].
  apply Z.eqb_eq in H50, H95, H99. done.
Qed.

Lemma index_lookup (sorted : list Duration) (idx : Z) :
  0 <= idx < Z.of_nat (length sorted) ->
  exists d, sorted !! Z.to_nat idx = Some d /\ index sorted idx = Returns d.
Proof.
  intros Hidx. destruct (lookup_lt_is_Some_2 sorted (Z.to_nat idx)) as [d Hd]; [lia|].
  exists d. split; [done|]. unfold index. destruct (idx <? 0) eqn:E; [lia|].
  by rewrite Hd.
Qed.

(** What calculatePercentiles returns for a tracker that holds response
    times, 10000 at most. *)
Lemma calculatePercentiles_spec (m : MetricsTracker) :
  0 < Z.of_nat (length (responseTimes m)) <= 10000 ->
  let n := Z.of_nat (length (responseTimes m)) in
  exists (sorted : list Duration) (p50 p95 p99 : Duration),
    calculatePercentiles m = Returns (p50, p95, p99)
    /\ sorted ≡ₚ responseTimes m
    /\ (forall (p q : nat) (x y : Duration), (p <= q)%nat ->
          sorted !! p = Some x -> sorted !! q = Some y -> x <= y)
    /\ sorted !! Z.to_nat (n / 2) = Some p50
    /\ sorted !! Z.to_nat (95 * n / 100) = Some p95
    /\ sorted !! Z.to_nat (99 * n / 100) = Some p99.
Proof.
  intros Hn n. assert (Hbound : 0 < n <= 10000) by exact Hn.
  destruct (sort_durations (responseTimes m)) as (Hlen & Hperm & Hsorted).
  set (sorted := sort (fun y x => y <? x) (responseTimes m)) in *.
  assert (Hn' : Z.of_nat (@length Z sorted) = n)
    by exact (f_equal Z.of_nat Hlen).
  destruct (percentile_indices n Hbound) as (H50 & H95 & H99).
  assert (B50 : 0 <= n / 2 < n).
  { split; [apply Z.div_pos; lia | apply Z.div_lt_upper_bound; lia]. }
  assert (B95 : 0 <= 95 * n / 100 < n).
  { split; [apply Z.div_pos; lia | apply Z.div_lt_upper_bound; lia]. }
  assert (B99 : 0 <= 99 * n / 100 < n).
  { split; [apply Z.div_pos; lia | apply Z.div_lt_upper_bound; lia]. }
  destruct (index_lookup sorted (n / 2)) as (p50 & L50 & I50);
    [unfold Duration; by rewrite Hn'|].
  destruct (index_lookup sorted (95 * n / 100)) as (p95 & L95 & I95);
    [unfold Duration; by rewrite Hn'|].
  destruct (index_lookup sorted (99 * n / 100)) as (p99 & L99 & I99);
    [unfold Duration; by rewrite Hn'|].
  exists sorted, p50, p95, p99. split; [|done].
  unfold calculatePercentiles. fold sorted. cbv zeta. unfold Duration.
  rewrite Hn'. fold n.
  match goal with
  | |- context [if ?c =? 0 then _ else _] => destruct (c =? 0) eqn:E0
  end.
  { apply Z.eqb_eq in E0. change (n = 0) in E0. lia. }
  rewrite H50, H95, H99.
  destruct (n <=? n / 2) eqn:E50; [lia|].
  destruct (n <=? 95 * n / 100) eqn:E95; [lia|].
  destruct (n <=? 99 * n / 100) eqn:E99; [lia|].
  by rewrite I50, I95, I99.
Qed.

(** X9.  For a tracker that holds between 1 and 10000 response times,
    calculatePercentiles returns three of them, the 50th percentile no
    larger than the 95th and that no larger than the 99th: they are the
    entries of the sorted response times at the integer parts of n/2,
    95n/100 and 99n/100, where the rounding of the floating-point products
    never shows. *)
Theorem percentiles_are_ordered_samples (m : MetricsTracker) :
  0 < Z.of_nat (length (responseTimes m)) <= 10000 ->
  let n := Z.of_nat (length (responseTimes m)) in
  exists (sorted : list Duration) (p50 p95 p99 : Duration),
    calculatePercentiles m = Returns (p50, p95, p99)
    /\ sorted ≡ₚ responseTimes m
    /\ (forall (p q : nat) (x y : Duration), (p <= q)%nat ->
          sorted !! p = Some x -> sorted !! q = Some y -> x <= y)
    /\ sorted !! Z.to_nat (n / 2) = Some p50
    /\ sorted !! Z.to_nat (95 * n / 100) = Some p95
    /\ sorted !! Z.to_nat (99 * n / 100) = Some p99
    /\ p50 <= p95 <= p99
    /\ p50 ∈ responseTimes m /\ p95 ∈ responseTimes m /\ p99 ∈ responseTimes m.
Proof.
  intros Hn n. assert (Hbound : 0 < n <= 10000) by exact Hn.
  destruct (calculatePercentiles_spec m Hn)
    as (sorted & p50 & p95 & p99 & Hcalc & Hperm & Hsorted & L50 & L95 & L99).
  fold n in L50, L95, L99.
  exists sorted, p50, p95, p99.
  repeat (split; [done|]).
  assert (H1 : n / 2 <= 95 * n / 100).
  { apply Z.div_le_lower_bound; [lia|]. pose proof (Z.mul_div_le n 2). 
    pose proof (Z.mod_pos_bound (95 * n) 100). pose proof (Z.div_mod (95 * n) 100). lia. }
  assert (H2 : 95 * n / 100 <= 99 * n / 100) by (apply Z.div_le_mono; lia).
  assert (H0 : 0 <= n / 2) by (apply Z.div_pos; lia).
  split; [split|].
  - apply (Hsorted (Z.to_nat (n / 2)) (Z.to_nat (95 * n / 100))); [lia | done | done].
  - apply (Hsorted (Z.to_nat (95 * n / 100)) (Z.to_nat (99 * n / 100))); [lia | done | done].
  - rewrite <- Hperm. repeat split; by eapply list_elem_of_lookup_2.
Qed.

Lemma percentiles_are_ordered_samples_witness :
  0 < Z.of_nat (length (responseTimes samples.busy)) <= 10000
  /\ exists (sorted : list Duration) (p50 p95 p99 : Duration),
       calculatePercentiles samples.busy = Returns (p50, p95, p99)
       /\ sorted ≡ₚ responseTimes samples.busy
       /\ p50 <= p95 <= p99.
Proof.
  assert (H : 0 < Z.of_nat (length (responseTimes samples.busy)) <= 10000)
    by (vm_compute; split; [reflexivity | discriminate]).
  refine (conj H _).
  destruct (percentiles_are_ordered_samples samples.busy H)
    as (sorted & p50 & p95 & p99 & H1 & H2 & _ & _ & _ & _ & H3 & _).
  exact (ex_intro _ sorted (ex_intro _ p50 (ex_intro _ p95 (ex_intro _ p99
           (conj H1 (conj H2 H3)))))).
Defined.


Lemma Milliseconds_mono (a b : Duration) : a <= b -> Milliseconds a <= Milliseconds b.
Proof. intros H. unfold Milliseconds. apply Z.quot_le_mono; lia. Qed.

(** X10.  On a tracker that has only been told of requests,
    GetPerformanceStats never panics: it returns the percentiles in
    milliseconds, in ascending order and none above the largest response
    time on record, and counts at most 10000 samples.  The tracker is left
    as it is. *)
Theorem performance_stats_are_ordered (events : list Event) (w w' : World) :
  exists stats : PerformanceStats,
    GetPerformanceStats (told events w) w' = (Returns stats, told events w, w')
    /\ p50_response_time stats <= p95_response_time stats
    /\ p95_response_time stats <= p99_response_time stats
    /\ p99_response_time stats <= max_response_time stats
    /\ 0 <= total_samples stats <= 10000.
Proof.
  destruct (tracker_properties.told_window events w) as (Hlen & Hall & Hmax).
  set (m := told events w) in *.
  unfold GetPerformanceStats. run.
  destruct (decide (Z.of_nat (length (responseTimes m)) = 0)) as [H0 | Hpos].
  - unfold calculatePercentiles.
    match goal with
    | |- context [if ?c =? 0 then _ else _] => destruct (c =? 0) eqn:E0
    end.
    2: { apply Z.eqb_neq in E0. by destruct E0. }
    eexists. split; [reflexivity|]. simpl.
    assert (0 <= Milliseconds (maxResponseTime m))
      by (unfold Milliseconds; apply Z.quot_pos; lia).
    repeat split; (done || lia).
  - assert (Hn : 0 < Z.of_nat (length (responseTimes m)) <= 10000) by lia.
    destruct (calculatePercentiles_spec m Hn)
      as (sorted & p50 & p95 & p99 & -> & Hperm & Hsorted & L50 & L95 & L99).
    eexists. split; [reflexivity|]. simpl.
    set (n := Z.of_nat (length (responseTimes m))) in *.
    assert (H1 : n / 2 <= 95 * n / 100).
    { apply Z.div_le_lower_bound; [lia|]. pose proof (Z.mul_div_le n 2).
      pose proof (Z.mod_pos_bound (95 * n) 100). pose proof (Z.div_mod (95 * n) 100). lia. }
    assert (H2 : 95 * n / 100 <= 99 * n / 100) by (apply Z.div_le_mono; lia).
    assert (H0 : 0 <= n / 2) by (apply Z.div_pos; lia).
    split; [|split; [|split; [|lia]]].
    + apply Milliseconds_mono.
      apply (Hsorted (Z.to_nat (n / 2)) (Z.to_nat (95 * n / 100))); [lia | done | done].
    + apply Milliseconds_mono.
      apply (Hsorted (Z.to_nat (95 * n / 100)) (Z.to_nat (99 * n / 100)));
        [lia | done | done].
    + apply Milliseconds_mono.
      apply list_elem_of_lookup_2 in L99. rewrite Hperm in L99.
      rewrite Forall_forall in Hall. by apply Hall.
Qed.

End ranking_properties.
(** ** Package pow: the engine besides Verify *)

Module engine_properties.
Import pow.
Import vocabulary.

(** X11.  A round of the cleanup goroutine removes the challenges that
    have expired at its reading of the clock, and no other; the
    difficulty stays.  A challenge it has removed is unknown to Verify
    afterwards: the answer is "challenge not found", not "challenge
    expired". *)
Theorem cleanup_removes_the_expired (p : ProofOfWork) (w : World) (id : string) :
  challenges (after (cleanup p w)) !! id
  = match challenges p !! id with
    | Some ch => if time.After (now w) (ExpiresAt ch) then None else Some ch
    | None => None
    end
  /\ difficulty (after (cleanup p w)) = difficulty p
  /\ forall (ch : Challenge) (solution : string) (w' : World),
       challenges p !! id = Some ch ->
       time.After (now w) (ExpiresAt ch) = true ->
       result (Verify id solution (after (cleanup p w)) w')
       = Returns (false, Some NotFound).
Proof.
  assert (Hlookup : challenges (after (cleanup p w)) !! id
                    = match challenges p !! id with
                      | Some ch => if time.After (now w) (ExpiresAt ch) then None else Some ch
                      | None => None
                      end).
  { unfold cleanup. run. unfold after. simpl. rewrite map_lookup_filter.
    destruct (challenges p !! id) as [ch|]; simpl; [|done].
    case_guard as Hg; simpl in Hg; rewrite Hg || apply not_false_is_true in Hg;
      [done | by rewrite Hg]. }
  split; [exact Hlookup|]. split; [done|].
  intros ch solution w' Hstored Hexpired.
  rewrite Hstored, Hexpired in Hlookup.
  by rewrite (pow_properties.Verify_absent _ _ _ _ Hlookup).
Qed.

Lemma cleanup_removes_the_expired_witness :
  challenges (after samples.issue1) !! ID samples.challenge1 = Some samples.challenge1
  /\ time.After (now samples.w1) (ExpiresAt samples.challenge1) = true
  /\ result (Verify (ID samples.challenge1) "3"
               (after (cleanup (after samples.issue1) samples.w1)) (tick samples.w1))
     = Returns (false, Some NotFound).
Proof.
  assert (H1 : challenges (after samples.issue1) !! ID samples.challenge1
               = Some samples.challenge1) by (vm_compute; reflexivity).
  assert (H2 : time.After (now samples.w1) (ExpiresAt samples.challenge1) = true)
    by (vm_compute; reflexivity).
  refine (conj H1 (conj H2 _)).
  exact (proj2 (proj2 (cleanup_removes_the_expired (after samples.issue1) samples.w1
                         (ID samples.challenge1)))
           samples.challenge1 "3"%string (tick samples.w1) H1 H2).
Defined.

(** X12.  A challenge GenerateChallenge has returned is what
    GetChallenge returns for its id, at any later time, expired or not;
    GetChallenge reads no clock and changes nothing, and reports an
    unknown id as "challenge not found". *)
Theorem issued_challenge_can_be_fetched (p : ProofOfWork) (w w' : World) :
  GetChallenge (ID (fst (result (GenerateChallenge p w)))) (after (GenerateChallenge p w)) w'
  = ((Some (fst (result (GenerateChallenge p w))), None), after (GenerateChallenge p w), w')
  /\ forall (q : ProofOfWork) (id : string),
       challenges q !! id = None -> GetChallenge id q w' = ((None, Some NotFound), q, w').
Proof.
  split.
  - destruct (pow_properties.GenerateChallenge_issues p w) as (_ & H & _).
    unfold GetChallenge. run. by rewrite H.
  - intros q id H. unfold GetChallenge. run. by rewrite H.
Qed.

Lemma issued_challenge_can_be_fetched_witness :
  challenges (NewProofOfWork 1) !! "pow_0_abcdefgh"%string = None
  /\ GetChallenge "pow_0_abcdefgh" (NewProofOfWork 1) samples.w1
     = ((None, Some NotFound), NewProofOfWork 1, samples.w1).
Proof.
  assert (H : challenges (NewProofOfWork 1) !! "pow_0_abcdefgh"%string = None)
    by reflexivity.
  exact (conj H (proj2 (issued_challenge_can_be_fetched (NewProofOfWork 1) samples.w0
                          samples.w1) (NewProofOfWork 1) "pow_0_abcdefgh"%string H)).
Defined.

(** X13.  EstimateDifficulty never lowers the difficulty when the
    target time grows, and stays between 3 and 6. *)
Theorem EstimateDifficulty_is_monotone (a b : Z) :
  a <= b ->
  EstimateDifficulty a <= EstimateDifficulty b
  /\ 3 <= EstimateDifficulty a <= 6.
Proof.
  intros Hab. unfold EstimateDifficulty.
  destruct (Z.ltb_spec a 1), (Z.ltb_spec a 5), (Z.ltb_spec a 10),
           (Z.ltb_spec b 1), (Z.ltb_spec b 5), (Z.ltb_spec b 10); lia.
Qed.

Lemma EstimateDifficulty_is_monotone_witness :
  4 <= 7 /\ EstimateDifficulty 4 <= EstimateDifficulty 7 /\ 3 <= EstimateDifficulty 4 <= 6.
Proof.
  assert (H : 4 <= 7) by lia.
  exact (conj H (EstimateDifficulty_is_monotone 4 7 H)).
Defined.

(** The controller keeps its parameters. *)
Lemma adjust_keeps (base : Z) (p : ProofOfWork) (loads : list float) :
  forall (current : float) (d : Z) (w : World),
    exists (current' : float) (d' : Z),
      adjust loads (mkAdaptiveDifficulty 50 current base (base + 2) (base - 1),
                    mkProofOfWork (challenges p) d) w
      = (tt, (mkAdaptiveDifficulty 50 current' base (base + 2) (base - 1),
              mkProofOfWork (challenges p) d'), w).
Proof.
  induction loads as [|load loads IH]; intros current d w.
  - by exists current, d.
  - simpl. unfold UpdateLoad, onEngine, SetDifficulty. run. apply IH.
Qed.

Set Warnings "-inexact-float".

(** X14.  For a base difficulty [base] whose limits base-1 and base+2
    are Go ints (so that no addition of the controller wraps around), the
    difficulty the adaptive controller gives the engine depends on the
    last load only: it is base+2 above the load 75, base+1 above 60,
    base-1 below 25 and the base otherwise (for a load that is not a
    number, too); the limits base-1 and base+2 never cut it.  The
    challenges of the engine stay. *)
Theorem UpdateLoad_follows_the_last_load
    (base : Z) (p : ProofOfWork) (loads : list float) (load : float) (w : World) :
  int64 (base - 1) ->
  int64 (base + 2) ->
  let s := after ((exec adjust loads; UpdateLoad load) (NewAdaptiveDifficulty base, p) w) in
  difficulty (snd s)
  = (if PrimFloat.ltb 75 load then base + 2
     else if PrimFloat.ltb 60 load then base + 1
     else if PrimFloat.ltb load 25 then base - 1
     else base)
  /\ result (GetCurrentDifficulty s w) = difficulty (snd s)
  /\ base - 1 <= difficulty (snd s) <= base + 2
  /\ int64 (difficulty (snd s))
  /\ challenges (snd s) = challenges p
  /\ currentLoad (fst s) = load.
Proof.
  intros Hmin Hmax. unfold int64 in *.
  destruct p as [stored d].
  destruct (adjust_keeps base (mkProofOfWork stored d) loads 50 d w)
    as (current' & d' & Hrun).
  cbv zeta. run. unfold NewAdaptiveDifficulty. simpl in Hrun. rewrite Hrun.
  unfold UpdateLoad, onEngine, SetDifficulty, GetCurrentDifficulty, after, result. run.
  cbn [fst snd baselineLoad currentLoad baseDifficulty maxDifficulty minDifficulty
       difficulty challenges].
  change (50 * 1.5)%float with 75%float.
  change (50 * 1.2)%float with 60%float.
  change (50 * 0.5)%float with 25%float.
  destruct (PrimFloat.ltb 75 load), (PrimFloat.ltb 60 load), (PrimFloat.ltb load 25);
    repeat match goal with
           | |- context [?a <? ?b] =>
               lazymatch a with
               | context [if _ then _ else _] => fail
               | _ => destruct (Z.ltb_spec a b); try lia
               end
           end;
    repeat split; (reflexivity || lia).
Qed.

Lemma UpdateLoad_follows_the_last_load_witness :
  int64 (3 - 1) /\ int64 (3 + 2)
  /\ let s := after ((exec adjust [100; 10]%float; UpdateLoad 70)
                      (NewAdaptiveDifficulty 3, NewProofOfWork 3) samples.w0) in
     difficulty (snd s)
     = (if PrimFloat.ltb 75 70 then 3 + 2
        else if PrimFloat.ltb 60 70 then 3 + 1
        else if PrimFloat.ltb 70 25 then 3 - 1
        else 3)
     /\ result (GetCurrentDifficulty s samples.w0) = difficulty (snd s)
     /\ 3 - 1 <= difficulty (snd s) <= 3 + 2
     /\ int64 (difficulty (snd s))
     /\ challenges (snd s) = challenges (NewProofOfWork 3)
     /\ currentLoad (fst s) = 70%float.
Proof.
  assert (H1 : int64 (3 - 1)) by (unfold int64; lia).
  assert (H2 : int64 (3 + 2)) by (unfold int64; lia).
  exact (conj H1 (conj H2 (UpdateLoad_follows_the_last_load
                             3 (NewProofOfWork 3) [100; 10]%float 70%float samples.w0 H1 H2))).
Defined.


(** A character drawn from an alphabet by an index in range. *)
Lemma byteAt_among (alphabet : string) (i : Z) :
  0 <= i < Z.of_nat (String.length alphabet) ->
  among alphabet (byteAt alphabet i) = true.
Proof.
  intros Hi. unfold byteAt, among.
  assert (Hn : (Z.to_nat i < String.length alphabet)%nat) by lia.
  generalize dependent (Z.to_nat i). clear Hi i.
  induction alphabet as [|c rest IH]; intros n Hn; simpl in *; [lia|].
  destruct n as [|n]; simpl.
  - by rewrite Ascii.eqb_refl.
  - rewrite IH by lia. apply orb_true_r.
Qed.

(** generateNonce reads the random source only, once per character,
    and every character is one of the charset. *)
Lemma fillNonce_nonce {S : Type} (n : nat) (s : S) (w : World) :
  exists nonce w',
    fillNonce n s w = (nonce, s, w')
    /\ clock w' = clock w /\ ticks w' = ticks w
    /\ String.length nonce = n
    /\ allAmong charset nonce = true.
Proof.
  revert w. induction n as [|n IH]; intros w; simpl.
  - by exists EmptyString, w.
  - run. unfold Intn.
    destruct (IH (mkWorld (clock w) (ticks w) (mathrand w) (Datatypes.S (mathdrawn w))
                          (cryptorand w) (cryptodrawn w)))
      as (rest & w' & E & Hc & Ht & Hlen & Hall).
    rewrite E. eexists _, _. split; [reflexivity|]. split; [done|]. split; [done|].
    split; [simpl; by rewrite Hlen|].
    unfold allAmong. cbn [chars forallb]. fold (allAmong charset rest). rewrite Hall.
    rewrite byteAt_among; [done|]. apply Z.mod_pos_bound. by vm_compute.
Qed.

Transparent GenerateChallenge.

(** The readings of the clock GenerateChallenge takes. *)
Lemma GenerateChallenge_readings (p : ProofOfWork) (w : World) :
  (exists suffix : string,
     ID (fst (result (GenerateChallenge p w)))
     = ("pow_" ++ itoa (time.UnixNano (now w)) ++ "_" ++ suffix)%string)
  /\ CreatedAt (fst (result (GenerateChallenge p w))) = clock w (1 + ticks w)
  /\ ExpiresAt (fst (result (GenerateChallenge p w)))
     = time.Add (clock w (2 + ticks w)) (10 * time.Minute)
  /\ String.length (Nonce (fst (result (GenerateChallenge p w)))) = 32%nat
  /\ allAmong charset (Nonce (fst (result (GenerateChallenge p w)))) = true
  /\ Solution (fst (result (GenerateChallenge p w))) = EmptyString
  /\ ticks (world (GenerateChallenge p w)) = (3 + ticks w)%nat.
Proof.
  unfold GenerateChallenge, generateChallengeID, generateNonce. run.
  destruct (fillNonce_nonce 32 p w) as (nonce & w1 & -> & Hc1 & Ht1 & Hlen & Hall).
  destruct (fillNonce_nonce 32 p (tick w1)) as (n2 & w2 & -> & Hc2 & Ht2 & _).
  cbn in Hc2, Ht2. rewrite Hc1 in Hc2. rewrite Ht1 in Ht2.
  cbn. unfold now. cbn. rewrite Hc1, Ht1, Hc2, Ht2.
  split; [by eexists|]. done.
Qed.

Opaque GenerateChallenge.

(** X15.  GenerateChallenge reads the clock three times: the id bears
    the first reading, CreatedAt is the second, and the expiry is ten
    minutes after the third; so a challenge lasts ten minutes and the time
    between the last two readings.  The nonce has 32 characters of the
    charset, and no solution is stored. *)
Theorem challenge_lasts_ten_minutes (p : ProofOfWork) (w : World) :
  let ch := fst (result (GenerateChallenge p w)) in
  (exists suffix : string,
     ID ch = ("pow_" ++ itoa (time.UnixNano (clock w (ticks w))) ++ "_" ++ suffix)%string)
  /\ CreatedAt ch = clock w (1 + ticks w)
  /\ ExpiresAt ch - CreatedAt ch
     = 10 * time.Minute + (clock w (2 + ticks w) - clock w (1 + ticks w))
  /\ String.length (Nonce ch) = 32%nat
  /\ allAmong charset (Nonce ch) = true
  /\ Solution ch = EmptyString.
Proof.
  destruct (GenerateChallenge_readings p w) as (H1 & H2 & H3 & H4 & H5 & H6 & _).
  cbv zeta. rewrite H2, H3. unfold time.Add.
  split; [exact H1|]. split; [reflexivity|]. split; [lia|].
  split; [exact H4|]. split; [exact H5 | exact H6].
Qed.

Lemma size_delete (m : gmap string Challenge) (id : string) (ch : Challenge) :
  m !! id = Some ch -> Z.of_nat (size (delete id m)) = Z.of_nat (size m) - 1.
Proof.
  intros H. rewrite <- (insert_delete_id m id ch H) at 2.
  rewrite map_size_insert_None by apply lookup_delete_eq. lia.
Qed.

(** X16.  GetStats counts the challenges in the store, expired ones
    too, and gives the difficulty of the engine: a Verify that returns
    true or "challenge expired" lowers the count by one, and every other
    Verify leaves it. *)
Theorem GetStats_follows_Verify (p : ProofOfWork) (w w' : World) (id solution : string) :
  let r := Verify id solution p w in
  active_challenges (result (GetStats (after r) w'))
  = active_challenges (result (GetStats p w')) - (if evicts (result r) then 1 else 0)
  /\ stats_difficulty (result (GetStats (after r) w')) = difficulty p
  /\ after (GetStats p w') = p.
Proof.
  cbv zeta. unfold GetStats. run. unfold result, after. simpl.
  destruct (challenges p !! id) as [ch|] eqn:Hstored.
  - destruct (time.After (now w) (ExpiresAt ch)) eqn:Hexp.
    + rewrite (pow_properties.Verify_expired _ _ _ _ _ Hstored Hexp). simpl.
      by rewrite (size_delete _ _ _ Hstored).
    + rewrite (pow_properties.Verify_checks _ _ _ _ _ Hstored Hexp).
      destruct (verifyHash _ _) as [[]|]; simpl; rewrite ?(size_delete _ _ _ Hstored);
        repeat split; lia.
  - rewrite (pow_properties.Verify_absent _ _ _ _ Hstored). simpl.
    repeat split; lia.
Qed.

(** The loop of the solver stops at the first candidate whose hash has
    the prefix. *)
Lemma solveFrom_least (nonce prefix : string) (fuel : nat) :
  forall (attempts : Z) (solution : string) (err : error),
    solveFrom fuel nonce prefix attempts = (solution, err) ->
    match err with
    | None =>
        exists k : Z,
          0 <= k < Z.of_nat fuel /\ solution = itoa (attempts + k)
          /\ strings.HasPrefix (computeHash nonce solution) prefix = true
          /\ forall j : Z, 0 <= j < k ->
               strings.HasPrefix (computeHash nonce (itoa (attempts + j))) prefix = false
    | Some msg =>
        solution = EmptyString /\ msg = Unsolvable
        /\ forall j : Z, 0 <= j < Z.of_nat fuel ->
             strings.HasPrefix (computeHash nonce (itoa (attempts + j))) prefix = false
    end.
Proof.
  induction fuel as [|fuel IH]; intros attempts solution err H; cbn [solveFrom] in H.
  - injection H as <- <-. split; [done|]. split; [done|]. intros j Hj. lia.
  - cbv zeta in H.
    destruct (strings.HasPrefix (computeHash nonce (itoa attempts)) prefix) eqn:E.
    + injection H as <- <-. exists 0.
      rewrite Z.add_0_r. split; [lia|]. split; [done|]. split; [done|].
      intros j Hj. lia.
    + apply IH in H. destruct err as [msg|].
      * destruct H as (-> & -> & Hnone). split; [done|]. split; [done|].
        intros j Hj. destruct (decide (j = 0)) as [->|Hne].
        -- by rewrite Z.add_0_r.
        -- replace (attempts + j) with (attempts + 1 + (j - 1)) by lia.
           apply Hnone. lia.
      * destruct H as (k & Hk & -> & Hgood & Hbad). exists (k + 1).
        replace (attempts + (k + 1)) with (attempts + 1 + k) by lia.
        split; [lia|]. split; [done|]. split; [done|].
        intros j Hj. destruct (decide (j = 0)) as [->|Hne].
        -- by rewrite Z.add_0_r.
        -- replace (attempts + j) with (attempts + 1 + (j - 1)) by lia.
           apply Hbad. lia.
Qed.

Lemma attempts_left : Z.of_nat (Z.to_nat maxAttempts) = maxAttempts.
Proof. apply Z2Nat.id. unfold maxAttempts. lia. Qed.

(** X17.  The solution SolveChallenge returns is the decimal numeral
    of the least number below 10,000,000 whose hash with the nonce has the
    required zeros; it fails only if no number below 10,000,000 has. *)
Theorem SolveChallenge_returns_the_least (nonce : string) (d : Z) (solution : string)
    (err : error) :
  SolveChallenge nonce d = Returns (solution, err) ->
  match err with
  | None =>
      exists k : Z,
        0 <= k < maxAttempts /\ solution = itoa k
        /\ verifyHash (computeHash nonce solution) d = Returns true
        /\ forall j : Z, 0 <= j < k ->
             verifyHash (computeHash nonce (itoa j)) d = Returns false
  | Some msg =>
      solution = EmptyString /\ msg = Unsolvable
      /\ forall j : Z, 0 <= j < maxAttempts ->
           verifyHash (computeHash nonce (itoa j)) d = Returns false
  end.
Proof.
  unfold SolveChallenge, verifyHash.
  pose proof attempts_left as Hfuel. revert Hfuel.
  generalize (Z.to_nat maxAttempts) as fuel. intros fuel Hfuel.
  destruct (strings.Repeat "0" d) as [prefix|msg]; [|discriminate].
  intros H.
  assert (H' : solveFrom fuel nonce prefix 0 = (solution, err)) by congruence.
  clear H. apply solveFrom_least in H'. rewrite Hfuel in H'. destruct err as [msg|].
  - destruct H' as (-> & -> & Hnone). split; [done|]. split; [done|].
    intros j Hj. by rewrite <- (Hnone j Hj).
  - destruct H' as (k & Hk & -> & Hgood & Hbad). exists k.
    split; [done|]. split; [done|]. split; [by rewrite <- Hgood|].
    intros j Hj. by rewrite <- (Hbad j Hj).
Qed.

Lemma SolveChallenge_returns_the_least_witness :
  SolveChallenge (Nonce samples.challenge1) 1 = Returns ("3"%string, None)
  /\ exists k : Z,
       0 <= k < maxAttempts /\ "3"%string = itoa k
       /\ verifyHash (computeHash (Nonce samples.challenge1) "3") 1 = Returns true
       /\ forall j : Z, 0 <= j < k ->
            verifyHash (computeHash (Nonce samples.challenge1) (itoa j)) 1 = Returns false.
Proof.
  assert (H : SolveChallenge (Nonce samples.challenge1) 1 = Returns ("3"%string, None))
    by (vm_compute; reflexivity).
  exact (conj H (SolveChallenge_returns_the_least _ 1 "3"%string None H)).
Defined.

End engine_properties.
(** ** Package captcha: the service besides Validate *)

Module service_properties.
Import captcha.
Import vocabulary.

(** X18.  Validate on a stored CAPTCHA whose expiry is in the past
    returns false for every candidate, the stored solution too, and
    removes the CAPTCHA; every later Validate on the id returns false. *)
Theorem expired_captcha_never_validates
    (s : CaptchaService) (w : World) (id candidate : string) (c : CaptchaData) :
  Get id (store s) = Some c ->
  time.After (now w) (ExpiresAt c) = true ->
  Validate id candidate s w
  = (false, mkCaptchaService (Delete id (store s)) (options s), tick w)
  /\ result (Validate id (Solution c) s w) = false
  /\ forall (w2 : World) (candidate2 : string),
       result (Validate id candidate2 (after (Validate id candidate s w)) w2) = false.
Proof.
  intros Hstored Hexpired.
  rewrite !(captcha_properties.Validate_expired _ _ _ _ _ Hstored Hexpired).
  split; [done|]. split; [done|]. intros w2 candidate2.
  unfold after at 1. simpl.
  by rewrite captcha_properties.Validate_absent by apply captcha_properties.Delete_absent.
Qed.

Lemma expired_captcha_never_validates_witness :
  Get (ID samples.captcha1) (store (after samples.generated)) = Some samples.captcha1
  /\ time.After (now samples.w1) (ExpiresAt samples.captcha1) = true
  /\ result (Validate (ID samples.captcha1) (Solution samples.captcha1)
               (after samples.generated) samples.w1) = false.
Proof.
  assert (H1 : Get (ID samples.captcha1) (store (after samples.generated))
               = Some samples.captcha1) by (vm_compute; reflexivity).
  assert (H2 : time.After (now samples.w1) (ExpiresAt samples.captcha1) = true)
    by (vm_compute; reflexivity).
  refine (conj H1 (conj H2 _)).
  exact (proj1 (proj2 (expired_captcha_never_validates _ _ _ EmptyString _ H1 H2))).
Defined.

Lemma cryptoRead_length {S : Type} (n : nat) (s : S) (w : World) (bytes : list Z) :
  result (cryptoRead n s w) = inl bytes -> length bytes = n.
Proof.
  revert w bytes. induction n as [|n IH]; intros w bytes; simpl.
  - unfold result. simpl. by intros [= <-].
  - run. unfold cryptoInt.
    destruct (cryptorand w (cryptodrawn w)) as [z|err]; [|discriminate].
    specialize (IH (mkWorld (clock w) (ticks w) (mathrand w) (mathdrawn w) (cryptorand w)
                            (Datatypes.S (cryptodrawn w)))).
    destruct (cryptoRead n s _) as [[[xs|err] s'] w']; [|discriminate].
    unfold result in *. simpl in *. intros [= <-]. simpl. f_equal. by apply IH.
Qed.

Lemma digit_among (v shift : Z) : among base64.encodeURL (base64.digit v shift) = true.
Proof.
  unfold base64.digit. apply engine_properties.byteAt_among.
  change 0x3f with (Z.ones 6). rewrite Z.land_ones by lia.
  change (Z.of_nat (String.length base64.encodeURL)) with (2 ^ 6).
  apply Z.mod_pos_bound. lia.
Qed.

(** X19.  When the random source gives its 16 bytes, the id
    generateRandomString(16) returns is the base64 encoding of the first
    twelve of them: sixteen characters of the URL alphabet, and the last
    four bytes do not show in it. *)
Theorem captcha_id_uses_twelve_bytes {S : Type} (s : S) (w : World) (bytes : list Z) :
  result (cryptoRead 16 s w) = inl bytes ->
  result (generateRandomString 16 s w)
  = (base64.EncodeToString (firstn 12 bytes), None)
  /\ String.length (base64.EncodeToString (firstn 12 bytes)) = 16%nat
  /\ allAmong base64.encodeURL (base64.EncodeToString (firstn 12 bytes)) = true
  /\ world (generateRandomString 16 s w) = world (cryptoRead 16 s w).
Proof.
  intros Hread. pose proof (cryptoRead_length 16 s w bytes Hread) as Hlen.
  unfold generateRandomString. run. change (Z.to_nat 16) with 16%nat.
  destruct (cryptoRead 16 s w) as [[[xs|err] s'] w']; [|discriminate].
  unfold result in Hread. simpl in Hread. injection Hread as ->.
  do 17 (destruct bytes as [|? bytes]; try discriminate Hlen).
  unfold result, world. cbn [fst snd].
  split; [reflexivity|]. split; [reflexivity|]. split; [|reflexivity].
  cbn [firstn base64.EncodeToString]. unfold allAmong.
  cbn [chars forallb]. by rewrite !digit_among.
Qed.

Lemma captcha_id_uses_twelve_bytes_witness :
  result (cryptoRead 16 tt samples.w0)
  = inl [7; 38; 69; 100; 131; 162; 193; 224; 255; 30; 61; 92; 123; 154; 185; 216]
  /\ result (generateRandomString 16 tt samples.w0)
     = (base64.EncodeToString [7; 38; 69; 100; 131; 162; 193; 224; 255; 30; 61; 92], None).
Proof.
  assert (H : result (cryptoRead 16 tt samples.w0)
              = inl [7; 38; 69; 100; 131; 162; 193; 224; 255; 30; 61; 92; 123; 154; 185; 216])
    by (vm_compute; reflexivity).
  exact (conj H (proj1 (captcha_id_uses_twelve_bytes tt samples.w0 _ H))).
Defined.


Lemma allAmong_append (alphabet s1 s2 : string) :
  allAmong alphabet (s1 ++ s2) = allAmong alphabet s1 && allAmong alphabet s2.
Proof.
  unfold allAmong. induction s1 as [|c s1 IH]; simpl; [done|].
  by rewrite IH, andb_assoc.
Qed.

(** The loop of generateSolution draws every character from the
    alphabet. *)
Lemma fillSolution_among {S : Type} (n : nat) (alphabet : string) :
  0 < Z.of_nat (String.length alphabet) ->
  forall (written : string) (s : S) (w : World),
    allAmong alphabet written = true ->
    match result (fillSolution n alphabet written s w) with
    | (solution, None) => allAmong alphabet solution = true
    | (solution, Some _) => solution = EmptyString
    end.
Proof.
  intros Hlen. induction n as [|n IH]; intros written s w Hwritten; simpl.
  - done.
  - run. unfold cryptoInt.
    destruct (cryptorand w (cryptodrawn w)) as [z|err]; [|done].
    apply IH. rewrite allAmong_append, Hwritten. unfold allAmong. simpl.
    rewrite engine_properties.byteAt_among; [done|]. apply Z.mod_pos_bound. lia.
Qed.

(** generateSolution leaves the service as it is. *)
Lemma generateSolution_frame (s : CaptchaService) (w : World) :
  after (generateSolution s w) = s.
Proof.
  unfold generateSolution. run.
  destruct (Length (options s) <? 0); [done|].
  set (chars := if String.eqb (Difficulty (options s)) "easy" then _ else _).
  generalize (Z.to_nat (Length (options s))) as n.
  generalize EmptyString as written. revert w.
  intros w written n. revert w written.
  induction n as [|n IH]; intros w written; simpl; [done|].
  run. unfold cryptoInt.
  destruct (cryptorand w (cryptodrawn w)) as [z|err]; [|done].
  specialize (IH (mkWorld (clock w) (ticks w) (mathrand w) (mathdrawn w) (cryptorand w)
                          (Datatypes.S (cryptodrawn w)))
                 (written ++ String (byteAt chars (z mod Z.of_nat (String.length chars)))
                                    EmptyString)%string).
  by destruct (fillSolution n chars _ s _) as [[[sol err] s'] w'].
Qed.

(** X20.  generateSolution draws every character of the solution from
    the alphabet of the difficulty: letters and digits for "hard", and
    for every other difficulty the capital letters and digits without I,
    O, 0 and 1.  A failing random source gives the error and no solution;
    a negative length makes it panic.  The service stays as it was. *)
Theorem solution_uses_the_alphabet (s : CaptchaService) (w : World) :
  let alphabet :=
    if String.eqb (Difficulty (options s)) "hard"
    then "ABCDEFGHIJKLMNOPQRSTUVWXYZabcdefghijklmnopqrstuvwxyz0123456789"%string
    else "ABCDEFGHJKLMNPQRSTUVWXYZ23456789"%string in
  match result (generateSolution s w) with
  | Returns (solution, None) =>
      allAmong alphabet solution = true
      /\ Z.of_nat (String.length solution) = Length (options s)
  | Returns (solution, Some _) => solution = EmptyString /\ 0 <= Length (options s)
  | Panics _ => Length (options s) < 0
  end
  /\ after (generateSolution s w) = s.
Proof.
  cbv zeta.
  split; [|apply generateSolution_frame].
  pose proof (captcha_properties.generateSolution_length s w) as Hlength.
  unfold generateSolution in *. run.
  destruct (Length (options s) <? 0) eqn:Eneg; [apply Z.ltb_lt in Eneg; by simpl|].
  apply Z.ltb_ge in Eneg.
  set (chars := if String.eqb (Difficulty (options s)) "easy" then _ else _) in *.
  set (alphabet := if String.eqb (Difficulty (options s)) "hard" then _ else _).
  assert (Hsame : chars = alphabet).
  { unfold chars, alphabet.
    destruct (String.eqb_spec (Difficulty (options s)) "easy") as [->|]; [done|].
    by destruct (String.eqb (Difficulty (options s)) "hard"). }
  assert (Hpos : 0 < Z.of_nat (String.length alphabet)).
  { unfold alphabet. by destruct (String.eqb (Difficulty (options s)) "hard"). }
  pose proof (fillSolution_among (Z.to_nat (Length (options s))) alphabet Hpos
                EmptyString s w eq_refl) as Hamong.
  rewrite Hsame in *.
  destruct (fillSolution _ alphabet EmptyString s w) as [[[solution [err|]] s'] w'];
    unfold result in *; simpl in *.
  - done.
  - split; [done|]. by destruct (Hlength solution eq_refl).
Qed.

Transparent Generate.

(** The ways out of Generate. *)
Lemma Generate_outcome
    (generateImage : CaptchaOptions -> string -> World -> Outcome (list Z * error) * World)
    (s : CaptchaService) (w : World) :
  match result (Generate generateImage s w) with
  | Returns (Some c, None) =>
      after (Generate generateImage s w) = mkCaptchaService (Set_ c (store s)) (options s)
      /\ ExpiresAt c = time.Add (CreatedAt c) (TTL (options s))
  | Returns (None, Some _) | Panics _ => after (Generate generateImage s w) = s
  | Returns (Some _, Some _) | Returns (None, None) => False
  end.
Proof.
  unfold Generate. run.
  pose proof (captcha_properties.generateRandomString_frame 16 s w) as Hid.
  destruct (generateRandomString 16 s w) as [[[id [err|]] s1] w1];
    unfold after in Hid; simpl in Hid; subst s1; [done|].
  pose proof (generateSolution_frame s w1) as Hsol.
  destruct (generateSolution s w1) as [[[[solution [err|]]|msg] s2] w2];
    unfold after in Hsol; simpl in Hsol; subst s2; try done.
  by destruct (generateImage (options s) solution w2) as [[[imageData [err|]]|msg] w3].
Qed.

Opaque Generate.

(** X21.  Generate changes the service only when it returns a
    CAPTCHA: the CAPTCHA is then stored under its id, with an expiry one
    TTL after its creation, both from one reading of the clock; when it
    returns an error or panics, the service is as it was.  It never
    returns a CAPTCHA together with an error, nor neither. *)
Theorem Generate_stores_on_success_only
    (generateImage : CaptchaOptions -> string -> World -> Outcome (list Z * error) * World)
    (s : CaptchaService) (w : World) :
  match result (Generate generateImage s w) with
  | Returns (Some c, None) =>
      after (Generate generateImage s w) = mkCaptchaService (Set_ c (store s)) (options s)
      /\ ExpiresAt c = time.Add (CreatedAt c) (TTL (options s))
  | Returns (None, Some _) | Panics _ => after (Generate generateImage s w) = s
  | Returns (Some _, Some _) | Returns (None, None) => False
  end.
Proof. exact (Generate_outcome generateImage s w). Qed.

(** X22.  NewCaptchaService replaces the zero options by the
    defaults, and Generate works with the result: the solution of a
    generated CAPTCHA has the configured length, or 6 characters when the
    length was left 0, and the CAPTCHA expires one TTL after its creation,
    or five minutes after when the TTL was left 0. *)
Theorem zero_options_get_defaults
    (generateImage : CaptchaOptions -> string -> World -> Outcome (list Z * error) * World)
    (given : CaptchaOptions) (w : World) (c : CaptchaData) :
  result (Generate generateImage (NewCaptchaService given) w) = Returns (Some c, None) ->
  Z.of_nat (String.length (Solution c)) = (if Length given =? 0 then 6 else Length given)
  /\ ExpiresAt c - CreatedAt c = (if TTL given =? 0 then 5 * time.Minute else TTL given)
  /\ Get (ID c) (store (after (Generate generateImage (NewCaptchaService given) w)))
     = Some c.
Proof.
  intros Hgen.
  destruct (captcha_properties.Generate_stores _ _ _ _ Hgen) as (Hlen & Hstored & _).
  pose proof (Generate_outcome generateImage (NewCaptchaService given) w) as Hout.
  rewrite Hgen in Hout. destruct Hout as [_ Hexp].
  split; [exact Hlen|]. split; [|exact Hstored].
  rewrite Hexp. unfold time.Add, NewCaptchaService. cbn [options TTL].
  destruct (TTL given =? 0); lia.
Qed.

Lemma zero_options_get_defaults_witness :
  result (Generate samples.drawing
            (NewCaptchaService (mkCaptchaOptions 0 0 0 0 "")) samples.w0)
  = Returns (Some samples.captcha6, None)
  /\ Z.of_nat (String.length (Solution samples.captcha6)) = 6
  /\ ExpiresAt samples.captcha6 - CreatedAt samples.captcha6 = 5 * time.Minute.
Proof.
  assert (H : result (Generate samples.drawing
                        (NewCaptchaService (mkCaptchaOptions 0 0 0 0 "")) samples.w0)
              = Returns (Some samples.captcha6, None)) by (vm_compute; reflexivity).
  destruct (zero_options_get_defaults _ _ _ _ H) as (H1 & H2 & _).
  exact (conj H (conj H1 H2)).
Defined.

Lemma cleanup_lookup (st : CaptchaStore) (w : World) (id : string) :
  Get id (after (cleanup st w))
  = match Get id st with
    | Some c => if time.After (now w) (ExpiresAt c) then None else Some c
    | None => None
    end.
Proof.
  unfold cleanup, Get. run. unfold after. simpl. rewrite map_lookup_filter.
  destruct (captchas st !! id) as [c|]; simpl; [|done].
  case_guard as Hg; simpl in Hg; rewrite Hg || apply not_false_is_true in Hg;
    [done | by rewrite Hg].
Qed.

(** X23.  A round of the cleanup goroutine of the store removes the
    CAPTCHAs that have expired at its reading of the clock, and no other;
    and it does not show in the answers of Validate: at any reading of the
    clock that is not earlier, Validate answers as it would have without
    the round. *)
Theorem cleanup_does_not_show_in_Validate
    (s : CaptchaService) (w w' : World) (id candidate : string) :
  now w <= now w' ->
  Get id (after (cleanup (store s) w))
  = match Get id (store s) with
    | Some c => if time.After (now w) (ExpiresAt c) then None else Some c
    | None => None
    end
  /\ result (Validate id candidate
               (mkCaptchaService (after (cleanup (store s) w)) (options s)) w')
     = result (Validate id candidate s w').
Proof.
  intros Hclock. pose proof (cleanup_lookup (store s) w id) as Hlookup.
  split; [exact Hlookup|].
  destruct (Get id (store s)) as [c|] eqn:Hstored.
  - destruct (time.After (now w) (ExpiresAt c)) eqn:Hexp.
    + assert (Hexp' : time.After (now w') (ExpiresAt c) = true).
      { unfold time.After in *. apply Z.ltb_lt in Hexp. apply Z.ltb_lt. lia. }
      rewrite (captcha_properties.Validate_expired _ _ _ _ _ Hstored Hexp').
      by rewrite captcha_properties.Validate_absent.
    + destruct (time.After (now w') (ExpiresAt c)) eqn:Hexp'.
      * rewrite (captcha_properties.Validate_expired _ _ _ _ _ Hstored Hexp').
        by rewrite (captcha_properties.Validate_expired _ _ _ _ c) by done.
      * rewrite (captcha_properties.Validate_compares _ _ _ _ _ Hstored Hexp').
        by rewrite (captcha_properties.Validate_compares _ _ _ _ c) by done.
  - rewrite (captcha_properties.Validate_absent _ _ _ _ Hstored).
    by rewrite captcha_properties.Validate_absent.
Qed.

Lemma cleanup_does_not_show_in_Validate_witness :
  now samples.w0 <= now samples.w1
  /\ result (Validate (ID samples.captcha1) (Solution samples.captcha1)
               (mkCaptchaService
                  (after (cleanup (store (after samples.generated)) samples.w0))
                  (options (after samples.generated))) samples.w1)
     = result (Validate (ID samples.captcha1) (Solution samples.captcha1)
                 (after samples.generated) samples.w1).
Proof.
  assert (H : now samples.w0 <= now samples.w1) by (vm_compute; discriminate).
  exact (conj H (proj2 (cleanup_does_not_show_in_Validate (after samples.generated)
                          samples.w0 samples.w1 (ID samples.captcha1)
                          (Solution samples.captcha1) H))).
Defined.

End service_properties.
(** ** Package abuse: blocks, windows and cleaning *)

Module detector_properties.
Import abuse.
Import vocabulary.

Ltac step :=
  cbv beta delta [activeBlock getOrCreateTracker blockIP withDenial trackers] in *;
  run.

(** CheckRequest on a blocked IP, and on a blocked address. *)
Lemma CheckRequest_blocked_ip (ad : AbuseDetector) (w : World) (ip address : string)
    (blockedUntil : Time) :
  blockedIPs ad !! ip = Some blockedUntil ->
  time.Before (now w) blockedUntil = true ->
  CheckRequest ip address ad w
  = (mkDetectionResult false "IP address is temporarily blocked" 0 (Some blockedUntil) 0,
     ad, tick w).
Proof. intros H E. unfold CheckRequest. step. by rewrite H, E. Qed.

Lemma CheckRequest_blocked_address (ad : AbuseDetector) (w : World) (ip address : string)
    (blockedUntil : Time) :
  blockedIPs ad !! ip = None ->
  blockedAddrs ad !! address = Some blockedUntil ->
  time.Before (now w) blockedUntil = true ->
  CheckRequest ip address ad w
  = (mkDetectionResult false "Address is temporarily blocked" 0 (Some blockedUntil) 0,
     ad, tick w).
Proof. intros Hip H E. unfold CheckRequest. step. by rewrite Hip, H, E. Qed.

(** X24.  BlockIP blocks for the given duration, or for the configured
    one when the duration is 0: a CheckRequest of the IP whose reading of
    the clock is before the end of the block is denied as "IP address is
    temporarily blocked", with the end of the block and the risk score 0,
    and leaves the detector as BlockIP left it: no tracker is made and
    nothing is counted.  UnblockIP then removes the entry of the IP, an
    earlier one too. *)
Theorem BlockIP_turns_requests_away
    (ad : AbuseDetector) (w : World) (ip address : string) (duration : Duration) :
  let blockedUntil :=
    time.Add (now w) (if duration =? 0 then BlockDuration (config ad) else duration) in
  let blocked := setBlockedIPs (<[ip := blockedUntil]> (blockedIPs ad)) ad in
  time.Before (now (tick w)) blockedUntil = true ->
  BlockIP ip duration ad w = (tt, blocked, tick w)
  /\ CheckRequest ip address blocked (tick w)
     = (mkDetectionResult false "IP address is temporarily blocked" 0 (Some blockedUntil) 0,
        blocked, tick (tick w))
  /\ after (UnblockIP ip blocked (tick w)) = setBlockedIPs (delete ip (blockedIPs ad)) ad.
Proof.
  intros blockedUntil blocked Hbefore. split; [|split].
  - unfold BlockIP. run. done.
  - apply CheckRequest_blocked_ip; [|done]. unfold blocked, setBlockedIPs. simpl.
    apply lookup_insert_eq.
  - unfold UnblockIP, blocked, setBlockedIPs, after. run. simpl.
    by rewrite delete_insert_eq.
Qed.

Lemma BlockIP_turns_requests_away_witness :
  time.Before (now (tick samples.steady))
    (time.Add (now samples.steady) (BlockDuration (config samples.strict))) = true
  /\ Allowed (result (CheckRequest "192.0.2.1" "aura1test"
                        (after (BlockIP "192.0.2.1" 0 samples.strict samples.steady))
                        (tick samples.steady))) = false.
Proof.
  assert (H : time.Before (now (tick samples.steady))
                (time.Add (now samples.steady) (BlockDuration (config samples.strict)))
              = true) by (vm_compute; reflexivity).
  refine (conj H _).
  destruct (BlockIP_turns_requests_away samples.strict samples.steady "192.0.2.1"
              "aura1test" 0 H) as (-> & Hcheck & _).
  unfold after at 1. cbn [fst snd]. by rewrite Hcheck.
Defined.

(** X25.  BlockAddress blocks an address likewise: when the IP has no
    entry among the blocked IPs, a CheckRequest for the address before the
    end of the block is denied as "Address is temporarily blocked" and
    leaves the detector as it was; a block of the IP is reported first.
    UnblockAddress then removes the entry of the address. *)
Theorem BlockAddress_turns_requests_away
    (ad : AbuseDetector) (w : World) (ip address : string) (duration : Duration) :
  let blockedUntil :=
    time.Add (now w) (if duration =? 0 then BlockDuration (config ad) else duration) in
  let blocked := setBlockedAddrs (<[address := blockedUntil]> (blockedAddrs ad)) ad in
  time.Before (now (tick w)) blockedUntil = true ->
  BlockAddress address duration ad w = (tt, blocked, tick w)
  /\ (blockedIPs ad !! ip = None ->
      CheckRequest ip address blocked (tick w)
      = (mkDetectionResult false "Address is temporarily blocked" 0 (Some blockedUntil) 0,
         blocked, tick (tick w)))
  /\ (forall ipUntil : Time,
        blockedIPs ad !! ip = Some ipUntil ->
        time.Before (now (tick w)) ipUntil = true ->
        Reason (result (CheckRequest ip address blocked (tick w)))
        = "IP address is temporarily blocked"%string)
  /\ after (UnblockAddress address blocked (tick w))
     = setBlockedAddrs (delete address (blockedAddrs ad)) ad.
Proof.
  intros blockedUntil blocked Hbefore. split; [|split; [|split]].
  4: { unfold UnblockAddress, blocked, setBlockedAddrs, after. run. simpl.
       by rewrite delete_insert_eq. }
  - unfold BlockAddress. run. done.
  - intros Hip. apply CheckRequest_blocked_address; [done | | done].
    unfold blocked, setBlockedAddrs. simpl. apply lookup_insert_eq.
  - intros ipUntil Hip Hipbefore.
    by rewrite (CheckRequest_blocked_ip blocked (tick w) ip address ipUntil).
Qed.

Lemma BlockAddress_turns_requests_away_witness :
  time.Before (now (tick samples.steady)) (time.Add (now samples.steady) time.Hour) = true
  /\ blockedIPs samples.strict !! "192.0.2.1"%string = None
  /\ Reason (result (CheckRequest "192.0.2.1" "aura1test"
                       (after (BlockAddress "aura1test" time.Hour samples.strict
                                 samples.steady))
                       (tick samples.steady)))
     = "Address is temporarily blocked"%string.
Proof.
  assert (H : time.Before (now (tick samples.steady))
                (time.Add (now samples.steady) time.Hour) = true)
    by (vm_compute; reflexivity).
  assert (Hip : blockedIPs samples.strict !! "192.0.2.1"%string = None) by reflexivity.
  refine (conj H (conj Hip _)).
  destruct (BlockAddress_turns_requests_away samples.strict samples.steady "192.0.2.1"
              "aura1test" time.Hour H) as (-> & Hcheck & _ & _).
  unfold after at 1. cbn [fst snd]. by rewrite (Hcheck Hip).
Defined.

(** What CheckRequest does to the tracker of a tracked IP that no
    block holds back: it restarts the hourly window when an hour has
    passed since its start, and nothing else. *)
Lemma CheckRequest_tracked (ad : AbuseDetector) (w : World) (ip address : string)
    (tr : AttemptTracker) :
  blockedIPs ad !! ip = None ->
  blockedAddrs ad !! address = None ->
  ipAttempts ad !! ip = Some tr ->
  let t := now (tick w) in
  let hourly := (time.Sub t (FirstAttempt tr) <? time.Hour)
                && (MaxAttemptsPerHour (config ad) <=? Count tr) in
  let daily := MaxAttemptsPerDay (config ad) <=? SuccessfulCount tr + FailedCount tr in
  let restarted :=
    mkAttemptTracker 0 t (LastAttempt tr) (SuccessfulCount tr) (FailedCount tr)
                     (Addresses tr) in
  ipAttempts (after (CheckRequest ip address ad w)) !! ip
  = Some (if time.Sub t (FirstAttempt tr) <? time.Hour then tr else restarted)
  /\ (if hourly
      then Allowed (result (CheckRequest ip address ad w)) = false
           /\ Reason (result (CheckRequest ip address ad w))
              = "Too many requests from this IP (hourly limit exceeded)"%string
           /\ blockedIPs (after (CheckRequest ip address ad w)) !! ip
              = Some (time.Add (now (tick (tick w))) (BlockDuration (config ad)))
      else if daily
      then Allowed (result (CheckRequest ip address ad w)) = false
           /\ Reason (result (CheckRequest ip address ad w))
              = "Daily request limit exceeded"%string
           /\ blockedIPs (after (CheckRequest ip address ad w)) !! ip
              = Some (time.Add (now (tick (tick w))) (BlockDuration (config ad)))
      else Reason (result (CheckRequest ip address ad w))
           <> "Too many requests from this IP (hourly limit exceeded)"%string
           /\ Reason (result (CheckRequest ip address ad w))
              <> "Daily request limit exceeded"%string
           /\ blockedIPs (after (CheckRequest ip address ad w)) !! ip = None).
Proof.
  intros Hip Haddr Htr. cbv zeta.
  unfold CheckRequest. step. rewrite Hip, Haddr. step. rewrite Htr. step.
  rewrite abuse_properties.calculateRiskScore_signals. cbn.
  change (now (tick w)) with (clock w (Datatypes.S (ticks w))).
  destruct (time.Sub (clock w (Datatypes.S (ticks w))) (FirstAttempt tr) <? time.Hour) eqn:Ehour;
    cbn [andb].
  - destruct (MaxAttemptsPerHour (config ad) <=? Count tr) eqn:Emax; step; cbn.
    + split; [exact Htr|]. split; [done|]. split; [done|].
      by rewrite lookup_insert_eq.
    + destruct (MaxAttemptsPerDay (config ad) <=? SuccessfulCount tr + FailedCount tr)
        eqn:Eday; step; cbn.
      * split; [exact Htr|]. split; [done|]. split; [done|].
        by rewrite lookup_insert_eq.
      * repeat (match goal with
                | |- context [if ?b then _ else _] => destruct b
                end; cbn);
          (split; [exact Htr|]); repeat split; done.
  - step. cbn.
    destruct (MaxAttemptsPerDay (config ad) <=? SuccessfulCount tr + FailedCount tr)
      eqn:Eday; step; cbn.
    + rewrite lookup_insert_eq. split; [done|]. split; [done|]. split; [done|].
      by rewrite lookup_insert_eq.
    + repeat (match goal with
              | |- context [if ?b then _ else _] => destruct b
              end; cbn);
        rewrite ?lookup_insert_eq, ?Hip; repeat split; done.
Qed.

(** X26.  For a tracked IP that no block holds back, CheckRequest
    restarts the hourly window once an hour has passed since its start:
    the count goes back to 0 and the start to the reading of the clock,
    and the hourly limit does not deny, whatever the count was.  The
    successful and failed attempts are kept, and the "daily" limit is
    compared with their sum whatever the clock says: once the sum has
    reached the limit and the hourly limit does not deny, the request is
    denied as "Daily request limit exceeded" and the IP blocked for the
    configured duration. *)
Theorem hourly_window_restarts_daily_never
    (ad : AbuseDetector) (w : World) (ip address : string) (tr : AttemptTracker) :
  blockedIPs ad !! ip = None ->
  blockedAddrs ad !! address = None ->
  ipAttempts ad !! ip = Some tr ->
  let t := now (tick w) in
  let r := CheckRequest ip address ad w in
  (time.Hour <= time.Sub t (FirstAttempt tr) ->
   ipAttempts (after r) !! ip
   = Some (mkAttemptTracker 0 t (LastAttempt tr) (SuccessfulCount tr) (FailedCount tr)
                            (Addresses tr))
   /\ Reason (result r) <> "Too many requests from this IP (hourly limit exceeded)"%string)
  /\ (MaxAttemptsPerDay (config ad) <= SuccessfulCount tr + FailedCount tr ->
      time.Hour <= time.Sub t (FirstAttempt tr) \/ Count tr < MaxAttemptsPerHour (config ad) ->
      Allowed (result r) = false
      /\ Reason (result r) = "Daily request limit exceeded"%string
      /\ blockedIPs (after r) !! ip
         = Some (time.Add (now (tick (tick w))) (BlockDuration (config ad))))
  /\ exists tr' : AttemptTracker,
       ipAttempts (after r) !! ip = Some tr'
       /\ SuccessfulCount tr' = SuccessfulCount tr
       /\ FailedCount tr' = FailedCount tr
       /\ LastAttempt tr' = LastAttempt tr.
Proof.
  intros Hip Haddr Htr t r.
  destruct (CheckRequest_tracked ad w ip address tr Hip Haddr Htr) as [Htracker Hcases].
  fold t in Htracker, Hcases. fold r in Htracker, Hcases.
  split; [|split].
  - intros Hhour. apply Z.ltb_ge in Hhour. rewrite Hhour in Htracker, Hcases.
    split; [exact Htracker|]. cbn [andb] in Hcases.
    destruct (MaxAttemptsPerDay (config ad) <=? SuccessfulCount tr + FailedCount tr).
    + destruct Hcases as (_ & -> & _). discriminate.
    + by destruct Hcases as (? & _).
  - intros Hday Hnothourly. apply Z.leb_le in Hday. rewrite Hday in Hcases.
    assert (Hh : (time.Sub t (FirstAttempt tr) <? time.Hour)
                 && (MaxAttemptsPerHour (config ad) <=? Count tr) = false).
    { destruct Hnothourly as [H | H].
      - apply Z.ltb_ge in H. by rewrite H.
      - apply Z.leb_gt in H. rewrite H. apply andb_false_r. }
    by rewrite Hh in Hcases.
  - eexists. split; [exact Htracker|].
    by destruct (time.Sub t (FirstAttempt tr) <? time.Hour).
Qed.


Lemma hourly_window_restarts_daily_never_witness :
  blockedIPs samples.seasoned !! "192.0.2.1"%string = None
  /\ blockedAddrs samples.seasoned !! "aura1test"%string = None
  /\ ipAttempts samples.seasoned !! "192.0.2.1"%string
     = Some (trackerOf samples.seasoned "192.0.2.1" samples.steady)
  /\ exists tr' : AttemptTracker,
       ipAttempts (after (CheckRequest "192.0.2.1" "aura1test" samples.seasoned samples.w1))
         !! "192.0.2.1"%string = Some tr'
       /\ SuccessfulCount tr'
          = SuccessfulCount (trackerOf samples.seasoned "192.0.2.1" samples.steady)
       /\ FailedCount tr'
          = FailedCount (trackerOf samples.seasoned "192.0.2.1" samples.steady)
       /\ LastAttempt tr'
          = LastAttempt (trackerOf samples.seasoned "192.0.2.1" samples.steady).
Proof.
  assert (H1 : blockedIPs samples.seasoned !! "192.0.2.1"%string = None)
    by (vm_compute; reflexivity).
  assert (H2 : blockedAddrs samples.seasoned !! "aura1test"%string = None)
    by (vm_compute; reflexivity).
  assert (H3 : ipAttempts samples.seasoned !! "192.0.2.1"%string
               = Some (trackerOf samples.seasoned "192.0.2.1" samples.steady))
    by (vm_compute; reflexivity).
  refine (conj H1 (conj H2 (conj H3 _))).
  exact (proj2 (proj2 (hourly_window_restarts_daily_never samples.seasoned samples.w1
                         "192.0.2.1" "aura1test" _ H1 H2 H3))).
Defined.

(** The tracker CheckRequest makes for an IP it has not seen has no
    last attempt. *)
Lemma CheckRequest_makes_tracker (ad : AbuseDetector) (w : World) (ip address : string) :
  blockedIPs ad !! ip = None ->
  blockedAddrs ad !! address = None ->
  ipAttempts ad !! ip = None ->
  exists tr : AttemptTracker,
    ipAttempts (after (CheckRequest ip address ad w)) !! ip = Some tr
    /\ LastAttempt tr = time.zero /\ Count tr = 0
    /\ SuccessfulCount tr = 0 /\ FailedCount tr = 0.
Proof.
  intros Hip Haddr Htr.
  unfold CheckRequest. step. rewrite Hip, Haddr. step. rewrite Htr. step.
  rewrite abuse_properties.calculateRiskScore_signals. cbn.
  repeat (match goal with
          | |- context [if ?b then _ else _] => destruct b
          end; step; cbn);
    rewrite ?insert_insert_eq, ?lookup_insert_eq; by eexists.
Qed.

Lemma cleanup_trackers (ad : AbuseDetector) (w : World) (key : string) :
  ipAttempts (after (cleanup ad w)) !! key
  = match ipAttempts ad !! key with
    | Some tr => if time.Sub (now w) (LastAttempt tr) <=? 24 * time.Hour then Some tr else None
    | None => None
    end.
Proof.
  unfold cleanup. run. unfold after. simpl. rewrite map_lookup_filter.
  destruct (ipAttempts ad !! key) as [tr|]; simpl; [|done].
  case_guard as Hg; simpl in Hg;
    destruct (Z.leb_spec (time.Sub (now w) (LastAttempt tr)) (24 * time.Hour));
    (done || lia).
Qed.

Lemma since_the_zero_time (t : Time) :
  24 * time.Hour < t -> (time.Sub t time.zero <=? 24 * time.Hour) = false.
Proof.
  intros Ht. apply Z.leb_gt.
  unfold time.Sub, time.zero, time.maxDuration, time.minDuration.
  change (24 * time.Hour) with 86400000000000 in *.
  change (2 ^ 63) with 9223372036854775808.
  destruct (Z.ltb_spec (9223372036854775808 - 1) (t - 0)); [lia|].
  match goal with
  | |- context [if ?a <? ?b then _ else _] => destruct (Z.ltb_spec a b); lia
  end.
Qed.

(** X27.  A round of the cleanup goroutine keeps the tracker of an IP
    exactly when its last attempt is at most 24 hours before the reading
    of the clock, keeps a block exactly when it has not expired, and
    leaves the configuration.  A tracker CheckRequest has made for a new
    IP has no last attempt until RecordAttempt gives it one: the next
    round drops it. *)
Theorem cleanup_drops_idle_trackers (ad : AbuseDetector) (w : World) (key : string) :
  ipAttempts (after (cleanup ad w)) !! key
  = match ipAttempts ad !! key with
    | Some tr => if time.Sub (now w) (LastAttempt tr) <=? 24 * time.Hour then Some tr else None
    | None => None
    end
  /\ blockedIPs (after (cleanup ad w)) !! key
     = match blockedIPs ad !! key with
       | Some blockedUntil => if time.After (now w) blockedUntil then None else Some blockedUntil
       | None => None
       end
  /\ config (after (cleanup ad w)) = config ad
  /\ forall (address : string) (w0 : World),
       blockedIPs ad !! key = None ->
       blockedAddrs ad !! address = None ->
       ipAttempts ad !! key = None ->
       24 * time.Hour < now w ->
       is_Some (ipAttempts (after (CheckRequest key address ad w0)) !! key)
       /\ ipAttempts (after (cleanup (after (CheckRequest key address ad w0)) w)) !! key
          = None.
Proof.
  split; [apply cleanup_trackers|]. split; [|split; [done|]].
  - unfold cleanup. run. unfold after. simpl. rewrite map_lookup_filter.
    destruct (blockedIPs ad !! key) as [blockedUntil|]; simpl; [|done].
    case_guard as Hg; simpl in Hg; rewrite Hg || apply not_false_is_true in Hg;
      [done | by rewrite Hg].
  - intros address w0 Hip Haddr Htr Hclock.
    destruct (CheckRequest_makes_tracker ad w0 key address Hip Haddr Htr)
      as (tr & Hmade & Hlast & _).
    split; [by rewrite Hmade|].
    rewrite cleanup_trackers, Hmade, Hlast.
    by rewrite (since_the_zero_time _ Hclock).
Qed.

Lemma cleanup_drops_idle_trackers_witness :
  blockedIPs samples.strict !! "192.0.2.1"%string = None
  /\ blockedAddrs samples.strict !! "aura1test"%string = None
  /\ ipAttempts samples.strict !! "192.0.2.1"%string = None
  /\ 24 * time.Hour < now samples.w1
  /\ ipAttempts (after (cleanup (after (CheckRequest "192.0.2.1" "aura1test" samples.strict
                                          samples.w0)) samples.w1))
       !! "192.0.2.1"%string = None.
Proof.
  assert (H1 : blockedIPs samples.strict !! "192.0.2.1"%string = None) by reflexivity.
  assert (H2 : blockedAddrs samples.strict !! "aura1test"%string = None) by reflexivity.
  assert (H3 : ipAttempts samples.strict !! "192.0.2.1"%string = None) by reflexivity.
  assert (H4 : 24 * time.Hour < now samples.w1) by (vm_compute; reflexivity).
  refine (conj H1 (conj H2 (conj H3 (conj H4 _)))).
  exact (proj2 (proj2 (proj2 (proj2 (cleanup_drops_idle_trackers samples.strict samples.w1
                                       "192.0.2.1")))
                  "aura1test"%string samples.w0 H1 H2 H3 H4)).
Defined.


Lemma byte_masked (a : Z) : 0 <= a < 256 -> Z.land a 255 = a.
Proof.
  intros Ha. change 255 with (Z.ones 8). rewrite Z.land_ones by lia.
  apply Z.mod_small. lia.
Qed.

Lemma second_byte_of_172_16 (b : Z) :
  0 <= b < 256 -> (16 =? Z.land b 240) = (16 <=? b) && (b <=? 31).
Proof.
  intros Hb.
  assert (H : forallb (fun k => Bool.eqb (16 =? Z.land (Z.of_nat k) 240)
                                         ((16 <=? Z.of_nat k) && (Z.of_nat k <=? 31)))
                      (seq 0 256) = true) by (vm_compute; reflexivity).
  rewrite List.forallb_forall in H. specialize (H (Z.to_nat b)).
  rewrite Z2Nat.id in H by lia. apply Bool.eqb_prop, H, in_seq. lia.
Qed.

(** X28.  isLikelyVPN holds of exactly the IPv4 addresses of the three
    private ranges: a.b.c.d with a = 10, or a = 172 and b from 16 to 31,
    or a = 192 and b = 168; it holds of no address that does not parse
    and of no IPv6 address. *)
Theorem isLikelyVPN_is_private_range (ip : string) :
  (forall a b c d : Z,
     net.ParseIP ip = Some (net.v4InV6Prefix ++ [a; b; c; d]) ->
     0 <= a < 256 -> 0 <= b < 256 ->
     isLikelyVPN ip
     = (a =? 10) || ((a =? 172) && (16 <=? b) && (b <=? 31)) || ((a =? 192) && (b =? 168)))
  /\ (net.ParseIP ip = None -> isLikelyVPN ip = false)
  /\ forall parsedIP : net.IP,
       net.ParseIP ip = Some parsedIP -> length parsedIP = 16%nat ->
       net.To4 parsedIP = None -> isLikelyVPN ip = false.
Proof.
  split; [|split].
  - intros a b c d Hparse Ha Hb. unfold isLikelyVPN. rewrite Hparse.
    unfold commonVPNRanges. cbn [existsb].
    replace (net.ParseCIDR "10.0.0.0/8")
      with (Some (net.mkIPNet [10; 0; 0; 0] [255; 0; 0; 0])) by (vm_compute; reflexivity).
    replace (net.ParseCIDR "172.16.0.0/12")
      with (Some (net.mkIPNet [172; 16; 0; 0] [255; 240; 0; 0])) by (vm_compute; reflexivity).
    replace (net.ParseCIDR "192.168.0.0/16")
      with (Some (net.mkIPNet [192; 168; 0; 0] [255; 255; 0; 0])) by (vm_compute; reflexivity).
    assert (Hto4 : net.To4 (net.v4InV6Prefix ++ [a; b; c; d]) = Some [a; b; c; d]).
    { unfold net.To4, net.bytesEqual.
      cbn [length app net.v4InV6Prefix Nat.eqb firstn skipn andb].
      by rewrite bool_decide_eq_true_2. }
    unfold net.Contains. rewrite Hto4. cbn.
    rewrite !Z.land_0_r, !(byte_masked a Ha), !(byte_masked b Hb).
    change (Z.land 10 255) with 10. change (Z.land 172 255) with 172.
    change (Z.land 192 255) with 192. change (Z.land 168 255) with 168.
    change (Z.land 16 240) with 16. change (Z.land 0 0) with 0.
    change (0 =? 0) with true. rewrite !andb_true_r, orb_false_r.
    rewrite (second_byte_of_172_16 b Hb).
    rewrite (Z.eqb_sym 10 a), (Z.eqb_sym 172 a), (Z.eqb_sym 192 a), (Z.eqb_sym 168 b).
    by destruct (a =? 10), (a =? 172), (16 <=? b), (b <=? 31), (a =? 192), (b =? 168).
  - intros Hparse. unfold isLikelyVPN. by rewrite Hparse.
  - intros parsedIP Hparse Hlen Hto4. unfold isLikelyVPN. rewrite Hparse.
    unfold commonVPNRanges. cbn [existsb].
    replace (net.ParseCIDR "10.0.0.0/8")
      with (Some (net.mkIPNet [10; 0; 0; 0] [255; 0; 0; 0])) by (vm_compute; reflexivity).
    replace (net.ParseCIDR "172.16.0.0/12")
      with (Some (net.mkIPNet [172; 16; 0; 0] [255; 240; 0; 0])) by (vm_compute; reflexivity).
    replace (net.ParseCIDR "192.168.0.0/16")
      with (Some (net.mkIPNet [192; 168; 0; 0] [255; 255; 0; 0])) by (vm_compute; reflexivity).
    unfold net.Contains. rewrite Hto4.
    unfold net.networkNumberAndMask, net.To4.
    cbn [length Nat.eqb net.netIP net.Mask]. rewrite Hlen. done.
Qed.

Lemma isLikelyVPN_is_private_range_witness :
  net.ParseIP "172.31.255.1" = Some (net.v4InV6Prefix ++ [172; 31; 255; 1])
  /\ 0 <= 172 < 256 /\ 0 <= 31 < 256
  /\ isLikelyVPN "172.31.255.1"
     = (172 =? 10) || ((172 =? 172) && (16 <=? 31) && (31 <=? 31))
       || ((172 =? 192) && (31 =? 168)).
Proof.
  assert (H1 : net.ParseIP "172.31.255.1" = Some (net.v4InV6Prefix ++ [172; 31; 255; 1]))
    by (vm_compute; reflexivity).
  assert (H2 : 0 <= 172 < 256) by lia.
  assert (H3 : 0 <= 31 < 256) by lia.
  exact (conj H1 (conj H2 (conj H3
           (proj1 (isLikelyVPN_is_private_range "172.31.255.1") 172 31 255 1 H1 H2 H3)))).
Defined.

(** The sums of GetStats after one tracker has been written. *)
Lemma total_insert (counter : AttemptTracker -> Z) (m : gmap string AttemptTracker)
    (key : string) (tr : AttemptTracker) :
  total counter (<[key := tr]> m)
  = total counter m - default 0 (counter <$> m !! key) + counter tr.
Proof.
  assert (Hnew : forall (m' : gmap string AttemptTracker) (x : AttemptTracker),
            m' !! key = None -> total counter (<[key := x]> m') = total counter m' + counter x).
  { intros m' x Hk. unfold total. rewrite map_fold_insert_L; [done | | done].
    intros. lia. }
  destruct (m !! key) as [old|] eqn:Hk; simpl.
  - rewrite <- (insert_delete_id m key old Hk) at 2.
    rewrite <- insert_delete_eq.
    rewrite !Hnew by apply lookup_delete_eq. lia.
  - rewrite Hnew by done. lia.
Qed.

(** X29.  GetStats adds up the counts of the trackers of the IPs.  One
    RecordAttempt raises the total of attempts by one, and the total of
    the successful or of the failed attempts by one; the tracked IPs and
    addresses grow by one when the key is new; the blocks and the
    configuration stay. *)
Theorem GetStats_follows_RecordAttempt
    (ad : AbuseDetector) (w w' : World) (ip address : string) (success : bool) :
  let before := result (GetStats ad w') in
  let recorded := result (GetStats (after (RecordAttempt ip address success ad w)) w') in
  total_attempts recorded = total_attempts before + 1
  /\ successful_attempts recorded
     = successful_attempts before + (if success then 1 else 0)
  /\ failed_attempts recorded = failed_attempts before + (if success then 0 else 1)
  /\ tracked_ips recorded
     = tracked_ips before + match ipAttempts ad !! ip with Some _ => 0 | None => 1 end
  /\ tracked_addresses recorded
     = tracked_addresses before + match addressAttempts ad !! address with Some _ => 0 | None => 1 end
  /\ blocked_ips recorded = blocked_ips before
  /\ blocked_addresses recorded = blocked_addresses before
  /\ stats_config recorded = stats_config before.
Proof.
  cbv zeta. unfold GetStats, RecordAttempt. step. unfold result, after.
  destruct (ipAttempts ad !! ip) as [tr|] eqn:Hip;
    destruct (addressAttempts ad !! address) as [atr|] eqn:Haddr;
    step; cbn; rewrite ?Hip, ?Haddr; step; cbn;
    rewrite ?insert_insert_eq, !total_insert, ?Hip; cbn;
    rewrite ?(map_size_insert_None ip) by done;
    rewrite ?(map_size_insert_None address) by done;
    rewrite ?(map_size_insert_Some ip) by (by eexists);
    rewrite ?(map_size_insert_Some address) by (by eexists);
    destruct success; repeat split; lia.
Qed.

End detector_properties.

(** ** Package api: the allowlists *)

Module allowlist_properties.
Import api.

(** X30.  An empty allowlist admits every address and every IP.  An
    allowlist with entries admits an address exactly when it is one of
    them, and an IP exactly when it is one of them as a string, or parses
    and lies in a network that an entry with a slash parses to; so for an
    allowlist without a slash in any entry, the IP is compared as the
    address is, character by character. *)
Theorem allowlists_admit (ip address : string) (allowlist : list string) :
  addressAllowed address [] = true
  /\ ipAllowed ip [] = true
  /\ (allowlist <> [] ->
      (addressAllowed address allowlist = true <-> List.In address allowlist)
      /\ (ipAllowed ip allowlist = true <->
          List.In ip allowlist
          \/ exists (entry : string) (network : net.IPNet) (parsedIP : net.IP),
               List.In entry allowlist /\ hasSlash entry = true
               /\ net.ParseCIDR entry = Some network
               /\ net.ParseIP ip = Some parsedIP
               /\ net.Contains network parsedIP = true))
  /\ (forallb (fun entry => negb (hasSlash entry)) allowlist = true ->
      ipAllowed ip allowlist = addressAllowed ip allowlist).
Proof.
  split; [done|]. split; [done|]. split.
  - intros Hne. unfold addressAllowed, ipAllowed.
    destruct allowlist as [|first rest]; [done|]. cbn [length Nat.eqb].
    split.
    + rewrite existsb_exists. split.
      * intros (entry & Hin & Heq). apply String.eqb_eq in Heq. by subst.
      * intros Hin. exists address. split; [done | apply String.eqb_refl].
    + rewrite existsb_exists. split.
      * intros (entry & Hin & Hentry).
        destruct (String.eqb_spec entry ip) as [->|Hdiff]; [by left|].
        destruct (hasSlash entry) eqn:Hslash; [|discriminate].
        destruct (net.ParseCIDR entry) as [network|] eqn:Hcidr; [|discriminate].
        destruct (net.ParseIP ip) as [parsedIP|] eqn:Hparse; [|discriminate].
        right. by exists entry, network, parsedIP.
      * intros [Hin | (entry & network & parsedIP & Hin & Hslash & Hcidr & Hparse & Hc)].
        -- exists ip. split; [done|]. by rewrite String.eqb_refl.
        -- exists entry. split; [done|].
           destruct (String.eqb entry ip); [done|]. by rewrite Hslash, Hcidr, Hparse.
  - intros Hplain. unfold addressAllowed, ipAllowed.
    destruct (length allowlist =? 0)%nat; [done|].
    induction allowlist as [|entry rest IH]; [done|].
    cbn [forallb existsb] in *. apply andb_true_iff in Hplain as [Hentry Hrest].
    rewrite (IH Hrest). apply negb_true_iff in Hentry. rewrite Hentry.
    rewrite (String.eqb_sym entry ip). by destruct (String.eqb ip entry).
Qed.

Lemma allowlists_admit_witness :
  ["10.0.0.0/8"; "192.0.2.7"]%string <> []
  /\ (ipAllowed "10.1.2.3" ["10.0.0.0/8"; "192.0.2.7"]%string = true <->
      List.In "10.1.2.3"%string ["10.0.0.0/8"; "192.0.2.7"]%string
      \/ exists (entry : string) (network : net.IPNet) (parsedIP : net.IP),
           List.In entry ["10.0.0.0/8"; "192.0.2.7"]%string /\ hasSlash entry = true
           /\ net.ParseCIDR entry = Some network
           /\ net.ParseIP "10.1.2.3" = Some parsedIP
           /\ net.Contains network parsedIP = true).
Proof.
  assert (H : ["10.0.0.0/8"; "192.0.2.7"]%string <> []) by discriminate.
  exact (conj H (proj2 (proj1 (proj2 (proj2 (allowlists_admit "10.1.2.3" "aura1test"
                                               ["10.0.0.0/8"; "192.0.2.7"]%string)))
                          H))).
Defined.

End allowlist_properties.
